(** * GMSO LAMMPS data codec: a shallow embedding

    The development follows [gmso/formats/lammpsdata.py] (reader and
    writer of LAMMPS data files), [gmso/core/atom_type.py] and
    [topology/core/atom_type.py] (equality of atom types).

    Conventions of the embedding:
    - Python [str] is [string]; a text file is the list of its lines,
      each line ending with its newline character, as [readlines()]
      returns them for a file opened in text mode.
    - Python [float] is idealised as an exact rational [Q], kept in
      reduced form; decimal rounding done by the code ([round],
      [{:.6f}]) is modelled exactly, binary rounding error is not.
    - Exceptions are values of [exn]; a call returns [outcome]. *)

From Stdlib Require Import List String Ascii Bool Arith ZArith QArith Qround Qabs Lia.
From Stdlib Require Import Permutation Sorted Reals Lra.
Import ListNotations.
Open Scope string_scope.

(** ** Python primitives used by the codec *)

Module Py.

(** [str.isspace] on the ASCII range: TAB..CR, FS..US and space. *)
Definition isspace (c : ascii) : bool :=
  let n := N_of_ascii c in
  (((9 <=? n) && (n <=? 13)) || ((28 <=? n) && (n <=? 32)))%N.

(** [s.split()]: maximal runs of non-whitespace characters. [cur] is the
    token being read. *)
Fixpoint split_from (cur : string) (s : string) : list string :=
  match s with
  | EmptyString => match cur with EmptyString => [] | _ => [cur] end
  | String c s' =>
      if isspace c then
        match cur with
        | EmptyString => split_from EmptyString s'
        | _ => cur :: split_from EmptyString s'
        end
      else split_from (cur ++ String c EmptyString) s'
  end.

Definition split (s : string) : list string := split_from EmptyString s.

(** [x in l] for a list of strings. *)
Definition mem (x : string) (l : list string) : bool :=
  existsb (String.eqb x) l.

(** [needle in hay] for two strings (substring test). *)
Fixpoint contains (needle hay : string) : bool :=
  prefix needle hay ||
  match hay with
  | EmptyString => false
  | String _ h => contains needle h
  end.

(** [s.capitalize()]: first character upper-cased, the rest lower-cased. *)
Definition upper (c : ascii) : ascii :=
  let n := N_of_ascii c in
  if ((97 <=? n) && (n <=? 122))%N then ascii_of_N (n - 32) else c.

Definition lower (c : ascii) : ascii :=
  let n := N_of_ascii c in
  if ((65 <=? n) && (n <=? 90))%N then ascii_of_N (n + 32) else c.

Fixpoint map_string (f : ascii -> ascii) (s : string) : string :=
  match s with
  | EmptyString => EmptyString
  | String c s' => String (f c) (map_string f s')
  end.

Definition capitalize (s : string) : string :=
  match s with
  | EmptyString => EmptyString
  | String c s' => String (upper c) (map_string lower s')
  end.

(** Decimal digits. *)
Definition digit_val (c : ascii) : option Z :=
  let n := N_of_ascii c in
  if ((48 <=? n) && (n <=? 57))%N then Some (Z.of_N (n - 48)) else None.

(** Value of a non-empty run of digits, most significant first. *)
Fixpoint digits_from (acc : Z) (s : string) : option Z :=
  match s with
  | EmptyString => Some acc
  | String c s' =>
      match digit_val c with
      | Some d => digits_from (10 * acc + d) s'
      | None => None
      end
  end.

(** The digits of a run in which single underscores may stand between
    digits, as [int] and [float] accept them ([int("1_000")] is 1000);
    [None] when an underscore is not followed by a digit. *)
Fixpoint ungroup (s : string) : option string :=
  match s with
  | EmptyString => Some EmptyString
  | String c s' =>
      if Ascii.eqb c "_" then
        match s' with
        | String d _ => match digit_val d with Some _ => ungroup s' | None => None end
        | EmptyString => None
        end
      else match ungroup s' with Some r => Some (String c r) | None => None end
  end.

(** A run of digits that may be empty: its digits without the
    underscores; a run starts with a digit. *)
Definition digit_run (s : string) : option string :=
  match s with
  | EmptyString => Some EmptyString
  | String c _ =>
      match digit_val c with
      | Some _ => ungroup s
      | None => None
      end
  end.

Definition digits (s : string) : option Z :=
  match s with
  | EmptyString => None
  | _ => match digit_run s with Some r => digits_from 0 r | None => None end
  end.

(** An optional sign in front of [s]. *)
Definition strip_sign (s : string) : bool * string :=
  match s with
  | String "-" r => (true, r)
  | String "+" r => (false, r)
  | _ => (false, s)
  end.

(** [int(s)] on a token: an optional sign and at least one digit, with
    single underscores allowed between digits; [None] stands for the
    [ValueError]. The limit that recent versions put on the number of
    digits is not modelled. *)
Definition int (s : string) : option Z :=
  let '(neg, r) := strip_sign s in
  match digits r with
  | Some v => Some (if neg then - v else v)%Z
  | None => None
  end.

(** Split at the first occurrence of a character satisfying [p]. *)
Fixpoint break_at (p : ascii -> bool) (s : string) : string * option string :=
  match s with
  | EmptyString => (EmptyString, None)
  | String c s' =>
      if p c then (EmptyString, Some s')
      else let '(a, b) := break_at p s' in (String c a, b)
  end.

Definition is_dot (c : ascii) : bool := Ascii.eqb c ".".
Definition is_e (c : ascii) : bool := Ascii.eqb c "e" || Ascii.eqb c "E".

Definition pow10 (n : nat) : Z := (10 ^ Z.of_nat n)%Z.

(** [10^e] as a reduced rational, for any integer exponent. *)
Definition Qpow10 (e : Z) : Q :=
  if (0 <=? e)%Z then inject_Z (10 ^ e) else Qred (/ inject_Z (10 ^ (- e)))%Q.

(** The mantissa [ddd], [ddd.], [.ddd] or [ddd.ddd] of a float literal. *)
Definition mantissa (s : string) : option Q :=
  match break_at is_dot s with
  | (ip, None) =>
      match digits ip with Some v => Some (inject_Z v) | None => None end
  | (ip, Some fp) =>
      match ip, fp with
      | EmptyString, EmptyString => None
      | _, _ =>
          match digit_run ip, digit_run fp with
          | Some ds, Some fs =>
              match digits_from 0 ds, digits_from 0 fs with
              | Some a, Some b =>
                  Some (Qred (inject_Z a + inject_Z b * Qpow10 (- Z.of_nat (String.length fs)))%Q)
              | _, _ => None
              end
          | _, _ => None
          end
      end
  end.

(** [float(s)] on a token: sign, mantissa, optional exponent, with
    single underscores allowed between digits. [None] stands for the
    [ValueError]; the literals [inf], [infinity] and [nan], which
    [float] accepts, have no rational value and are outside the model:
    no statement below draws a conclusion from [None] on them. *)
Definition float (s : string) : option Q :=
  let '(neg, r) := strip_sign s in
  let '(m, ex) := break_at is_e r in
  match mantissa m with
  | None => None
  | Some q =>
      let signed := if neg then Qred (- q)%Q else q in
      match ex with
      | None => Some signed
      | Some es =>
          match int es with
          | Some e => Some (Qred (signed * Qpow10 e)%Q)
          | None => None
          end
      end
  end.

(** *** Number formatting *)

Fixpoint repeat_char (c : ascii) (n : nat) : string :=
  match n with
  | O => EmptyString
  | S n' => String c (repeat_char c n')
  end.

(** [s.rjust(w)] and [s.ljust(w)]. *)
Definition rjust (w : nat) (s : string) : string :=
  repeat_char " " (w - String.length s) ++ s.

Definition ljust (w : nat) (s : string) : string :=
  s ++ repeat_char " " (w - String.length s).

Definition digit_char (d : Z) : ascii := ascii_of_N (48 + Z.to_N d).

(** The [n] lowest decimal digits of [z], most significant first. *)
Fixpoint digits_fixed (n : nat) (z : Z) (acc : string) : string :=
  match n with
  | O => acc
  | S n' => digits_fixed n' (z / 10) (String (digit_char (z mod 10)) acc)
  end.

Fixpoint ndigits_fuel (fuel : nat) (z : Z) : nat :=
  match fuel with
  | O => 1
  | S f => if (z <? 10)%Z then 1 else S (ndigits_fuel f (z / 10))
  end.

(** Number of decimal digits of a non-negative integer (one for zero). *)
Definition ndigits (z : Z) : nat := ndigits_fuel (S (Z.to_nat (Z.log2 z))) z.

Definition nat_str (z : Z) : string := digits_fixed (ndigits z) z EmptyString.

(** [{:d}]. *)
Definition fmt_d (z : Z) : string :=
  if (z <? 0)%Z then String "-" (nat_str (- z)) else nat_str z.

(** Rounding to the nearest integer, ties to even, as Python's [round]
    and its float formatting do. *)
Definition round_half_even (q : Q) : Z :=
  let f := Qfloor q in
  match ((q - inject_Z f) ?= (1 # 2))%Q with
  | Lt => f
  | Gt => (f + 1)%Z
  | Eq => if Z.even f then f else (f + 1)%Z
  end.

Definition Qneg (q : Q) : bool := (Qnum q <? 0)%Z.

(** [round(q, n)]. *)
Definition round_decimals (n : nat) (q : Q) : Q :=
  Qred (inject_Z (round_half_even (q * inject_Z (pow10 n))) / inject_Z (pow10 n))%Q.

(** [{:.nf}]: fixed notation with [n] digits after the point. The sign of
    a negative value is kept when it rounds to zero. The exact value is
    rounded, half to even; Python rounds the binary double, which for a
    decimal tie lies on one side of it, so the two may differ in the
    last digit on ties. *)
Definition fmt_f (n : nat) (q : Q) : string :=
  let m := round_half_even (Qabs q * inject_Z (pow10 n))%Q in
  let body := nat_str (m / pow10 n) ++ "." ++ digits_fixed n (m mod pow10 n) EmptyString in
  if Qneg q then String "-" body else body.

Fixpoint lead_fuel (fuel : nat) (n d : Z) : Z :=
  match fuel with
  | O => 1
  | S f => if (d <=? 10 * n)%Z then 1 else (1 + lead_fuel f (10 * n) d)%Z
  end.

(** Decimal exponent of a positive rational: the [e] with
    [10^e <= q < 10^(e+1)]. *)
Definition dec_exp (q : Q) : Z :=
  let n := Qnum q in
  let d := Zpos (Qden q) in
  if (d <=? n)%Z then (Z.of_nat (ndigits (n / d)) - 1)%Z
  else (- lead_fuel (S (Z.to_nat (Z.log2 d))) n d)%Z.

(** Drop the trailing zeros of a digit string, keeping [keep] leading
    characters at least. *)
Fixpoint strip_zeros (keep : nat) (s : string) : string :=
  match s with
  | EmptyString => EmptyString
  | String c s' =>
      match keep with
      | S k => String c (strip_zeros k s')
      | O =>
          match strip_zeros O s' with
          | EmptyString => if Ascii.eqb c "0" then EmptyString else String c EmptyString
          | r => String c r
          end
      end
  end.

Definition take (n : nat) (s : string) : string := substring 0 n s.
Definition drop (n : nat) (s : string) : string := substring n (String.length s - n) s.

(** Python's float formatting without a type character: [p] significant
    digits, scientific notation when the decimal exponent is below [-4]
    or at least [thr], trailing zeros removed, and at least one digit
    after the point in fixed notation. [repr] is [p = 17, thr = 16] and
    [{:.8}] is [p = 8, thr = 7] (with a precision [p] the threshold is
    [p - 1], since a digit is forced after the point). *)
Definition fmt_general (p : nat) (thr : Z) (q : Q) : string :=
  if Qeq_bool q 0%Q then "0.0" else
  let a := Qabs q in
  let e0 := dec_exp a in
  let m0 := round_half_even (a * Qpow10 (Z.of_nat p - 1 - e0))%Q in
  let '(m, e) := if (pow10 p <=? m0)%Z then ((m0 / 10)%Z, (e0 + 1)%Z) else (m0, e0) in
  let ds := strip_zeros 1 (digits_fixed p m EmptyString) in
  let body :=
    if ((-4 <=? e) && (e <? thr))%Z then
      if (0 <=? e)%Z then
        let k := S (Z.to_nat e) in
        let ip := take k (ds ++ repeat_char "0" k) in
        let fp := drop k ds in
        ip ++ "." ++ match fp with EmptyString => "0" | _ => fp end
      else "0." ++ repeat_char "0" (Z.to_nat (- e - 1)) ++ ds
    else
      let fp := drop 1 ds in
      take 1 ds ++ match fp with EmptyString => "" | _ => "." ++ fp end
      ++ "e" ++ (if (e <? 0)%Z then "-" else "+")
      ++ digits_fixed (Nat.max 2 (ndigits (Z.abs e))) (Z.abs e) EmptyString
  in
  if Qneg q then String "-" body else body.

(** [str(x)] / [{}] for a float. *)
Definition repr_float (q : Q) : string := fmt_general 17 16 q.

End Py.

(** ** Exceptions and results *)

Inductive exn : Type :=
| ValueError (msg : string)
| KeyError (key : string)
| IndexError
| TypeError (msg : string)
| AttributeError (msg : string)
| UnboundLocalError (name : string)
| FileNotFoundError (msg : string)
| AssertionError (msg : string)
| ZeroDivisionError
| UnitConversionError (msg : string)
| IncompatiblePotentialError (msg : string)
| GMSOError (msg : string).

Inductive outcome (A : Type) : Type :=
| Ok (a : A)
| Raise (e : exn).

Arguments Ok {A} a.
Arguments Raise {A} e.

Definition bind {A B : Type} (m : outcome A) (k : A -> outcome B) : outcome B :=
  match m with
  | Ok a => k a
  | Raise e => Raise e
  end.

Declare Scope py_scope.
Delimit Scope py_scope with py.
Notation "x <- m ;; k" := (bind m (fun x => k))
  (at level 61, m at next level, right associativity) : py_scope.
Notation "' p <- m ;; k" := (bind m (fun x => let p := x in k))
  (at level 61, p pattern, m at next level, right associativity) : py_scope.
Open Scope py_scope.

(** [o] or the exception [e] when it is missing. *)
Definition or_raise {A : Type} (o : option A) (e : exn) : outcome A :=
  match o with
  | Some a => Ok a
  | None => Raise e
  end.

(** [l[i]] on a list, with Python's [IndexError]; negative indices count
    from the end. *)
Definition getitem {A : Type} (l : list A) (i : Z) : outcome A :=
  let n := Z.of_nat (List.length l) in
  let j := if (i <? 0)%Z then (n + i)%Z else i in
  if ((0 <=? j) && (j <? n))%Z then or_raise (nth_error l (Z.to_nat j)) IndexError
  else Raise IndexError.

(** [l[a:b]]: a slice never raises; a negative bound counts from the
    end and both bounds are clipped to the list. *)
Definition clip_index (n i : Z) : Z :=
  if (i <? 0)%Z then Z.max 0 (n + i) else Z.min i n.

Definition slice {A : Type} (l : list A) (a b : Z) : list A :=
  let n := Z.of_nat (List.length l) in
  let a' := clip_index n a in
  let b' := clip_index n b in
  firstn (Z.to_nat (b' - a')) (skipn (Z.to_nat a') l).

(** A string between double quotes, as the error messages show it. *)
Definition quoted (s : string) : string :=
  String "034" (s ++ String "034" EmptyString).

(** [int(tok)] and [float(tok)] with their [ValueError]. *)
Definition py_int (tok : string) : outcome Z :=
  or_raise (Py.int tok) (ValueError ("invalid literal for int(): " ++ tok)).

Definition py_float (tok : string) : outcome Q :=
  or_raise (Py.float tok) (ValueError ("could not convert string to float: " ++ tok)).

(** [mapM] over a list, left to right. *)
Fixpoint mapM {A B : Type} (f : A -> outcome B) (l : list A) : outcome (list B) :=
  match l with
  | [] => Ok []
  | a :: l' => b <- f a ;; bs <- mapM f l' ;; Ok (b :: bs)
  end.

(** ** Units and quantities *)

Inductive Unit : Type :=
| U_dimensionless
| U_named (name : string)
| U_mul (a b : Unit)
| U_div (a b : Unit)
| U_pow (a : Unit) (n : Z).

Definition u_radian : Unit := U_named "rad".
Definition u_degree : Unit := U_named "degree".

Record quantity : Type := mkQ { value : Q; units : Unit }.

(** [x * unit], [q / unit], [q * 2] as the reader writes them. *)
Definition q_of (x : Q) (u : Unit) : quantity := mkQ x u.
Definition q_div_unit (q : quantity) (u : Unit) : quantity :=
  mkQ (value q) (U_div (units q) u).
Definition q_scale (q : quantity) (k : Q) : quantity :=
  mkQ (Qred (value q * k)) (units q).

Fixpoint unit_eqb (a b : Unit) : bool :=
  match a, b with
  | U_dimensionless, U_dimensionless => true
  | U_named x, U_named y => String.eqb x y
  | U_mul a1 a2, U_mul b1 b2 => unit_eqb a1 b1 && unit_eqb a2 b2
  | U_div a1 a2, U_div b1 b2 => unit_eqb a1 b1 && unit_eqb a2 b2
  | U_pow a1 n, U_pow b1 m => unit_eqb a1 b1 && (n =? m)%Z
  | _, _ => false
  end.

(** Modelled from the spec: the unit registry of the [unyt] package is
    not in the sources. A named unit has a physical dimension and a scale
    relative to a reference unit of that dimension; "unit-normalized
    values" (spec, section 3) are values multiplied by that scale. *)
Inductive dim : Type :=
| D_length | D_energy | D_mass | D_charge | D_angle | D_time | D_temperature.

Definition dim_index (d : dim) : nat :=
  match d with
  | D_length => 0 | D_energy => 1 | D_mass => 2 | D_charge => 3
  | D_angle => 4 | D_time => 5 | D_temperature => 6
  end.

Definition dimvec : Type := list Z.

Definition dv_zero : dimvec := [0; 0; 0; 0; 0; 0; 0]%Z.

Definition dv_unit (d : dim) : dimvec :=
  map (fun i => if Nat.eqb i (dim_index d) then 1%Z else 0%Z) (seq 0 7).

Fixpoint dv_add (a b : dimvec) : dimvec :=
  match a, b with
  | x :: a', y :: b' => (x + y)%Z :: dv_add a' b'
  | _, _ => []
  end.

Definition dv_scale (k : Z) (a : dimvec) : dimvec := map (Z.mul k) a.

Definition dv_eqb (a b : dimvec) : bool :=
  (Nat.eqb (List.length a) (List.length b))
  && forallb (fun p => (fst p =? snd p)%Z) (combine a b).

Definition registry (name : string) : option (dim * Q) :=
  if String.eqb name "angstrom" then Some (D_length, 1%Q)
  else if String.eqb name "nm" then Some (D_length, 10%Q)
  else if String.eqb name "kcal/mol" then Some (D_energy, 1%Q)
  else if String.eqb name "kJ/mol" then Some (D_energy, 1000 # 4184)
  else if String.eqb name "amu" then Some (D_mass, 1%Q)
  else if String.eqb name "g/mol" then Some (D_mass, 1%Q)
  else if String.eqb name "elementary_charge" then Some (D_charge, 1%Q)
  else if String.eqb name "degree" then Some (D_angle, 1%Q)
  else if String.eqb name "rad" then Some (D_angle, 57.29577951308232%Q)
  else if String.eqb name "fs" then Some (D_time, 1%Q)
  else if String.eqb name "K" then Some (D_temperature, 1%Q)
  else None.

(** Scale and dimension of a unit expression; [None] for a name the
    registry does not know. *)
Fixpoint normalize (u : Unit) : option (Q * dimvec) :=
  match u with
  | U_dimensionless => Some (1%Q, dv_zero)
  | U_named n =>
      match registry n with
      | Some (d, s) => Some (s, dv_unit d)
      | None => None
      end
  | U_mul a b =>
      match normalize a, normalize b with
      | Some (sa, da), Some (sb, db) => Some (Qred (sa * sb), dv_add da db)
      | _, _ => None
      end
  | U_div a b =>
      match normalize a, normalize b with
      | Some (sa, da), Some (sb, db) => Some (Qred (sa / sb), dv_add da (dv_scale (-1) db))
      | _, _ => None
      end
  | U_pow a n =>
      match normalize a with
      | Some (sa, da) => Some (Qred (sa ^ n), dv_scale n da)
      | None => None
      end
  end.

(** The unit-normalized value of a quantity, with its dimension. *)
Definition normal_value (q : quantity) : option (Q * dimvec) :=
  match normalize (units q) with
  | Some (s, d) => Some (Qred (value q * s), d)
  | None => None
  end.

(** [a == b] on two quantities: same dimension and same normalized
    value; quantities whose unit is unknown to the registry compare by
    their unit expression and value. *)
Definition unyt_eqb (a b : quantity) : bool :=
  match normal_value a, normal_value b with
  | Some (va, da), Some (vb, db) => dv_eqb da db && Qeq_bool va vb
  | _, _ => unit_eqb (units a) (units b) && Qeq_bool (value a) (value b)
  end.

(** Modelled from the spec: [gmso.utils.misc.unyt_compare] is not in the
    sources; it compares two sequences of parameter values by their
    unit-normalized values, pairwise. *)
Fixpoint unyt_compare (xs ys : list quantity) : bool :=
  match xs, ys with
  | x :: xs', y :: ys' => unyt_eqb x y && unyt_compare xs' ys'
  | _, _ => true
  end.

(** ** The unit system handed to the codec *)

(** [base_unyts]: the name of the style and its table from dimension name
    to base unit ([LAMMPS_UnitSystems] is not in the sources; the table
    is a component of the value). *)
Record base_unyts : Type := mkBase {
  usystem_name : string;
  usystem : string -> option Unit
}.

(** [get_units(base_unyts, dimension)]. *)
Definition get_units (b : base_unyts) (dimension : string) : outcome Unit :=
  if String.eqb (usystem_name b) "lj" then
    if String.eqb dimension "angle" then Ok u_radian
    else Ok U_dimensionless
  else if String.eqb dimension "angle_eq" then Ok u_degree
  else or_raise (usystem b dimension) (KeyError dimension).

(** ** Data model *)

(** Sets of strings ([independent_variables], [overrides], the key view
    of a dict) compare by mutual inclusion. *)
Definition subset_b (a b : list string) : bool :=
  forallb (fun x => Py.mem x b) a.

Definition set_eqb (a b : list string) : bool := subset_b a b && subset_b b a.

(** [gmso.core.atom_type.AtomType]. [at_id] is the identity of the
    object (what [is] compares). A [dict] of parameters is an association
    list in insertion order. *)
Record AtomType : Type := mkAtomType {
  at_id : nat;
  at_name : string;
  at_mass : quantity;
  at_charge : quantity;
  at_expression : string;
  at_parameters : list (string * quantity);
  at_independent_variables : list string;
  at_atomclass : string;
  at_doi : string;
  at_overrides : list string;
  at_definition : string;
  at_description : string
}.

(** Any Python object that may be compared with an atom type. *)
Inductive pyobj : Type :=
| PyAtomType (a : AtomType)
| PyOther (hash_value : Z).

Module GmsoAtomType.

(** [AtomType.__eq__] of [gmso/core/atom_type.py]. *)
Definition eq (self : AtomType) (other : pyobj) : bool :=
  match other with
  | PyOther _ => false
  | PyAtomType o =>
      if Nat.eqb (at_id o) (at_id self) then true
      else
        String.eqb (at_name self) (at_name o)
        && String.eqb (at_expression self) (at_expression o)
        && set_eqb (at_independent_variables self) (at_independent_variables o)
        && set_eqb (map fst (at_parameters self)) (map fst (at_parameters o))
        && unyt_compare (map snd (at_parameters self)) (map snd (at_parameters o))
        && unyt_eqb (at_charge self) (at_charge o)
        && String.eqb (at_atomclass self) (at_atomclass o)
        && unyt_eqb (at_mass self) (at_mass o)
        && String.eqb (at_doi self) (at_doi o)
        && set_eqb (at_overrides self) (at_overrides o)
        && String.eqb (at_definition self) (at_definition o)
        && String.eqb (at_description self) (at_description o)
  end.

End GmsoAtomType.

Module TopologyAtomType.

(** The tuple hashed by [AtomType.__hash__] of
    [topology/core/atom_type.py]; [unyt_to_hashable] is the normalized
    value of a quantity. *)
Definition hash_key : Type :=
  (string * option (Q * dimvec) * option (Q * dimvec) * string
   * list string * list string * list (option (Q * dimvec)))%type.

Definition key (a : AtomType) : hash_key :=
  (at_name a, normal_value (at_mass a), normal_value (at_charge a),
   at_expression a, at_independent_variables a,
   map fst (at_parameters a), map (fun p => normal_value (snd p)) (at_parameters a)).

Section Hash.

(** Python's [hash] on tuples. *)
Variable py_hash : hash_key -> Z.

Definition hash (a : AtomType) : Z := py_hash (key a).

Definition hash_obj (o : pyobj) : Z :=
  match o with
  | PyAtomType a => hash a
  | PyOther h => h
  end.

(** [AtomType.__eq__]: equality of hashes. *)
Definition eq (self : AtomType) (other : pyobj) : bool :=
  (hash self =? hash_obj other)%Z.

End Hash.

End TopologyAtomType.

(** Bond, angle, dihedral and improper types: the four classes share
    their fields; [member_types] is the private annotation the reader
    attaches. *)
Inductive conn_kind : Type := Bond | Angle | Dihedral | Improper.

Record ConnType : Type := mkConnType {
  ct_kind : conn_kind;
  ct_name : string;
  ct_expression : string;
  ct_parameters : list (string * quantity);
  ct_independent_variables : list string;
  ct_member_types : option (list string)
}.

(** [MoleculeType(name, number)]. *)
Record MoleculeType : Type := mkMolecule { mol_name : string; mol_number : Z }.

(** A site ([gmso.core.atom.Atom]); [site_id] is the identity of the
    object, by which connections refer to their members. *)
Record Site : Type := mkSite {
  site_id : nat;
  site_name : string;
  site_position : list quantity;
  site_charge : option quantity;
  site_atom_type : option AtomType;
  site_molecule : option MoleculeType;
  site_element : option string
}.

(** A connection: its members, in order, and its type. *)
Record Connection : Type := mkConn {
  conn_kind_of : conn_kind;
  connection_members : list nat;
  connection_type : option ConnType
}.

Record Box : Type := mkBox {
  box_lengths : list quantity;
  box_angles : list quantity
}.

Record Topology : Type := mkTop {
  top_name : option string;
  sites : list Site;
  bonds : list Connection;
  angles : list Connection;
  dihedrals : list Connection;
  impropers : list Connection;
  box : option Box
}.

Definition empty_topology : Topology :=
  mkTop (Some "Topology") [] [] [] [] [] None.

Definition n_sites (t : Topology) : Z := Z.of_nat (List.length (sites t)).
Definition n_bonds (t : Topology) : Z := Z.of_nat (List.length (bonds t)).
Definition n_angles (t : Topology) : Z := Z.of_nat (List.length (angles t)).
Definition n_dihedrals (t : Topology) : Z := Z.of_nat (List.length (dihedrals t)).
Definition n_impropers (t : Topology) : Z := Z.of_nat (List.length (impropers t)).

(** [getattr(top, "bonds")] and the like. *)
Definition connections (t : Topology) (k : conn_kind) : list Connection :=
  match k with
  | Bond => bonds t
  | Angle => angles t
  | Dihedral => dihedrals t
  | Improper => impropers t
  end.

(** Look-up in a parameter dict, with its [KeyError]. *)
Fixpoint assoc {A : Type} (k : string) (l : list (string * A)) : option A :=
  match l with
  | [] => None
  | (k', v) :: l' => if String.eqb k k' then Some v else assoc k l'
  end.

Definition param {A : Type} (l : list (string * A)) (k : string) : outcome A :=
  or_raise (assoc k l) (KeyError k).

(** [d[k] = v] on a dict: the value is replaced in place, or the key is
    added at the end. *)
Fixpoint assoc_set {A : Type} (k : string) (v : A) (l : list (string * A)) : list (string * A) :=
  match l with
  | [] => [(k, v)]
  | (k', v') :: l' => if String.eqb k k' then (k, v) :: l' else (k', v') :: assoc_set k v l'
  end.

(** ** Box arithmetic, generic in the number type

    The box transforms of [_write_box] and [_get_box_coordinates] are
    written once over a type of numbers with the [numpy] operations they
    use, and instantiated with the rationals of the codec and with the
    real numbers. *)

Class FloatOps (F : Type) : Type := mkFloatOps {
  f_zero : F;
  f_one : F;
  f_add : F -> F -> F;
  f_sub : F -> F -> F;
  f_mul : F -> F -> F;
  f_div : F -> F -> F;
  f_max : F -> F -> F;
  f_min : F -> F -> F;
  f_sqrt : F -> F;
  f_arccos : F -> F;
  f_cos : F -> F;
  f_sin : F -> F
}.

(** The numbers of the three bound lines and of the tilt line. *)
Record bounds (F : Type) : Type := mkBounds {
  b_xlo : F; b_xhi : F;
  b_ylo : F; b_yhi : F;
  b_zlo : F; b_zhi : F;
  b_xy : F; b_xz : F; b_yz : F
}.

Arguments mkBounds {F}.
Arguments b_xlo {F}. Arguments b_xhi {F}.
Arguments b_ylo {F}. Arguments b_yhi {F}.
Arguments b_zlo {F}. Arguments b_zhi {F}.
Arguments b_xy {F}. Arguments b_xz {F}. Arguments b_yz {F}.

Definition map_bounds {F G : Type} (f : F -> G) (b : bounds F) : bounds G :=
  mkBounds (f (b_xlo b)) (f (b_xhi b)) (f (b_ylo b)) (f (b_yhi b))
           (f (b_zlo b)) (f (b_zhi b)) (f (b_xy b)) (f (b_xz b)) (f (b_yz b)).

Section BoxMath.

Context {F : Type} {ops : FloatOps F}.

Local Infix "+" := f_add.
Local Infix "-" := f_sub.
Local Infix "*" := f_mul.
Local Infix "/" := f_div.

(** [np.max] and [np.min] of a non-empty list. *)
Definition np_max (x : F) (l : list F) : F := fold_left f_max l x.
Definition np_min (x : F) (l : list F) : F := fold_left f_min l x.

(** Modelled from the spec: [Box.get_unit_vectors] is not in the
    sources. The unit cell vectors of a box with angles [alpha], [beta],
    [gamma] (in radians), lower triangular, in the convention that the
    reader's transform inverts: rows [(1,0,0)], [(cos gamma, sin gamma, 0)]
    and [(cos beta, my, mz)]. *)
Definition get_unit_vectors (alpha beta gamma : F) : (F * F * F) * (F * F * F) * (F * F * F) :=
  let cosa := f_cos alpha in
  let cosb := f_cos beta in
  let sing := f_sin gamma in
  let cosg := f_cos gamma in
  let my := (cosa - cosb * cosg) / sing in
  let mz := f_sqrt (sing * sing - cosa * cosa - cosb * cosb
                    + (cosa * cosb * cosg + cosa * cosb * cosg)) / sing in
  ((f_one, f_zero, f_zero), (cosg, sing, f_zero), (cosb, my, mz)).

(** The triclinic branch of [_write_box]: from the converted box lengths
    and the unit vectors to the numbers of the four lines. *)
Definition triclinic_bounds (lengths : F * F * F) (alpha beta gamma : F) : bounds F :=
  let '(la, lb, lc) := lengths in
  let '(v0, v1, v2) := get_unit_vectors alpha beta gamma in
  let '(v00, _, _) := v0 in
  let '(v10, v11, _) := v1 in
  let '(v20, v21, v22) := v2 in
  let xhi := la * v00 in
  let yhi := lb * v11 in
  let zhi := lc * v22 in
  let xy := lb * v10 in
  let xz := lc * v20 in
  let yz := lc * v21 in
  let xlo := f_zero in
  let ylo := f_zero in
  let zlo := f_zero in
  let xlo_bound := xlo + np_min f_zero [xy; xz; xy + xz] in
  let xhi_bound := xhi + np_max f_zero [xy; xz; xy + xz] in
  let ylo_bound := ylo + np_min f_zero [yz] in
  let yhi_bound := yhi + np_max f_zero [yz] in
  let zlo_bound := zlo in
  let zhi_bound := zhi in
  mkBounds xlo_bound xhi_bound ylo_bound yhi_bound zlo_bound zhi_bound xy xz yz.

(** The triclinic branch of [_get_box_coordinates]: from the numbers of
    the four lines to lengths [(a, b, c)] and angles
    [(alpha, beta, gamma)]. *)
Definition box_of_bounds (bd : bounds F) : (F * F * F) * (F * F * F) :=
  let xy := b_xy bd in
  let xz := b_xz bd in
  let yz := b_yz bd in
  let xhi := b_xhi bd - np_max f_zero [xy; xz; xy + xz] in
  let xlo := b_xlo bd - np_min f_zero [xy; xz; xy + xz] in
  let yhi := b_yhi bd - np_max f_zero [yz] in
  let ylo := b_ylo bd - np_min f_zero [yz] in
  let zhi := b_zhi bd in
  let zlo := b_zlo bd in
  let lx := xhi - xlo in
  let ly := yhi - ylo in
  let lz := zhi - zlo in
  let c := f_sqrt (lz * lz + xz * xz + yz * yz) in
  let b := f_sqrt (ly * ly + xy * xy) in
  let a := lx in
  let alpha := f_arccos ((yz * ly + xy * xz) / (b * c)) in
  let beta := f_arccos (xz / c) in
  let gamma := f_arccos (xy / b) in
  ((a, b, c), (alpha, beta, gamma)).

End BoxMath.

(** ** The world: files, warnings, object identities *)

Inductive event : Type :=
| EvOpenRead (filename : string)
| EvOpenWrite (filename : string)
| EvWarn (msg : string).

(** The content of each file, the events so far (most recent last) and
    the next fresh object identity. *)
Record world : Type := mkWorld {
  w_files : list (string * string);
  w_log : list event;
  w_next_id : nat
}.

(** A computation: it ends with a value or an exception, and the world
    it leaves behind in both cases. *)
Definition IO (A : Type) : Type := world -> outcome A * world.

Definition ret {A : Type} (a : A) : IO A := fun w => (Ok a, w).

Definition raise {A : Type} (e : exn) : IO A := fun w => (Raise e, w).

Definition lift {A : Type} (m : outcome A) : IO A := fun w => (m, w).

Definition io_bind {A B : Type} (m : IO A) (k : A -> IO B) : IO B :=
  fun w =>
    match m w with
    | (Ok a, w') => k a w'
    | (Raise e, w') => (Raise e, w')
    end.

Declare Scope io_scope.
Delimit Scope io_scope with io.
Notation "x <- m ;; k" := (io_bind m (fun x => k))
  (at level 61, m at next level, right associativity) : io_scope.
Notation "' p <- m ;; k" := (io_bind m (fun x => let p := x in k))
  (at level 61, p pattern, m at next level, right associativity) : io_scope.
Notation "m ;;; k" := (io_bind m (fun _ => k))
  (at level 61, right associativity) : io_scope.

Definition log_event (e : event) : IO unit :=
  fun w => (Ok tt, mkWorld (w_files w) (w_log w ++ [e]) (w_next_id w)).

(** [warnings.warn(msg)]. *)
Definition warn (msg : string) : IO unit := log_event (EvWarn msg).

Definition fresh : IO nat :=
  fun w => (Ok (w_next_id w), mkWorld (w_files w) (w_log w) (S (w_next_id w))).

(** The lines of a text, each with its newline, as iterating over a file
    or [readlines()] gives them. *)
Fixpoint lines_from (cur : string) (s : string) : list string :=
  match s with
  | EmptyString => match cur with EmptyString => [] | _ => [cur] end
  | String c s' =>
      if Ascii.eqb c "010" then (cur ++ String c EmptyString) :: lines_from EmptyString s'
      else lines_from (cur ++ String c EmptyString) s'
  end.

(** Universal newlines, the default of [open(filename, "r")]: a
    carriage return, alone or followed by a line feed, ends a line and
    is read as a line feed. *)
Fixpoint universal_newlines (s : string) : string :=
  match s with
  | EmptyString => EmptyString
  | String c s' =>
      if Ascii.eqb c "013" then
        String "010" (match s' with
                      | String d s'' =>
                          if Ascii.eqb d "010" then universal_newlines s''
                          else universal_newlines s'
                      | EmptyString => EmptyString
                      end)
      else String c (universal_newlines s')
  end.

Definition readlines (content : string) : list string :=
  lines_from EmptyString (universal_newlines content).

(** A text from its lines: each is followed by a newline. *)
Fixpoint join_lines (ls : list string) : string :=
  match ls with
  | [] => EmptyString
  | l :: ls' => l ++ String "010" (join_lines ls')
  end.

(** [open(filename, "r")] followed by reading all lines. *)
Definition open_r (filename : string) : IO (list string) :=
  (log_event (EvOpenRead filename) ;;;
   fun w =>
     match assoc filename (w_files w) with
     | Some c => (Ok (readlines c), w)
     | None => (Raise (FileNotFoundError filename), w)
     end)%io.

(** [open(filename, "w")]: the file is created or truncated. *)
Definition open_w (filename : string) : IO unit :=
  (log_event (EvOpenWrite filename) ;;;
   fun w => (Ok tt, mkWorld (assoc_set filename EmptyString (w_files w)) (w_log w) (w_next_id w)))%io.

(** [out_file.write(s)]. *)
Definition write (filename : string) (s : string) : IO unit :=
  fun w =>
    match assoc filename (w_files w) with
    | Some c => (Ok tt, mkWorld (assoc_set filename (c ++ s) (w_files w)) (w_log w) (w_next_id w))
    | None => (Raise (ValueError "I/O operation on closed file"), w)
    end.

(** A loop over a list, threading an accumulator. *)
Fixpoint foldM {A B : Type} (f : B -> A -> IO B) (l : list A) (b : B) : IO B :=
  match l with
  | [] => ret b
  | a :: l' => (b' <- f b a ;; foldM f l' b')%io
  end.

(** ** What the codec takes from outside *)

(** The [numpy] functions on floats that have no rational counterpart. *)
Record LibM : Type := mkLibM {
  np_sqrt : Q -> Q;
  np_arccos : Q -> Q;
  np_cos : Q -> Q;
  np_sin : Q -> Q
}.

Definition Qmax (a b : Q) : Q := if Qle_bool a b then b else a.
Definition Qmin (a b : Q) : Q := if Qle_bool a b then a else b.

Definition QOps (m : LibM) : FloatOps Q :=
  mkFloatOps Q 0%Q 1%Q
    (fun a b => Qred (a + b)) (fun a b => Qred (a - b))
    (fun a b => Qred (a * b)) (fun a b => Qred (a / b))
    Qmax Qmin (np_sqrt m) (np_arccos m) (np_cos m) (np_sin m).

(** An entry of [PotentialTemplateLibrary]. *)
Record Template : Type := mkTemplate {
  t_name : string;
  t_expression : string;
  t_independent_variables : list string
}.

(** The environment of a call, and the collaborators of the codec whose
    code is not in the sources and that the specification does not
    describe; they are taken as parameters. *)
Record Env : Type := mkEnv {
  libm : LibM;
  env_USER : option string;
  env_now : string;
  parent_exists : string -> bool;
  LAMMPS_UnitSystems : string -> base_unyts;
  templates : string -> option Template;
  element_by_mass : Q -> option string;
  ensure_valid_dimensions : quantity -> quantity -> outcome unit;
  write_out_parameter_and_units : string -> quantity -> base_unyts -> string;
  sort_by_types : ConnType -> outcome (list string);
  atom_types_filtered : list AtomType -> list AtomType;
  conn_types_filtered : list ConnType -> list ConnType;
  convert_potential_styles : Topology -> conn_kind -> string -> outcome Topology;
  check_compatibility : Topology -> list Template -> outcome unit
}.

(** ** Reader *)

Module Reader.

Section WithEnv.

Variable env : Env.

(** [tok in line.split()]. *)
Definition has_token (tok : string) (line : string) : bool :=
  Py.mem tok (Py.split line).

(** The scanning loop shared by the parsers:
[[
    for i, line in enumerate(lammps_file):
        if <is_count line>: n = int(line.split()[0])
        if <is_stop line>: break
]]
    with [elif] for the second test when [exclusive] is set. The result
    is the final [i] and [n], each [None] while unbound. *)
Fixpoint scan (is_count is_stop : string -> bool) (exclusive : bool)
  (ls : list string) (i : Z) (last_i n : option Z) : outcome (option Z * option Z) :=
  match ls with
  | [] => Ok (last_i, n)
  | l :: ls' =>
      if is_count l then
        tok <- getitem (Py.split l) 0 ;;
        v <- py_int tok ;;
        if negb exclusive && is_stop l then Ok (Some i, Some v)
        else scan is_count is_stop exclusive ls' (i + 1)%Z (Some i) (Some v)
      else if is_stop l then Ok (Some i, n)
      else scan is_count is_stop exclusive ls' (i + 1)%Z (Some i) n
  end.

Definition bound (name : string) (o : option Z) : outcome Z :=
  or_raise o (UnboundLocalError name).

(** [float(toks[k])]. *)
Definition float_at (toks : list string) (k : Z) : outcome Q :=
  tok <- getitem toks k ;; py_float tok.

Definition int_at (toks : list string) (k : Z) : outcome Z :=
  tok <- getitem toks k ;; py_int tok.

Definition conn_word (k : conn_kind) : string :=
  match k with
  | Bond => "bond"
  | Angle => "angle"
  | Dihedral => "dihedral"
  | Improper => "improper"
  end.

Definition template (name : string) : outcome Template :=
  or_raise (templates env name) (KeyError name).

Definition mk_type (k : conn_kind) (t : Template) (ps : list (string * quantity)) : ConnType :=
  mkConnType k (t_name t) (t_expression t) ps (t_independent_variables t) None.

(** The body of the first loop of [_get_connection]: one coefficient
    line to one connection type. *)
Definition parse_conn_type (b : base_unyts) (k : conn_kind) (line : string) : outcome ConnType :=
  let toks := Py.split line in
  match k with
  | Bond =>
      t <- template "LAMMPSHarmonicBondPotential" ;;
      k0 <- float_at toks 1 ;;
      ue <- get_units b "energy" ;;
      ul <- get_units b "length" ;;
      r0 <- float_at toks 2 ;;
      ul' <- get_units b "length" ;;
      Ok (mk_type k t
            [("k", q_scale (q_div_unit (q_of k0 ue) (U_pow ul 2)) 2);
             ("r_eq", q_of r0 ul')])
  | Angle =>
      t <- template "LAMMPSHarmonicAnglePotential" ;;
      k0 <- float_at toks 1 ;;
      ue <- get_units b "energy" ;;
      ua <- get_units b "angle" ;;
      th <- float_at toks 2 ;;
      uq <- get_units b "angle_eq" ;;
      Ok (mk_type k t
            [("k", q_scale (q_div_unit (q_of k0 ue) (U_pow ua 2)) 2);
             ("theta_eq", q_of th uq)])
  | Dihedral =>
      t <- template "OPLSTorsionPotential" ;;
      k1 <- float_at toks 1 ;; u1 <- get_units b "energy" ;;
      k2 <- float_at toks 2 ;; u2 <- get_units b "energy" ;;
      k3 <- float_at toks 3 ;; u3 <- get_units b "energy" ;;
      k4 <- float_at toks 4 ;; u4 <- get_units b "energy" ;;
      Ok (mk_type k t
            [("k1", q_of k1 u1); ("k2", q_of k2 u2); ("k3", q_of k3 u3); ("k4", q_of k4 u4)])
  | Improper =>
      t <- template "HarmonicImproperPotential" ;;
      k0 <- float_at toks 2 ;;
      ue <- get_units b "energy" ;;
      ue' <- get_units b "energy" ;;
      ph <- float_at toks 3 ;;
      uq <- get_units b "angle_eq" ;;
      Ok (mk_type k t
            [("k", q_scale (q_div_unit (q_of k0 ue) (U_pow ue' 2)) 2);
             ("phi_eq", q_of ph uq)])
  end.

Definition n_members (k : conn_kind) : nat :=
  match k with
  | Bond => 2
  | Angle => 3
  | _ => 4
  end.

(** [topology.add_connection(connection)]. *)
Definition add_connection (t : Topology) (c : Connection) : Topology :=
  match conn_kind_of c with
  | Bond => mkTop (top_name t) (sites t) (bonds t ++ [c]) (angles t) (dihedrals t) (impropers t) (box t)
  | Angle => mkTop (top_name t) (sites t) (bonds t) (angles t ++ [c]) (dihedrals t) (impropers t) (box t)
  | Dihedral => mkTop (top_name t) (sites t) (bonds t) (angles t) (dihedrals t ++ [c]) (impropers t) (box t)
  | Improper => mkTop (top_name t) (sites t) (bonds t) (angles t) (dihedrals t) (impropers t ++ [c]) (box t)
  end.

Definition add_site (t : Topology) (s : Site) : Topology :=
  mkTop (top_name t) (sites t ++ [s]) (bonds t) (angles t) (dihedrals t) (impropers t) (box t).

Definition set_box (t : Topology) (b : Box) : Topology :=
  mkTop (top_name t) (sites t) (bonds t) (angles t) (dihedrals t) (impropers t) (Some b).

Fixpoint nodup_ids (l : list nat) : bool :=
  match l with
  | [] => true
  | x :: l' => negb (existsb (Nat.eqb x) l') && nodup_ids l'
  end.

(** [Connection.validate_fields] of [abstract_connection.py]: the
    members must be distinct sites. *)
Definition validate_fields (k : conn_kind) (members : list Site) : outcome unit :=
  if nodup_ids (map site_id members) then Ok tt
  else Raise (GMSOError ("Trying to create a " ++ Py.capitalize (conn_word k) ++ " between same sites."))%string.

Definition atom_type_name (s : Site) : outcome string :=
  match site_atom_type s with
  | Some a => Ok (at_name a)
  | None => Raise (AttributeError "'NoneType' object has no attribute 'name'")
  end.

(** The body of the last loop of [_get_connection]: one data line to one
    connection added to the topology. *)
Definition parse_connection (k : conn_kind) (types : list ConnType)
  (t : Topology) (line : string) : outcome Topology :=
  let toks := Py.split line in
  site_list <- mapM (fun j => idx <- int_at toks (Z.of_nat j + 2) ;; getitem (sites t) (idx - 1))
                    (seq 0 (n_members k)) ;;
  ti <- int_at toks 1 ;;
  ctype <- getitem types (ti - 1) ;;
  names <- mapM atom_type_name site_list ;;
  _ <- validate_fields k site_list ;;
  let ctype' := mkConnType (ct_kind ctype) (ct_name ctype) (ct_expression ctype)
                  (ct_parameters ctype) (ct_independent_variables ctype) (Some names) in
  Ok (add_connection t (mkConn k (map site_id site_list) (Some ctype'))).

Fixpoint fold_outcome {A B : Type} (f : B -> A -> outcome B) (l : list A) (b : B) : outcome B :=
  match l with
  | [] => Ok b
  | a :: l' => b' <- f b a ;; fold_outcome f l' b'
  end.

(** [_get_connection(filename, topology, base_unyts, connection_type)]. *)
Definition _get_connection (filename : string) (topology : Topology)
  (b : base_unyts) (k : conn_kind) : IO Topology :=
  (let ct := conn_word k in
   ls <- open_r filename ;;
   '(i, n_types) <- lift (scan (has_token ct) (has_token (Py.capitalize ct)) false ls 0 None None) ;;
   match n_types with
   | None => ret topology
   | Some n_connection_types =>
       i <- lift (bound "i" i) ;;
       ls2 <- open_r filename ;;
       let connection_type_lines := slice ls2 (i + 2) (i + n_connection_types + 2) in
       connection_type_list <- lift (mapM (parse_conn_type b k) connection_type_lines) ;;
       ls3 <- open_r filename ;;
       '(i', n_conn) <- lift (scan (has_token (ct ++ "s")) (has_token (Py.capitalize ct ++ "s"))
                                   false ls3 0 None None) ;;
       ls4 <- open_r filename ;;
       i' <- lift (bound "i" i') ;;
       n_connections <- lift (bound "n_connections" n_conn) ;;
       let connection_lines := slice ls4 (i' + 2) (i' + n_connections + 2) in
       lift (fold_outcome (parse_connection k connection_type_list) connection_lines topology)
   end)%io.

(** The default potential of an atom type
    ([AtomType._default_potential_expr]). *)
Definition default_expression : string := "4*epsilon*((sigma/r)**12 - (sigma/r)**6)".

Definition default_parameters : list (string * quantity) :=
  [("sigma", mkQ 0.3 (U_named "nm")); ("epsilon", mkQ 0.3 (U_named "kJ"))].

(** [AtomType.validate_mass] on a quantity. *)
Definition validate_mass (mass : quantity) : outcome quantity :=
  _ <- ensure_valid_dimensions env mass (mkQ 1 (U_named "g/mol")) ;;
  Ok mass.

(** [AtomType(name=..., mass=...)], every other argument at its
    default. *)
Definition new_atom_type (id : nat) (name : string) (mass : quantity) : outcome AtomType :=
  m <- validate_mass mass ;;
  Ok (mkAtomType id name m (mkQ 0 (U_named "elementary_charge")) default_expression
        default_parameters ["r"] "" "" [] "" "").

Definition parse_mass_line (b : base_unyts) (acc : list AtomType) (line : string) : IO (list AtomType) :=
  (let toks := Py.split line in
   name <- lift (getitem toks 0) ;;
   m <- lift (float_at toks 1) ;;
   um <- lift (get_units b "mass") ;;
   id <- fresh ;;
   a <- lift (new_atom_type id name (q_of m um)) ;;
   ret (acc ++ [a])%list)%io.

Definition set_parameter (a : AtomType) (k : string) (v : quantity) : AtomType :=
  mkAtomType (at_id a) (at_name a) (at_mass a) (at_charge a) (at_expression a)
    (assoc_set k v (at_parameters a)) (at_independent_variables a) (at_atomclass a)
    (at_doi a) (at_overrides a) (at_definition a) (at_description a).

(** [l[i] = v]. *)
Fixpoint list_set {A : Type} (l : list A) (i : nat) (v : A) : list A :=
  match l, i with
  | [], _ => []
  | _ :: l', O => v :: l'
  | x :: l', S i' => x :: list_set l' i' v
  end.

(** The body of the loop over the pair lines of [_get_ff_information]:
    the state is the list of types and the flag [warn_ljcutBool]. *)
Definition parse_pair_line (b : base_unyts) (st : list AtomType * bool)
  (ip : nat * string) : outcome (list AtomType * bool) :=
  let '(type_list, warn_ljcutBool) := st in
  let '(i, pair_line) := ip in
  let toks := Py.split pair_line in
  if Nat.eqb (List.length toks) 3 then
    sg <- float_at toks 2 ;;
    ul <- get_units b "length" ;;
    t <- getitem type_list (Z.of_nat i) ;;
    let type_list1 := list_set type_list i (set_parameter t "sigma" (q_of sg ul)) in
    ep <- float_at toks 1 ;;
    ue <- get_units b "energy" ;;
    t1 <- getitem type_list1 (Z.of_nat i) ;;
    Ok (list_set type_list1 i (set_parameter t1 "epsilon" (q_of ep ue)), warn_ljcutBool)
  else if Nat.eqb (List.length toks) 4 then Ok (type_list, true)
  else Ok (type_list, warn_ljcutBool).

Definition enumerate {A : Type} (l : list A) : list (nat * A) :=
  combine (seq 0 (List.length l)) l.

Definition ljcut_warning : string :=
  "Currently not reading in LJ cutoff values.These should be specified in the engine run files.".

(** [_get_ff_information(filename, base_unyts, topology)]: the result is
    the bare topology when no atom-type count was seen, the pair
    [(topology, type_list)] otherwise. *)
Definition _get_ff_information (filename : string) (b : base_unyts) (topology : Topology)
  : IO (Topology + Topology * list AtomType) :=
  (ls <- open_r filename ;;
   '(i, n) <- lift (scan (Py.contains "atom") (Py.contains "Masses") true ls 0 None None) ;;
   match n with
   | None => ret (inl topology)
   | Some n_atomtypes =>
       i <- lift (bound "i" i) ;;
       ls2 <- open_r filename ;;
       let mass_lines := slice ls2 (i + 2) (i + n_atomtypes + 2) in
       type_list <- foldM (parse_mass_line b) mass_lines [] ;;
       ls3 <- open_r filename ;;
       '(i', _) <- lift (scan (fun _ => false) (Py.contains "Pair") false ls3 0 None None) ;;
       ls4 <- open_r filename ;;
       i' <- lift (bound "i" i') ;;
       let pair_lines := slice ls4 (i' + 2) (i' + n_atomtypes + 2) in
       '(type_list', warn_ljcutBool) <-
          lift (fold_outcome (parse_pair_line b) (enumerate pair_lines) (type_list, false)) ;;
       (if warn_ljcutBool : bool then warn ljcut_warning else ret tt) ;;;
       ret (inr (topology, type_list'))
   end)%io.

(** [copy.deepcopy] of an atom type: the same content under a new
    identity. *)
Definition deepcopy_atom_type (id : nat) (a : AtomType) : AtomType :=
  mkAtomType id (at_name a) (at_mass a) (at_charge a) (at_expression a)
    (at_parameters a) (at_independent_variables a) (at_atomclass a)
    (at_doi a) (at_overrides a) (at_definition a) (at_description a).

(** The body of the loop of [_get_atoms]. *)
Definition parse_atom_line (b : base_unyts) (type_list : list AtomType)
  (t : Topology) (line : string) : IO Topology :=
  (let atom_line := Py.split line in
   atom_type <- lift (getitem atom_line 2) ;;
   c <- lift (float_at atom_line 3) ;;
   uc <- lift (get_units b "charge") ;;
   x <- lift (float_at atom_line 4) ;;
   y <- lift (float_at atom_line 5) ;;
   z <- lift (float_at atom_line 6) ;;
   ul <- lift (get_units b "length") ;;
   ti <- lift (py_int atom_type) ;;
   ty <- lift (getitem type_list (ti - 1)) ;;
   tid <- fresh ;;
   mname <- lift (getitem atom_line 1) ;;
   mnum <- lift (py_int mname) ;;
   sid <- fresh ;;
   let ty' := deepcopy_atom_type tid ty in
   let element := element_by_mass env (value (at_mass ty')) in
   let name := match element with Some e => e | None => at_name ty' end in
   ret (add_site t (mkSite sid name [q_of x ul; q_of y ul; q_of z ul] (Some (q_of c uc))
                      (Some ty') (Some (mkMolecule mname mnum)) element)))%io.

(** [_get_atoms(filename, topology, base_unyts, type_list)]. *)
Definition _get_atoms (filename : string) (topology : Topology) (b : base_unyts)
  (type_list : list AtomType) : IO Topology :=
  (ls <- open_r filename ;;
   '(i, n) <- lift (scan (has_token "atoms") (has_token "Atoms") false ls 0 None None) ;;
   ls2 <- open_r filename ;;
   i <- lift (bound "i" i) ;;
   n_atoms <- lift (bound "n_atoms" n) ;;
   let atom_lines := slice ls2 (i + 2) (i + n_atoms + 2) in
   foldM (parse_atom_line b type_list) atom_lines topology)%io.

(** The loop [for line in lammps_file: if "xlo" in line.split(): break]:
    the last line read and the lines left in the file. *)
Fixpoint find_xlo (last : option string) (ls : list string) : option string * list string :=
  match ls with
  | [] => (last, [])
  | l :: ls' => if has_token "xlo" l then (Some l, ls') else find_xlo (Some l) ls'
  end.

(** [lammps_file.readline()]: the empty string at the end of the file. *)
Definition readline (ls : list string) : string * list string :=
  match ls with
  | [] => (EmptyString, [])
  | l :: ls' => (l, ls')
  end.

(** [float(l[1]) - float(l[0])]. *)
Definition extent (l : list string) : outcome Q :=
  hi <- float_at l 1 ;; lo <- float_at l 0 ;; Ok (Qred (hi - lo)).

Definition right_angles : list quantity :=
  [mkQ 90 u_degree; mkQ 90 u_degree; mkQ 90 u_degree].

(** [_get_box_coordinates(filename, base_unyts, topology)]. *)
Definition _get_box_coordinates (filename : string) (b : base_unyts) (topology : Topology)
  : IO Topology :=
  (ls <- open_r filename ;;
   let '(line, rest) := find_xlo None ls in
   line <- lift (or_raise line (UnboundLocalError "line")) ;;
   let x_line := Py.split line in
   let '(yl, rest1) := readline rest in
   let y_line := Py.split yl in
   let '(zl, rest2) := readline rest1 in
   let z_line := Py.split zl in
   x <- lift (extent x_line) ;;
   y <- lift (extent y_line) ;;
   z <- lift (extent z_line) ;;
   let '(tl, _) := readline rest2 in
   let tilts := Py.split tl in
   if Py.mem "xy" tilts then
     xy <- lift (float_at tilts 0) ;;
     xz <- lift (float_at tilts 1) ;;
     yz <- lift (float_at tilts 2) ;;
     x1 <- lift (float_at x_line 1) ;;
     x0 <- lift (float_at x_line 0) ;;
     y1 <- lift (float_at y_line 1) ;;
     y0 <- lift (float_at y_line 0) ;;
     z1 <- lift (float_at z_line 1) ;;
     z0 <- lift (float_at z_line 0) ;;
     let '((la, lb, lc), (alpha, beta, gamma)) :=
       box_of_bounds (ops := QOps (libm env)) (mkBounds x0 x1 y0 y1 z0 z1 xy xz yz) in
     ul <- lift (get_units b "length") ;;
     ua <- lift (get_units b "angle") ;;
     ret (set_box topology (mkBox [q_of la ul; q_of lb ul; q_of lc ul]
                                  [q_of alpha ua; q_of beta ua; q_of gamma ua]))
   else
     ul <- lift (get_units b "length") ;;
     ret (set_box topology (mkBox [q_of x ul; q_of y ul; q_of z ul] right_angles)))%io.

Definition valid_unit_styles : list string :=
  ["real"; "lj"; "metal"; "si"; "cgs"; "electron"; "micro"; "nano"].

(** [read_lammpsdata(filename, atom_style, unit_style)]. *)
Definition read_lammpsdata (filename atom_style unit_style : string) : IO Topology :=
  (let top := empty_topology in
   if negb (Py.mem atom_style ["full"]) then
     raise (ValueError ("Atom Style " ++ quoted atom_style ++ " is invalid or is not currently supported"))
   else if negb (Py.mem unit_style valid_unit_styles) then
     raise (ValueError ("Unit Style " ++ quoted unit_style ++ " is invalid or is not currently supported"))
   else
     let b := LAMMPS_UnitSystems env unit_style in
     top <- _get_box_coordinates filename b top ;;
     r <- _get_ff_information filename b top ;;
     match r with
     | inl _ => raise (TypeError "cannot unpack non-iterable Topology object")
     | inr (top, type_list) =>
         top <- _get_atoms filename top b type_list ;;
         if Py.mem atom_style ["full"] then
           top <- _get_connection filename top b Bond ;;
           top <- _get_connection filename top b Angle ;;
           top <- _get_connection filename top b Dihedral ;;
           top <- _get_connection filename top b Improper ;;
           ret top
         else ret top
     end)%io.

End WithEnv.

End Reader.

(** ** Writer *)

Module Writer.

(** *** Python's [sorted] and [list.sort] *)

(** Insertion after every element whose key is not larger: the sort is
    stable, as Python's is. *)
Fixpoint insert_by {A K : Type} (lt : K -> K -> bool) (key : A -> K) (x : A) (l : list A) : list A :=
  match l with
  | [] => [x]
  | y :: l' => if lt (key x) (key y) then x :: y :: l' else y :: insert_by lt key x l'
  end.

Definition sorted_by {A K : Type} (lt : K -> K -> bool) (key : A -> K) (l : list A) : list A :=
  fold_left (fun acc x => insert_by lt key x acc) l [].

(** [<] on lists of strings (lexicographic), which is also [<] on tuples
    of strings. *)
Fixpoint list_ltb (a b : list string) : bool :=
  match a, b with
  | [], [] => false
  | [], _ :: _ => true
  | _ :: _, [] => false
  | x :: a', y :: b' =>
      if String.ltb x y then true
      else if String.eqb x y then list_ltb a' b'
      else false
  end.

Fixpoint list_eqb (a b : list string) : bool :=
  match a, b with
  | [], [] => true
  | x :: a', y :: b' => String.eqb x y && list_eqb a' b'
  | _, _ => false
  end.

(** [l.index(x)] with its [ValueError]. *)
Fixpoint index_of {A : Type} (eqb : A -> bool) (l : list A) (i : Z) : outcome Z :=
  match l with
  | [] => Raise (ValueError "x is not in list")
  | y :: l' => if eqb y then Ok i else index_of eqb l' (i + 1)%Z
  end.

(** [sep.join(l)]. *)
Fixpoint join (sep : string) (l : list string) : string :=
  match l with
  | [] => EmptyString
  | [x] => x
  | x :: l' => x ++ sep ++ join sep l'
  end.

Definition TAB : string := String "009" EmptyString.
Definition NL : string := String "010" EmptyString.

(** *** Unit conversion *)

Definition dim_names : list (dim * string) :=
  [(D_length, "length"); (D_energy, "energy"); (D_mass, "mass"); (D_charge, "charge");
   (D_angle, "angle"); (D_time, "time"); (D_temperature, "temperature")].

Definition dim_eqb (a b : dim) : bool := Nat.eqb (dim_index a) (dim_index b).

Definition exponent (d : dimvec) (dm : dim) : Z := nth (dim_index dm) d 0%Z.

Definition eq_angle_names : list string := ["theta_eq"; "phi_eq"].

Definition scale_of (u : Unit) : outcome Q :=
  match normalize u with
  | Some (s, _) => Ok s
  | None => Raise (UnitConversionError "unknown unit")
  end.

(** Scale of the base unit of the style for a dimension vector: the
    product of the base units of its dimensions; an equilibrium angle is
    looked up under [angle_eq]. *)
Fixpoint target_scale (b : base_unyts) (name : string) (d : dimvec)
  (dims : list (dim * string)) : outcome Q :=
  match dims with
  | [] => Ok 1%Q
  | (dm, nm) :: dims' =>
      rest <- target_scale b name d dims' ;;
      let e := exponent d dm in
      if (e =? 0)%Z then Ok rest
      else
        let key := if dim_eqb dm D_angle && Py.mem name eq_angle_names then "angle_eq" else nm in
        u <- get_units b key ;;
        s <- scale_of u ;;
        Ok (Qred (rest * s ^ e))
  end.

Definition lj_dims : list (dim * string) :=
  [(D_length, "length"); (D_energy, "energy"); (D_mass, "mass"); (D_charge, "charge")].

(** Division by the powers of the reference factors of the reduced
    style. *)
Fixpoint reduce (cf : list (string * quantity)) (d : dimvec) (v : Q)
  (dims : list (dim * string)) : outcome Q :=
  match dims with
  | [] => Ok v
  | (dm, nm) :: dims' =>
      let e := exponent d dm in
      if (e =? 0)%Z then reduce cf d v dims'
      else
        c <- param cf nm ;;
        cs <- scale_of (units c) ;;
        let cv := Qred (value c * cs) in
        if Qeq_bool cv 0 then Raise ZeroDivisionError
        else reduce cf d (Qred (v / cv ^ e)) dims'
  end.

(** Modelled from the spec: [LAMMPS_UnitSystems.convert_parameter] is not
    in the sources. Section 4.1: the quantity is converted to the base
    unit of the style for its dimension (the name tells an equilibrium
    angle from an angle), divided by the powers of the reference factors
    when the style is the reduced one, and rounded to [n_decimals]
    (default 6). *)
Definition convert_parameter (b : base_unyts) (q : quantity)
  (cfactors : option (list (string * quantity))) (n_decimals : nat) (name : string) : outcome Q :=
  match normalize (units q) with
  | None => Raise (UnitConversionError "unknown unit")
  | Some (s, d) =>
      ts <- target_scale b name d dim_names ;;
      let v := Qred (value q * s / ts) in
      v' <- (if String.eqb (usystem_name b) "lj" then
               match cfactors with
               | None => Raise (ValueError "Missing conversion factors for the lj style")
               | Some cf => reduce cf d v lj_dims
               end
             else Ok v) ;;
      Ok (Py.round_decimals n_decimals v')
  end.

(** *** Views of a topology *)

Definition opt_list {A : Type} (o : option A) : list A :=
  match o with
  | Some a => [a]
  | None => []
  end.

(** [top.atom_types]: the atom types of the sites. *)
Definition atom_types (t : Topology) : list AtomType :=
  flat_map (fun s => opt_list (site_atom_type s)) (sites t).

(** [top.bond_types] and the like. *)
Definition conn_types (t : Topology) (k : conn_kind) : list ConnType :=
  flat_map (fun c => opt_list (connection_type c)) (connections t k).

(** Modelled from the spec: [Topology.is_fully_typed] is not in the
    sources; section 4.4: every site and every connection has a type. *)
Definition is_fully_typed (t : Topology) : bool :=
  forallb (fun s => match site_atom_type s with Some _ => true | None => false end) (sites t)
  && forallb (fun k => forallb (fun c => match connection_type c with Some _ => true | None => false end)
                         (connections t k))
       [Bond; Angle; Dihedral; Improper].

Section WithEnv.

Variable env : Env.

Definition atom_types_view (t : Topology) : list AtomType :=
  atom_types_filtered env (atom_types t).

Definition conn_types_view (t : Topology) (k : conn_kind) : list ConnType :=
  conn_types_filtered env (conn_types t k).

Definition full_or_molecular (atom_style : string) : bool :=
  Py.mem atom_style ["full"; "molecular"].

Definition len {A : Type} (l : list A) : Z := Z.of_nat (List.length l).

Definition opt_str (o : option string) (none : string) : string :=
  match o with
  | Some s => s
  | None => none
  end.

(** The first line of the file and the blank line after it. *)
Definition title_line (top : Topology) : string :=
  opt_str (env_USER env) "None" ++ " written by " ++ opt_str (top_name top) ""
  ++ " at " ++ env_now env ++ " using the GMSO LAMMPS Writer" ++ NL ++ NL.

(** The text [_write_header(out_file, top, atom_style)] writes. *)
Definition header_text (top : Topology) (atom_style : string) : string :=
  title_line top
  ++ (Py.fmt_d (n_sites top) ++ " atoms" ++ NL)
  ++ (if full_or_molecular atom_style then
        Py.fmt_d (n_bonds top) ++ " bonds" ++ NL
        ++ Py.fmt_d (n_angles top) ++ " angles" ++ NL
        ++ Py.fmt_d (n_dihedrals top) ++ " dihedrals" ++ NL
        ++ Py.fmt_d (n_impropers top) ++ " impropers" ++ NL ++ NL
      else "")
  ++ (Py.fmt_d (len (atom_types_view top)) ++ " atom types" ++ NL)
  ++ (if (0 <? n_bonds top)%Z && full_or_molecular atom_style then
        Py.fmt_d (len (conn_types_view top Bond)) ++ " bond types" ++ NL else "")
  ++ (if (0 <? n_angles top)%Z && full_or_molecular atom_style then
        Py.fmt_d (len (conn_types_view top Angle)) ++ " angle types" ++ NL else "")
  ++ (if (0 <? n_dihedrals top)%Z && full_or_molecular atom_style then
        Py.fmt_d (len (conn_types_view top Dihedral)) ++ " dihedral types" ++ NL else "")
  ++ (if (0 <? n_impropers top)%Z && full_or_molecular atom_style then
        Py.fmt_d (len (conn_types_view top Improper)) ++ " improper types" ++ NL else "")
  ++ NL.

Definition _write_header (out_file : string) (top : Topology) (atom_style : string) : IO unit :=
  write out_file (header_text top atom_style).

Definition cfactors : Type := option (list (string * quantity)).

(** The angle of a box in degrees and in radians. *)
Definition in_degrees (q : quantity) : outcome Q :=
  match normal_value q with
  | Some (v, _) => Ok v
  | None => Raise (UnitConversionError "unknown unit")
  end.

Definition rad_scale : Q := 57.29577951308232%Q.

Definition in_radians (q : quantity) : outcome Q :=
  v <- in_degrees q ;; Ok (Qred (v / rad_scale)).

(** [allclose_units(angles, [90, 90, 90] degree, rtol=1e-5, atol=1e-8)]. *)
Definition close_to_90 (deg : Q) : bool :=
  Qle_bool (Qabs (deg - 90)) (0.00000001 + 0.00001 * 90)%Q.

Definition box_of (top : Topology) : outcome Box :=
  or_raise (box top) (AttributeError "'NoneType' object has no attribute 'angles'").

Definition three {A : Type} (l : list A) : outcome (A * A * A) :=
  a <- getitem l 0 ;; b <- getitem l 1 ;; c <- getitem l 2 ;; Ok (a, b, c).

Definition bound_line (lo hi : Q) (names : string) : string :=
  Py.fmt_f 6 lo ++ " " ++ Py.fmt_f 6 hi ++ " " ++ names ++ NL.

(** The text [_write_box(out_file, top, base_unyts, cfactorsDict)]
    writes. *)
Definition box_text (top : Topology) (b : base_unyts) (cf : cfactors) : outcome string :=
  bx <- box_of top ;;
  degs <- mapM in_degrees (box_angles bx) ;;
  '(l0, l1, l2) <- three (box_lengths bx) ;;
  a <- convert_parameter b l0 cf 6 "" ;;
  bb <- convert_parameter b l1 cf 6 "" ;;
  c <- convert_parameter b l2 cf 6 "" ;;
  if forallb close_to_90 degs then
    Ok (bound_line 0 a "xlo xhi" ++ bound_line 0 bb "ylo yhi" ++ bound_line 0 c "zlo zhi"
        ++ "0.000000 0.000000 0.000000 xy xz yz" ++ NL)
  else
    rads <- mapM in_radians (box_angles bx) ;;
    '(alpha, beta, gamma) <- three rads ;;
    let bd := triclinic_bounds (ops := QOps (libm env)) (a, bb, c) alpha beta gamma in
    Ok (bound_line (b_xlo bd) (b_xhi bd) "xlo xhi"
        ++ bound_line (b_ylo bd) (b_yhi bd) "ylo yhi"
        ++ bound_line (b_zlo bd) (b_zhi bd) "zlo zhi"
        ++ Py.fmt_f 6 (b_xy bd) ++ " " ++ Py.fmt_f 6 (b_xz bd) ++ " " ++ Py.fmt_f 6 (b_yz bd)
        ++ " xy xz yz" ++ NL).

Definition _write_box (out_file : string) (top : Topology) (b : base_unyts) (cf : cfactors) : IO unit :=
  (s <- lift (box_text top b cf) ;; write out_file s)%io.

(** *** Sections written in several calls

    A section is the list of the strings passed to [out_file.write], in
    order; each is computed when its turn comes, so that an exception
    leaves what was written before it in the file. *)

Definition chunks : Type := list (outcome string).

Fixpoint emit (out_file : string) (cs : chunks) : IO unit :=
  match cs with
  | [] => ret tt
  | c :: cs' => (s <- lift c ;; write out_file s ;;; emit out_file cs')%io
  end.

Definition cat (a b : chunks) : chunks := app a b.

Infix "+++" := cat (at level 60, right associativity).

(** The chunks that depend on a value computed first. *)
Definition after {A : Type} (m : outcome A) (k : A -> chunks) : chunks :=
  match m with
  | Ok a => k a
  | Raise e => [Raise e]
  end.

Fixpoint unit_str (u : Unit) : string :=
  match u with
  | U_dimensionless => "dimensionless"
  | U_named n => n
  | U_mul a b => unit_str a ++ "*" ++ unit_str b
  | U_div a b => unit_str a ++ "/" ++ unit_str b
  | U_pow a n => unit_str a ++ "**" ++ Py.fmt_d n
  end.

(** [{}] and [{:w}] on a number. *)
Definition num (q : Q) : string := Py.repr_float q.
Definition num_w (w : nat) (q : Q) : string := Py.rjust w (Py.repr_float q).

Definition sorted_atom_types (top : Topology) : list AtomType :=
  sorted_by String.ltb at_name (atom_types_view top).

Definition atom_type_index (l : list AtomType) (a : AtomType) : outcome Z :=
  index_of (fun y => GmsoAtomType.eq y (PyAtomType a)) l 0.

(** [_write_atomtypes]. *)
Definition atomtypes_chunks (top : Topology) (b : base_unyts) (cf : cfactors) : chunks :=
  let atypesView := sorted_atom_types top in
  [Ok (NL ++ "Masses" ++ NL);
   (um <- or_raise (usystem b "mass") (KeyError "mass") ;;
    Ok ("#" ++ TAB ++ "mass (" ++ unit_str um ++ ")" ++ NL))]
  +++ map (fun atom_type =>
            i <- atom_type_index atypesView atom_type ;;
            m <- convert_parameter b (at_mass atom_type) cf 6 "" ;;
            Ok (Py.fmt_d (i + 1) ++ TAB ++ num m ++ TAB ++ "# " ++ at_name atom_type ++ NL))
         atypesView.

Definition _write_atomtypes (out_file : string) (top : Topology) (b : base_unyts) (cf : cfactors) : IO unit :=
  emit out_file (atomtypes_chunks top b cf).

(** The comment line naming the parameters and their units. *)
Definition label_line (b : base_unyts) (ps : list (string * quantity)) (order : list string) : outcome string :=
  labels <- mapM (fun key => p <- param ps key ;; Ok (write_out_parameter_and_units env key p b)) order ;;
  Ok ("#" ++ TAB ++ join TAB labels ++ NL).

(** The converted parameters of a row, in the order of the style. *)
Definition row_values (b : base_unyts) (cf : cfactors) (ps : list (string * quantity))
  (n_decimals : nat) (named : bool) (order : list string) : outcome (list Q) :=
  mapM (fun key => p <- param ps key ;;
                   convert_parameter b p cf n_decimals (if named then key else "")) order.

Definition nb_style_orderTuple : list string := ["epsilon"; "sigma"].

Definition no_attribute (attr : string) : exn :=
  AttributeError ("'NoneType' object has no attribute '" ++ attr ++ "'").

(** [_write_pairtypes]. *)
Definition pairtypes_chunks (top : Topology) (b : base_unyts) (cf : cfactors) : chunks :=
  after (s0 <- getitem (sites top) 0 ;; Ok (site_atom_type s0)) (fun test_atomtype =>
  [(t <- or_raise test_atomtype (no_attribute "expression") ;;
    Ok (NL ++ "Pair Coeffs # " ++ at_expression t ++ NL));
   (t <- or_raise test_atomtype (no_attribute "parameters") ;;
    label_line b (at_parameters t) nb_style_orderTuple)]
  +++ map (fun ip : nat * AtomType =>
            let '(idx, p) := ip in
            vs <- row_values b cf (at_parameters p) 5 false nb_style_orderTuple ;;
            '(e, sg) <- (e <- getitem vs 0 ;; sg <- getitem vs 1 ;; Ok (e, sg)) ;;
            Ok (Py.fmt_d (Z.of_nat idx + 1) ++ TAB ++ num_w 7 e ++ TAB ++ TAB ++ num_w 7 sg
                ++ TAB ++ TAB ++ "# " ++ at_name p ++ NL))
         (Reader.enumerate (sorted_atom_types top))).

Definition _write_pairtypes (out_file : string) (top : Topology) (b : base_unyts) (cf : cfactors) : IO unit :=
  emit out_file (pairtypes_chunks top b cf).

(** [x.member_types] of a type, as an iterable. *)
Definition member_types (c : ConnType) : outcome (list string) :=
  or_raise (ct_member_types c) (TypeError "'NoneType' object is not iterable").

Definition py_sorted (l : list string) : list string := sorted_by String.ltb (fun x => x) l.

(** The first connection of a kind and its type ([top.bonds[0].bond_type]). *)
Definition test_type (top : Topology) (k : conn_kind) : outcome (option ConnType) :=
  c <- getitem (connections top k) 0 ;; Ok (connection_type c).

Definition kind_title (k : conn_kind) : string :=
  match k with
  | Bond => "Bond"
  | Angle => "Angle"
  | Dihedral => "Dihedral"
  | Improper => "Improper"
  end.

(** The two lines that open a coefficient section. *)
Definition coeff_head (b : base_unyts) (k : conn_kind) (test : option ConnType)
  (order : list string) : chunks :=
  [(t <- or_raise test (no_attribute "name") ;;
    Ok (NL ++ kind_title k ++ " Coeffs #" ++ ct_name t ++ NL));
   (t <- or_raise test (no_attribute "parameters") ;;
    label_line b (ct_parameters t) order)].

(** Types with their sort keys, sorted by key. *)
Definition sort_with_keys {A : Type} (key : A -> outcome (list string)) (l : list A)
  : outcome (list (A * list string)) :=
  kl <- mapM (fun x => k <- key x ;; Ok (x, k)) l ;;
  Ok (sorted_by list_ltb snd kl).

Definition bond_style_orderTuple : list string := ["k"; "r_eq"].

(** [_write_bondtypes]. *)
Definition bondtypes_chunks (top : Topology) (b : base_unyts) (cf : cfactors) : chunks :=
  after (test_type top Bond) (fun test_bondtype =>
  coeff_head b Bond test_bondtype bond_style_orderTuple
  +++ after (sort_with_keys (fun x => mt <- member_types x ;; Ok (py_sorted mt))
                           (conn_types_view top Bond)) (fun bond_types =>
     map (fun ip : nat * (ConnType * list string) =>
            let '(idx, (bond_type, _)) := ip in
            mt <- member_types bond_type ;;
            m0 <- getitem mt 0 ;;
            m1 <- getitem mt 1 ;;
            let mts := py_sorted [m0; m1] in
            vs <- row_values b cf (ct_parameters bond_type) 6 false bond_style_orderTuple ;;
            Ok (Py.fmt_d (Z.of_nat idx + 1) ++ TAB ++ join TAB (map (num_w 7) vs) ++ TAB ++ TAB
                ++ "# " ++ join TAB mts ++ NL))
         (Reader.enumerate bond_types))).

Definition _write_bondtypes (out_file : string) (top : Topology) (b : base_unyts) (cf : cfactors) : IO unit :=
  emit out_file (bondtypes_chunks top b cf).

(** [l[::2]]. *)
Fixpoint evens {A : Type} (l : list A) : list A :=
  match l with
  | [] => []
  | [x] => [x]
  | x :: _ :: l' => x :: evens l'
  end.

(** [min] and [max] of a list of strings. *)
Definition str_min (l : list string) : outcome string :=
  match l with
  | [] => Raise (ValueError "min() arg is an empty sequence")
  | x :: l' => Ok (fold_left (fun m y => if String.ltb y m then y else m) l' x)
  end.

Definition str_max (l : list string) : outcome string :=
  match l with
  | [] => Raise (ValueError "max() arg is an empty sequence")
  | x :: l' => Ok (fold_left (fun m y => if String.ltb m y then y else m) l' x)
  end.

Definition angle_style_orderTuple : list string := ["k"; "theta_eq"].

Definition angle_key (x : ConnType) : outcome (list string) :=
  mt <- member_types x ;;
  c <- getitem mt 1 ;;
  lo <- str_min (evens mt) ;;
  hi <- str_max (evens mt) ;;
  Ok [c; lo; hi].

(** [_write_angletypes]. *)
Definition angletypes_chunks (top : Topology) (b : base_unyts) (cf : cfactors) : chunks :=
  after (test_type top Angle) (fun test_angletype =>
  coeff_head b Angle test_angletype angle_style_orderTuple
  +++ after (sort_with_keys angle_key (conn_types_view top Angle)) (fun indexList =>
     map (fun ip : nat * (ConnType * list string) =>
            let '(idx, (angle_type, _)) := ip in
            vs <- row_values b cf (ct_parameters angle_type) 6 true angle_style_orderTuple ;;
            mt <- member_types angle_type ;;
            '(m0, m1, m2) <- three mt ;;
            Ok (Py.fmt_d (Z.of_nat idx + 1) ++ TAB ++ join TAB (map (num_w 7) vs) ++ TAB
                ++ "#" ++ Py.ljust 11 m0 ++ TAB ++ Py.ljust 11 m1 ++ TAB ++ Py.ljust 11 m2 ++ NL))
         (Reader.enumerate indexList))).

Definition _write_angletypes (out_file : string) (top : Topology) (b : base_unyts) (cf : cfactors) : IO unit :=
  emit out_file (angletypes_chunks top b cf).

(** [[l[i] for i in order]]. *)
Definition pick (l : list string) (order : list Z) : outcome (list string) :=
  mapM (getitem l) order.

Definition dihedral_style_orderTuple : list string := ["k1"; "k2"; "k3"; "k4"].

(** The pairs [(type, sort_by_types(type))], sorted by the members in
    the given order. *)
Definition sort_by_members (order : list Z) (l : list ConnType)
  : outcome (list (ConnType * list string)) :=
  ml <- mapM (fun x => m <- sort_by_types env x ;; Ok (x, m)) l ;;
  kl <- mapM (fun xm : ConnType * list string => k <- pick (snd xm) order ;; Ok (xm, k)) ml ;;
  Ok (map fst (sorted_by list_ltb snd kl)).

(** [_write_dihedraltypes]. *)
Definition dihedraltypes_chunks (top : Topology) (b : base_unyts) (cf : cfactors) : chunks :=
  after (test_type top Dihedral) (fun test_dihedraltype =>
  coeff_head b Dihedral test_dihedraltype dihedral_style_orderTuple
  +++ after (sort_by_members [1; 2; 0; 3]%Z (conn_types_view top Dihedral)) (fun index_membersList =>
     map (fun ip : nat * (ConnType * list string) =>
            let '(idx, (dihedral_type, members)) := ip in
            vs <- row_values b cf (ct_parameters dihedral_type) 6 true dihedral_style_orderTuple ;;
            ms <- pick members [0; 1; 2; 3]%Z ;;
            Ok (Py.fmt_d (Z.of_nat idx + 1) ++ TAB ++ join TAB (map (num_w 8) vs) ++ TAB
                ++ "# " ++ join TAB ms ++ NL))
         (Reader.enumerate index_membersList))).

Definition _write_dihedraltypes (out_file : string) (top : Topology) (b : base_unyts) (cf : cfactors) : IO unit :=
  emit out_file (dihedraltypes_chunks top b cf).

Definition improper_style_orderTuple : list string := ["k"; "phi_eq"].

(** [_write_impropertypes]. *)
Definition impropertypes_chunks (top : Topology) (b : base_unyts) (cf : cfactors) : chunks :=
  after (test_type top Improper) (fun test_impropertype =>
  coeff_head b Improper test_impropertype improper_style_orderTuple
  +++ after (sort_by_members [0; 1; 2; 3]%Z (conn_types_view top Improper)) (fun index_membersList =>
     map (fun ip : nat * (ConnType * list string) =>
            let '(idx, (improper_type, _)) := ip in
            vs <- row_values b cf (ct_parameters improper_type) 6 true improper_style_orderTuple ;;
            Ok (Py.fmt_d (Z.of_nat idx + 1) ++ TAB ++ join TAB (map (num_w 7) vs) ++ NL))
         (Reader.enumerate index_membersList))).

Definition _write_impropertypes (out_file : string) (top : Topology) (b : base_unyts) (cf : cfactors) : IO unit :=
  emit out_file (impropertypes_chunks top b cf).

(** [{x:.8}] on a number. *)
Definition num8 (q : Q) : string := Py.fmt_general 8 7 q.

(** The row of a site in the layout of the atom style; the style was
    checked by the caller. *)
Definition atom_line (atom_style : string) (index moleculeid type_index : Z) (charge x y z : Q) : string :=
  if String.eqb atom_style "atomic" then
    Py.fmt_d index ++ TAB ++ Py.fmt_d type_index ++ TAB ++ num8 x ++ TAB ++ num8 y ++ TAB ++ num8 z ++ NL
  else if String.eqb atom_style "charge" then
    Py.fmt_d index ++ TAB ++ Py.fmt_d type_index ++ TAB ++ num8 charge ++ TAB
    ++ num8 x ++ TAB ++ num8 y ++ TAB ++ num8 z ++ NL
  else if String.eqb atom_style "molecular" then
    Py.fmt_d index ++ TAB ++ Py.fmt_d moleculeid ++ TAB ++ Py.fmt_d type_index ++ TAB
    ++ num8 x ++ TAB ++ num8 y ++ TAB ++ num8 z ++ NL
  else
    Py.fmt_d index ++ TAB ++ Py.fmt_d moleculeid ++ TAB ++ Py.fmt_d type_index ++ TAB
    ++ num8 charge ++ TAB ++ num8 x ++ TAB ++ num8 y ++ TAB ++ num8 z ++ NL.

Definition site_type_index (l : list AtomType) (s : Site) : outcome Z :=
  match site_atom_type s with
  | Some a => atom_type_index l a
  | None => Raise (ValueError "None is not in list")
  end.

(** One row of [_write_site_data]. *)
Definition site_row (atom_style : string) (b : base_unyts) (cf : cfactors)
  (unique_sorted_typesList : list AtomType) (i : nat) (site : Site) : outcome string :=
  m <- or_raise (site_molecule site) (no_attribute "number") ;;
  ti <- site_type_index unique_sorted_typesList site ;;
  c <- or_raise (site_charge site) (no_attribute "units") ;;
  charge <- convert_parameter b c cf 6 "" ;;
  p0 <- getitem (site_position site) 0 ;;
  x <- convert_parameter b p0 cf 6 "" ;;
  p1 <- getitem (site_position site) 1 ;;
  y <- convert_parameter b p1 cf 6 "" ;;
  p2 <- getitem (site_position site) 2 ;;
  z <- convert_parameter b p2 cf 6 "" ;;
  Ok (atom_line atom_style (Z.of_nat i + 1) (mol_number m) (ti + 1) charge x y z).

(** [_write_site_data]. *)
Definition site_data_chunks (top : Topology) (atom_style : string) (b : base_unyts) (cf : cfactors) : chunks :=
  Ok (NL ++ "Atoms #" ++ atom_style ++ NL ++ NL)
  :: map (fun ip : nat * Site => site_row atom_style b cf (sorted_atom_types top) (fst ip) (snd ip))
         (Reader.enumerate (sites top)).

Definition _write_site_data (out_file : string) (top : Topology) (atom_style : string)
  (b : base_unyts) (cf : cfactors) : IO unit :=
  emit out_file (site_data_chunks top atom_style b cf).

Definition _angle_order_sorter (l : list string) : outcome (list string) := pick l [1; 0; 2]%Z.
Definition _dihedral_order_sorter (l : list string) : outcome (list string) := pick l [1; 2; 0; 3]%Z.
Definition _improper_order_sorter (l : list string) : outcome (list string) := pick l [0; 1; 2; 3]%Z.

(** [sorting_funcDict]; no key function for bonds. *)
Definition sorting_func (k : conn_kind) (l : list string) : outcome (list string) :=
  match k with
  | Bond => Ok l
  | Angle => _angle_order_sorter l
  | Dihedral => _dihedral_order_sorter l
  | Improper => _improper_order_sorter l
  end.

Definition conn_str (k : conn_kind) : string :=
  match k with
  | Bond => "bonds"
  | Angle => "angles"
  | Dihedral => "dihedrals"
  | Improper => "impropers"
  end.

(** The sorted list of member names of the types of a kind
    ([indexList] of [_write_conn_data]). *)
Definition conn_index_list (top : Topology) (k : conn_kind) : outcome (list (list string)) :=
  l <- mapM (sort_by_types env) (conn_types_view top k) ;;
  kl <- mapM (fun x => key <- sorting_func k x ;; Ok (x, key)) l ;;
  Ok (map fst (sorted_by list_ltb snd kl)).

(** [top.sites.index(x)]. *)
Definition site_index (top : Topology) (id : nat) : outcome Z :=
  index_of (fun s => Nat.eqb (site_id s) id) (sites top) 0.

(** One row of [_write_conn_data]. *)
Definition conn_row (top : Topology) (indexList : list (list string)) (i : nat) (conn : Connection)
  : outcome string :=
  ct <- or_raise (connection_type conn) (no_attribute "member_types") ;;
  key <- sort_by_types env ct ;;
  ti <- index_of (list_eqb key) indexList 0 ;;
  let typeStr := Py.ljust 6 (Py.fmt_d (Z.of_nat i + 1)) ++ TAB ++ Py.ljust 6 (Py.fmt_d (ti + 1)) ++ TAB in
  idxs <- mapM (fun x => si <- site_index top x ;; Ok (Py.ljust 6 (Py.fmt_d (si + 1))))
               (connection_members conn) ;;
  Ok (typeStr ++ join TAB idxs ++ NL).

(** [_write_conn_data(out_file, top, connIter, connStr)]. *)
Definition conn_data_chunks (top : Topology) (k : conn_kind) : chunks :=
  Ok (NL ++ Py.capitalize (conn_str k) ++ NL ++ NL)
  :: after (conn_index_list top k) (fun indexList =>
       map (fun ic : nat * Connection => conn_row top indexList (fst ic) (snd ic))
           (Reader.enumerate (connections top k))).

Definition _write_conn_data (out_file : string) (top : Topology) (k : conn_kind) : IO unit :=
  emit out_file (conn_data_chunks top k).

(** [_accepted_potentials()]. *)
Definition _accepted_potentials : outcome (list Template) :=
  mapM (Reader.template env)
    ["LennardJonesPotential"; "LAMMPSHarmonicBondPotential"; "LAMMPSHarmonicAnglePotential";
     "PeriodicTorsionPotential"; "HarmonicImproperPotential"; "OPLSTorsionPotential"].

(** [_validate_potential_compatibility(top)]. *)
Definition _validate_potential_compatibility (top : Topology) : outcome unit :=
  acc <- _accepted_potentials ;;
  check_compatibility env top acc.

(** [np.isclose(a, b, atol=1e-3)], with the default [rtol=1e-5]. *)
Definition isclose (a b : Q) : bool :=
  Qle_bool (Qabs (a - b)) (0.001 + 0.00001 * Qabs b)%Q.

Definition check_parameter (b : base_unyts) (np : string * quantity) : outcome unit :=
  let '(name, parameter) := np in
  v <- convert_parameter b parameter None 6 name ;;
  if isclose v (value parameter) then Ok tt
  else Raise (AssertionError ("Units System " ++ usystem_name b ++ " is not compatible")).

Fixpoint iter {A : Type} (f : A -> outcome unit) (l : list A) : outcome unit :=
  match l with
  | [] => Ok tt
  | a :: l' => _ <- f a ;; iter f l'
  end.

(** [_validate_unit_compatibility(top, base_unyts)]. *)
Definition _validate_unit_compatibility (top : Topology) (b : base_unyts) : outcome unit :=
  _ <- iter (check_parameter b) (flat_map at_parameters (atom_types top)) ;;
  iter (fun k => iter (check_parameter b) (flat_map ct_parameters (conn_types top k)))
       [Bond; Angle; Dihedral; Improper].

Definition default_parameterMaps : list (conn_kind * string) :=
  [(Improper, "HarmonicImproperPotential");
   (Dihedral, "OPLSTorsionPotential");
   (Angle, "LAMMPSHarmonicAnglePotential");
   (Bond, "LAMMPSHarmonicBondPotential")].

Definition nonempty {A : Type} (l : list A) : bool :=
  match l with
  | [] => false
  | _ => true
  end.

(** [_try_default_potential_conversions(top, potentialsDict)]. *)
Fixpoint _try_default_potential_conversions (top : Topology)
  (potentialsDict : list (conn_kind * string)) : outcome Topology :=
  match potentialsDict with
  | [] => Ok top
  | (k, name) :: rest =>
      if nonempty (conn_types top k) then
        top' <- convert_potential_styles env top k name ;;
        _try_default_potential_conversions top' rest
      else if nonempty (connections top k) then
        Raise (AttributeError ("Missing parameters in " ++ conn_str k))
      else _try_default_potential_conversions top rest
  end.

(** [a > b] on two quantities, through their normalized values. *)
Definition q_gtb (a b : quantity) : outcome bool :=
  match normal_value a, normal_value b with
  | Some (va, da), Some (vb, db) =>
      if dv_eqb da db then Ok (negb (Qle_bool va vb))
      else Raise (UnitConversionError "incompatible dimensions")
  | _, _ => Raise (UnitConversionError "unknown unit")
  end.

(** [max(l)] on a list of quantities: the first of the largest. *)
Fixpoint max_from (m : quantity) (l : list quantity) : outcome quantity :=
  match l with
  | [] => Ok m
  | x :: l' => g <- q_gtb x m ;; max_from (if g : bool then x else m) l'
  end.

Definition py_max (l : list quantity) : outcome quantity :=
  match l with
  | [] => Raise (ValueError "max() arg is an empty sequence")
  | x :: l' => max_from x l'
  end.

(** [_default_lj_val(top, source)]. *)
Definition _default_lj_val (top : Topology) (source : string) : outcome quantity :=
  if String.eqb source "length" then
    l <- mapM (fun x => param (at_parameters x) "sigma") (atom_types top) ;; py_max l
  else if String.eqb source "energy" then
    l <- mapM (fun x => param (at_parameters x) "epsilon") (atom_types top) ;; py_max l
  else if String.eqb source "mass" then py_max (map at_mass (atom_types top))
  else if String.eqb source "charge" then py_max (map at_charge (atom_types top))
  else Raise (ValueError ("Provided " ++ source ++ " for default LJ cannot be found in the topology.")).

Definition defaultsList : list string := ["length"; "energy"; "mass"; "charge"].

(** Truth value of a quantity. *)
Definition truthy (q : quantity) : bool := negb (Qeq_bool (value q) 0).

(** The loop that completes [lj_cfactorsDict]. *)
Fixpoint resolve_factors (top : Topology) (factors : list string)
  (lj_cfactorsDict : list (string * quantity)) : outcome (list (string * quantity)) :=
  match factors with
  | [] => Ok lj_cfactorsDict
  | source_factor :: rest =>
      if negb (Py.mem source_factor defaultsList) then
        Raise (ValueError ("Conversion factor " ++ source_factor ++ " is not used."))
      else
        match assoc source_factor lj_cfactorsDict with
        | Some v =>
            if truthy v then resolve_factors top rest lj_cfactorsDict
            else
              _ <- _default_lj_val top source_factor ;;
              resolve_factors top rest (assoc_set source_factor v lj_cfactorsDict)
        | None =>
            default_val_from_topology <- _default_lj_val top source_factor ;;
            resolve_factors top rest (assoc_set source_factor default_val_from_topology lj_cfactorsDict)
        end
  end.

(** The [else] branch of [if strict_units] in [write_lammpsdata]. *)
Definition resolve_lj_cfactors (top : Topology) (unit_style : string) (lj_cfactorsDict : cfactors)
  : outcome cfactors :=
  if negb (String.eqb unit_style "lj") then Ok None
  else
    let d := match lj_cfactorsDict with Some d => d | None => [] end in
    let source_factorsList := map fst d in
    r <- resolve_factors top (defaultsList ++ source_factorsList)%list d ;;
    Ok (Some r).

Definition valid_atom_styles : list string := ["full"; "atomic"; "molecular"; "charge"].

Definition dict_truthy (d : cfactors) : bool :=
  match d with
  | Some (_ :: _) => true
  | _ => false
  end.

(** What is written once the file is open. *)
Definition write_body (out_file : string) (top : Topology) (atom_style : string)
  (b : base_unyts) (cf : cfactors) : IO unit :=
  (_write_header out_file top atom_style ;;;
   _write_box out_file top b cf ;;;
   (if is_fully_typed top then
      _write_atomtypes out_file top b cf ;;;
      _write_pairtypes out_file top b cf ;;;
      (if nonempty (conn_types top Bond) then _write_bondtypes out_file top b cf else ret tt) ;;;
      (if nonempty (conn_types top Angle) then _write_angletypes out_file top b cf else ret tt) ;;;
      (if nonempty (conn_types top Dihedral) then _write_dihedraltypes out_file top b cf else ret tt) ;;;
      (if nonempty (conn_types top Improper) then _write_impropertypes out_file top b cf else ret tt)
    else ret tt) ;;;
   _write_site_data out_file top atom_style b cf ;;;
   foldM (fun _ k => if nonempty (connections top k) then _write_conn_data out_file top k else ret tt)
         [Bond; Angle; Dihedral; Improper] tt)%io.

(** [write_lammpsdata(top, filename, atom_style, unit_style,
    strict_potentials, strict_units, lj_cfactorsDict)]. *)
Definition write_lammpsdata (top : Topology) (filename atom_style unit_style : string)
  (strict_potentials strict_units : bool) (lj_cfactorsDict : cfactors) : IO unit :=
  (if negb (Py.mem atom_style valid_atom_styles) then
     raise (ValueError ("Atom style " ++ quoted atom_style ++ " is invalid or is not currently supported"))
   else if negb (Py.mem unit_style Reader.valid_unit_styles) then
     raise (ValueError ("Unit style " ++ quoted unit_style ++ " is invalid or is not currently supported"))
   else if negb (String.eqb unit_style "lj") && dict_truthy lj_cfactorsDict then
     raise (ValueError "lj_cfactorsDict argument is only used if unit_style is lj.")
   else
     let base_unyts := LAMMPS_UnitSystems env unit_style in
     top <- lift (if strict_potentials
                  then (_ <- _validate_potential_compatibility top ;; Ok top)%py
                  else _try_default_potential_conversions top default_parameterMaps) ;;
     lj_cfactorsDict <- lift (if strict_units
                              then (_ <- _validate_unit_compatibility top base_unyts ;; Ok lj_cfactorsDict)%py
                              else resolve_lj_cfactors top unit_style lj_cfactorsDict) ;;
     if negb (parent_exists env filename) then
       raise (FileNotFoundError "Provided path to file that does not exist")
     else
       open_w filename ;;;
       write_body filename top atom_style base_unyts lj_cfactorsDict)%io.

End WithEnv.

End Writer.

(** ** A sample environment and the scenario topology

    The theorems below hold for every environment; the concrete
    evaluations use this one. *)

Module Sample.

Definition pi : Q := 3.141592653589793%Q.

(** Square root to sixteen decimals (exact on the squares of short
    decimals). *)
Definition sqrt16 (q : Q) : Q :=
  Qred (Z.sqrt (Qnum q * 10 ^ 32 / Zpos (Qden q)) # 10 ^ 16).

Fixpoint taylor (n : nat) (k : Z) (term x2 acc : Q) : Q :=
  match n with
  | O => acc
  | S n' =>
      let term' := Qred (- term * x2 / inject_Z ((k + 1) * (k + 2)))%Q in
      taylor n' (k + 2)%Z term' x2 (Qred (acc + term')%Q)
  end.

(** Sine and cosine by their series, for arguments between [-pi] and
    [pi]. *)
Definition cos_series (x : Q) : Q := taylor 12 0 1%Q (Qred (x * x)) 1%Q.
Definition sin_series (x : Q) : Q := taylor 12 1 x (Qred (x * x)) x.

Fixpoint bisect (n : nat) (lo hi x : Q) : Q :=
  match n with
  | O => lo
  | S n' =>
      let mid := Py.round_decimals 16 ((lo + hi) / 2) in
      if Qle_bool (cos_series mid) x then bisect n' lo mid x else bisect n' mid hi x
  end.

(** Inverse cosine: a right angle at zero, bisection elsewhere. *)
Definition arccos_sample (x : Q) : Q :=
  if Qeq_bool x 0 then Qred (pi / 2) else bisect 40 0 pi x.

Definition libm0 : LibM := mkLibM sqrt16 arccos_sample cos_series sin_series.

Definition table (l : list (string * string)) (d : string) : option Unit :=
  match assoc d l with
  | Some n => Some (U_named n)
  | None => None
  end.

(** The base units of each style, after the LAMMPS manual. *)
Definition unit_systems (style : string) : base_unyts :=
  let common := [("angle", "rad"); ("temperature", "K")] in
  if String.eqb style "lj" then mkBase "lj" (fun _ => None)
  else if String.eqb style "real" then
    mkBase "lammps_real"
      (table ([("length", "angstrom"); ("energy", "kcal/mol"); ("mass", "amu");
               ("charge", "elementary_charge"); ("time", "fs")] ++ common))
  else if String.eqb style "metal" then
    mkBase "lammps_metal"
      (table ([("length", "angstrom"); ("energy", "eV"); ("mass", "amu");
               ("charge", "elementary_charge"); ("time", "ps")] ++ common))
  else if String.eqb style "si" then
    mkBase "lammps_si"
      (table ([("length", "m"); ("energy", "J"); ("mass", "kg");
               ("charge", "C"); ("time", "s")] ++ common))
  else if String.eqb style "cgs" then
    mkBase "lammps_cgs"
      (table ([("length", "cm"); ("energy", "erg"); ("mass", "g");
               ("charge", "esu"); ("time", "s")] ++ common))
  else if String.eqb style "electron" then
    mkBase "lammps_electron"
      (table ([("length", "a0"); ("energy", "Ha"); ("mass", "amu");
               ("charge", "elementary_charge"); ("time", "fs")] ++ common))
  else if String.eqb style "micro" then
    mkBase "lammps_micro"
      (table ([("length", "um"); ("energy", "pg*um**2/us**2"); ("mass", "pg");
               ("charge", "pC"); ("time", "us")] ++ common))
  else
    mkBase "lammps_nano"
      (table ([("length", "nm"); ("energy", "ag*nm**2/ns**2"); ("mass", "ag");
               ("charge", "elementary_charge"); ("time", "ns")] ++ common)).

Definition template_library (name : string) : option Template :=
  if String.eqb name "LennardJonesPotential" then
    Some (mkTemplate name "4*epsilon*((sigma/r)**12 - (sigma/r)**6)" ["r"])
  else if String.eqb name "LAMMPSHarmonicBondPotential" then
    Some (mkTemplate name "k * (r-r_eq)**2" ["r"])
  else if String.eqb name "LAMMPSHarmonicAnglePotential" then
    Some (mkTemplate name "k * (theta - theta_eq)**2" ["theta"])
  else if String.eqb name "PeriodicTorsionPotential" then
    Some (mkTemplate name "k * (1 + cos(n * phi - phi_eq))" ["phi"])
  else if String.eqb name "HarmonicImproperPotential" then
    Some (mkTemplate name "0.5 * k * ((phi - phi_eq))**2" ["phi"])
  else if String.eqb name "OPLSTorsionPotential" then
    Some (mkTemplate name
            "0.5 * k0 + 0.5 * k1 * (1 + cos(phi)) + 0.5 * k2 * (1 - cos(2*phi)) + 0.5 * k3 * (1 + cos(3*phi)) + 0.5 * k4 * (1 - cos(4*phi))"
            ["phi"])
  else None.

Definition elements (mass : Q) : option string :=
  if Qeq_bool mass 12.011 then Some "carbon"
  else if Qeq_bool mass 1.008 then Some "hydrogen"
  else None.

Definition same_dimensions (a b : quantity) : outcome unit :=
  match normalize (units a), normalize (units b) with
  | Some (_, da), Some (_, db) =>
      if dv_eqb da dv_zero || dv_eqb db dv_zero || dv_eqb da db then Ok tt
      else Raise (UnitConversionError "incompatible dimensions")
  | _, _ => Ok tt
  end.

Definition parameter_label (key : string) (q : quantity) (b : base_unyts) : string :=
  key ++ " (" ++ Writer.unit_str (units q) ++ ")".

(** Members of a type in canonical order: a sorted pair for a bond, the
    outer pair sorted for an angle, the reverse reading of a dihedral
    when its inner pair is out of order, the first member and the sorted
    rest for an improper. *)
Definition canonical_members (c : ConnType) : outcome (list string) :=
  mt <- Writer.member_types c ;;
  match ct_kind c, mt with
  | Bond, _ => Ok (Writer.py_sorted mt)
  | Angle, [s1; s2; s3] => if String.ltb s3 s1 then Ok [s3; s2; s1] else Ok mt
  | Dihedral, [s1; s2; s3; s4] => if String.ltb s3 s2 then Ok [s4; s3; s2; s1] else Ok mt
  | Improper, s1 :: rest => Ok (s1 :: Writer.py_sorted rest)
  | _, _ => Raise IndexError
  end.

Fixpoint unique_by {A : Type} (same : A -> A -> bool) (seen : list A) (l : list A) : list A :=
  match l with
  | [] => []
  | x :: l' =>
      if existsb (same x) seen then unique_by same seen l'
      else x :: unique_by same (x :: seen) l'
  end.

(** One type per name, in order of first occurrence. *)
Definition unique_names (l : list AtomType) : list AtomType :=
  unique_by (fun a b => String.eqb (at_name a) (at_name b)) [] l.

Definition members_key (c : ConnType) : list string :=
  match canonical_members c with
  | Ok l => l
  | Raise _ => []
  end.

Definition unique_members (l : list ConnType) : list ConnType :=
  unique_by (fun a b => Writer.list_eqb (members_key a) (members_key b)) [] l.

(** No conversion is registered: the types of a kind must carry the name
    of the accepted template already. *)
Definition keep_styles (top : Topology) (k : conn_kind) (name : string) : outcome Topology :=
  if forallb (fun c => String.eqb (ct_name c) name) (Writer.conn_types top k) then Ok top
  else Raise (IncompatiblePotentialError (Writer.conn_str k)).

Definition accepted_names (top : Topology) (acc : list Template) : outcome unit :=
  if forallb (fun k => forallb (fun c => Py.mem (ct_name c) (map t_name acc)) (Writer.conn_types top k))
       [Bond; Angle; Dihedral; Improper]
  then Ok tt else Raise (IncompatiblePotentialError "potentials").

Definition env0 : Env :=
  mkEnv libm0 (Some "user") "2024-01-01 00:00:00.000000" (fun _ => true)
    unit_systems template_library elements same_dimensions parameter_label
    canonical_members unique_names unique_members keep_styles accepted_names.

(** The scenario of the specification: two atom types of masses 12.011
    and 1.008 g/mol and one bond type with [k = 340 kcal/mol/A^2],
    [r_eq = 1.09 A]. *)
Definition angstrom : Unit := U_named "angstrom".
Definition kcal_mol : Unit := U_named "kcal/mol".
Definition e_charge : Unit := U_named "elementary_charge".

Definition carbon : AtomType :=
  mkAtomType 100 "C" (mkQ 12.011 (U_named "g/mol")) (mkQ 0 e_charge)
    Reader.default_expression
    [("sigma", mkQ 3.5 angstrom); ("epsilon", mkQ 0.066 kcal_mol)] ["r"] "" "" [] "" "".

Definition hydrogen : AtomType :=
  mkAtomType 101 "H" (mkQ 1.008 (U_named "g/mol")) (mkQ 0 e_charge)
    Reader.default_expression
    [("sigma", mkQ 2.5 angstrom); ("epsilon", mkQ 0.03 kcal_mol)] ["r"] "" "" [] "" "".

Definition ch_bond_type : ConnType :=
  mkConnType Bond "LAMMPSHarmonicBondPotential" "k * (r-r_eq)**2"
    [("k", mkQ 340 (U_div kcal_mol (U_pow angstrom 2))); ("r_eq", mkQ 1.09 angstrom)]
    ["r"] (Some ["C"; "H"]).

Definition at_pos (x y z : Q) : list quantity := [mkQ x angstrom; mkQ y angstrom; mkQ z angstrom].

Definition site_c : Site :=
  mkSite 0 "C" (at_pos 0 0 0) (Some (mkQ 0 e_charge)) (Some carbon) (Some (mkMolecule "1" 1)) (Some "carbon").

Definition site_h : Site :=
  mkSite 1 "H" (at_pos 1.09 0 0) (Some (mkQ 0 e_charge)) (Some hydrogen) (Some (mkMolecule "1" 1)) (Some "hydrogen").

Definition cube (l : Q) : Box :=
  mkBox [mkQ l angstrom; mkQ l angstrom; mkQ l angstrom] Reader.right_angles.

Definition methylidyne : Topology :=
  mkTop (Some "Topology") [site_c; site_h] [mkConn Bond [0; 1]%nat (Some ch_bond_type)] [] [] []
    (Some (cube 10)).

Definition world0 : world := mkWorld [] [] 0.

Definition out_name : string := "scenario.lammps".

(** The content of a file in a world, empty when it is missing. *)
Definition content (w : world) (filename : string) : string :=
  match assoc filename (w_files w) with
  | Some c => c
  | None => EmptyString
  end.

End Sample.

(** * Properties *)

(** ** Units of angles and of equilibrium angles *)

Lemma get_units_lj (b : base_unyts) (dimension : string) :
  usystem_name b = "lj" ->
  get_units b dimension = if String.eqb dimension "angle" then Ok u_radian else Ok U_dimensionless.
Proof.
  intros H. unfold get_units. rewrite H. reflexivity.
Qed.

Lemma get_units_not_lj (b : base_unyts) (dimension : string) :
  usystem_name b <> "lj" ->
  get_units b dimension =
  if String.eqb dimension "angle_eq" then Ok u_degree
  else or_raise (usystem b dimension) (KeyError dimension).
Proof.
  intros H. unfold get_units.
  destruct (String.eqb_spec (usystem_name b) "lj") as [E | _]; [contradiction | reflexivity].
Qed.

Lemma bind_Ok {A B : Type} (m : outcome A) (k : A -> outcome B) (r : B) :
  bind m k = Ok r -> exists a, m = Ok a /\ k a = Ok r.
Proof.
  destruct m as [a | e]; simpl; intros H; [exists a; auto | discriminate].
Qed.

(** Repeated inversion of a successful sequence of binds. *)
Ltac inv_bind H :=
  repeat match type of H with
  | bind ?m ?k = Ok ?r =>
      let a := fresh "a" in
      let Ha := fresh "Ha" in
      apply bind_Ok in H; destruct H as (a & Ha & H)
  end.

(** The same in every hypothesis of the context. *)
Ltac inv_binds :=
  repeat match goal with
  | H : bind ?m ?k = Ok ?r |- _ =>
      let a := fresh "a" in
      let Ha := fresh "Ha" in
      apply bind_Ok in H; destruct H as (a & Ha & H)
  | H : Ok ?a = Ok ?b |- _ => injection H as H; try subst
  end.

(** The units the reader gives to the parameters of an angle type. *)
Lemma parse_angle_units (env : Env) (b : base_unyts) (line : string) (ct : ConnType) :
  Reader.parse_conn_type env b Angle line = Ok ct ->
  exists k0 th ue ua uq,
    get_units b "energy" = Ok ue /\ get_units b "angle" = Ok ua /\
    get_units b "angle_eq" = Ok uq /\
    ct_parameters ct =
      [("k", mkQ (Qred (k0 * 2)) (U_div ue (U_pow ua 2))); ("theta_eq", mkQ th uq)].
Proof.
  unfold Reader.parse_conn_type. intros H. inv_bind H.
  injection H as <-. exists a0, a3, a1, a2, a4. repeat split; assumption.
Qed.

(** The units the reader gives to the parameters of an improper type:
    the equilibrium angle is in the [angle_eq] unit, the force constant
    in energy per squared energy. *)
Lemma parse_improper_units (env : Env) (b : base_unyts) (line : string) (ct : ConnType) :
  Reader.parse_conn_type env b Improper line = Ok ct ->
  exists k0 ph ue uq,
    get_units b "energy" = Ok ue /\ get_units b "angle_eq" = Ok uq /\
    ct_parameters ct =
      [("k", mkQ (Qred (k0 * 2)) (U_div ue (U_pow ue 2))); ("phi_eq", mkQ ph uq)].
Proof.
  unfold Reader.parse_conn_type. intros H. inv_bind H.
  injection H as <-. rewrite Ha1 in Ha2. injection Ha2 as <-.
  exists a0, a3, a1, a4. repeat split; assumption.
Qed.

(** C6, as stated, fails: in the [lj] style [angle_eq] is not mapped to
    degree but to dimensionless. *)
Lemma angle_eq_lj_is_not_degree :
  get_units (Sample.unit_systems "lj") "angle_eq" = Ok U_dimensionless /\
  get_units (Sample.unit_systems "lj") "angle_eq" <> Ok u_degree.
Proof.
  split; [reflexivity | discriminate].
Qed.

(** C6 (amended): in every style other than [lj], [angle_eq] is degree
    and [angle] is the base angle unit of the style; in the [lj] style
    [angle] is radian and [angle_eq], as every other dimension, is
    dimensionless. In every style the reader builds [theta_eq] and
    [phi_eq] in the unit of [angle_eq] and the angle force constant in
    energy per squared unit of [angle]. *)
Theorem angle_eq_units (env : Env) (b : base_unyts) :
  (usystem_name b <> "lj" ->
     get_units b "angle_eq" = Ok u_degree /\
     get_units b "angle" = or_raise (usystem b "angle") (KeyError "angle")) /\
  (usystem_name b = "lj" ->
     get_units b "angle_eq" = Ok U_dimensionless /\ get_units b "angle" = Ok u_radian) /\
  (forall line ct, Reader.parse_conn_type env b Angle line = Ok ct ->
     exists kq th ue ua uq,
       get_units b "energy" = Ok ue /\ get_units b "angle" = Ok ua /\
       get_units b "angle_eq" = Ok uq /\
       assoc "theta_eq" (ct_parameters ct) = Some (mkQ th uq) /\
       assoc "k" (ct_parameters ct) = Some (mkQ kq (U_div ue (U_pow ua 2)))) /\
  (forall line ct, Reader.parse_conn_type env b Improper line = Ok ct ->
     exists ph uq,
       get_units b "angle_eq" = Ok uq /\
       assoc "phi_eq" (ct_parameters ct) = Some (mkQ ph uq)).
Proof.
  repeat split.
  - rewrite get_units_not_lj by assumption. reflexivity.
  - rewrite get_units_not_lj by assumption. reflexivity.
  - rewrite get_units_lj by assumption. reflexivity.
  - rewrite get_units_lj by assumption. reflexivity.
  - intros line ct H. apply parse_angle_units in H.
    destruct H as (k0 & th & ue & ua & uq & He & Ha & Hq & Hp).
    exists (Qred (k0 * 2)), th, ue, ua, uq. rewrite Hp. repeat split; assumption || reflexivity.
  - intros line ct H. apply parse_improper_units in H.
    destruct H as (k0 & ph & ue & uq & He & Hq & Hp).
    exists ph, uq. rewrite Hp. split; [assumption | reflexivity].
Qed.

(** The statement above at the [real] style and at one coefficient line. *)
Lemma angle_eq_units_real :
  get_units (Sample.unit_systems "real") "angle_eq" = Ok u_degree /\
  get_units (Sample.unit_systems "real") "angle" = Ok u_radian /\
  exists ph uq,
    get_units (Sample.unit_systems "real") "angle_eq" = Ok uq /\
    assoc "phi_eq"
      (ct_parameters
         (mkConnType Improper "HarmonicImproperPotential" "0.5 * k * ((phi - phi_eq))**2"
            [("k", mkQ 2 (U_div Sample.kcal_mol (U_pow Sample.kcal_mol 2)));
             ("phi_eq", mkQ 180 u_degree)] ["phi"] None)) = Some (mkQ ph uq).
Proof.
  destruct (angle_eq_units Sample.env0 (Sample.unit_systems "real")) as (H1 & _ & _ & H4).
  destruct (H1 ltac:(discriminate)) as (Hd & Ha).
  split; [exact Hd | split; [exact Ha |]].
  apply (H4 "1 9.9 1.0 180.0"). reflexivity.
Defined.

(** ** Equality of atom types *)

Lemma mem_In (x : string) (l : list string) : Py.mem x l = true <-> In x l.
Proof.
  unfold Py.mem. rewrite existsb_exists. split.
  - intros (y & Hy & E). apply String.eqb_eq in E. subst. assumption.
  - intros H. exists x. split; [assumption | apply String.eqb_refl].
Qed.

Lemma subset_b_spec (a b : list string) :
  subset_b a b = true <-> (forall x, In x a -> In x b).
Proof.
  unfold subset_b. rewrite forallb_forall. split; intros H x Hx.
  - apply mem_In. auto.
  - apply mem_In. auto.
Qed.

Lemma set_eqb_spec (a b : list string) :
  set_eqb a b = true <-> (forall x, In x a <-> In x b).
Proof.
  unfold set_eqb. rewrite andb_true_iff, !subset_b_spec. split.
  - intros [H1 H2] x. split; auto.
  - intros H. split; intros x; apply H.
Qed.

Lemma dv_eqb_eq (a b : dimvec) : dv_eqb a b = true <-> a = b.
Proof.
  unfold dv_eqb. rewrite andb_true_iff, Nat.eqb_eq. revert b.
  induction a as [| x a IH]; intros [| y b]; simpl; split; try easy.
  - intros [Hl H]. apply andb_true_iff in H. destruct H as [Hxy H].
    apply Z.eqb_eq in Hxy. f_equal; [assumption |]. apply IH. split; [lia | assumption].
  - intros E. injection E as -> ->. split; [reflexivity |].
    rewrite Z.eqb_refl. simpl. apply (IH b). reflexivity.
Qed.

Lemma unit_eqb_refl (u : Unit) : unit_eqb u u = true.
Proof.
  induction u as [| n | a IHa b IHb | a IHa b IHb | a IHa n]; simpl;
    rewrite ?IHa, ?IHb, ?String.eqb_refl, ?Z.eqb_refl; reflexivity.
Qed.

Lemma dv_eqb_refl (d : dimvec) : dv_eqb d d = true.
Proof. apply dv_eqb_eq. reflexivity. Qed.

Lemma Qeq_bool_refl (x : Q) : Qeq_bool x x = true.
Proof. apply Qeq_bool_iff. reflexivity. Qed.

Lemma unyt_eqb_refl (q : quantity) : unyt_eqb q q = true.
Proof.
  unfold unyt_eqb. destruct (normal_value q) as [[v d] |].
  - rewrite dv_eqb_refl, Qeq_bool_refl. reflexivity.
  - rewrite unit_eqb_refl, Qeq_bool_refl. reflexivity.
Qed.

Lemma unyt_compare_refl (l : list quantity) : unyt_compare l l = true.
Proof.
  induction l as [| q l IH]; simpl; [reflexivity | rewrite unyt_eqb_refl, IH; reflexivity].
Qed.

Lemma set_eqb_refl (l : list string) : set_eqb l l = true.
Proof. apply set_eqb_spec. tauto. Qed.

(** Two atom types with the same fields compare equal, whatever their
    identities. *)
Lemma eq_same_fields (a b : AtomType) :
  at_name a = at_name b -> at_expression a = at_expression b ->
  at_independent_variables a = at_independent_variables b ->
  (forall x, In x (map fst (at_parameters a)) <-> In x (map fst (at_parameters b))) ->
  map snd (at_parameters a) = map snd (at_parameters b) ->
  at_charge a = at_charge b -> at_atomclass a = at_atomclass b -> at_mass a = at_mass b ->
  at_doi a = at_doi b -> at_overrides a = at_overrides b ->
  at_definition a = at_definition b -> at_description a = at_description b ->
  GmsoAtomType.eq a (PyAtomType b) = true.
Proof.
  intros Hn He Hi Hk Hv Hc Hac Hm Hd Ho Hdf Hds. unfold GmsoAtomType.eq.
  destruct (Nat.eqb (at_id b) (at_id a)); [reflexivity |].
  rewrite Hn, He, Hi, Hv, Hc, Hac, Hm, Hd, Ho, Hdf, Hds.
  rewrite !String.eqb_refl, !set_eqb_refl, unyt_compare_refl, !unyt_eqb_refl.
  rewrite (proj2 (set_eqb_spec _ _) Hk). reflexivity.
Qed.

(** The structural content of a type, as the specification lists it:
    name, expression, independent variables, parameter keys and
    unit-normalized parameter values. *)
Definition same_structure (a b : AtomType) : Prop :=
  at_name a = at_name b /\
  at_expression a = at_expression b /\
  (forall x, In x (at_independent_variables a) <-> In x (at_independent_variables b)) /\
  (forall x, In x (map fst (at_parameters a)) <-> In x (map fst (at_parameters b))) /\
  unyt_compare (map snd (at_parameters a)) (map snd (at_parameters b)) = true.

(** The other attributes that [AtomType.__eq__] compares. *)
Definition same_attributes (a b : AtomType) : Prop :=
  unyt_eqb (at_charge a) (at_charge b) = true /\
  at_atomclass a = at_atomclass b /\
  unyt_eqb (at_mass a) (at_mass b) = true /\
  at_doi a = at_doi b /\
  (forall x, In x (at_overrides a) <-> In x (at_overrides b)) /\
  at_definition a = at_definition b /\
  at_description a = at_description b.

(** Carbon 13: the structural content of [Sample.carbon], another mass,
    another object. *)
Definition carbon13 : AtomType :=
  mkAtomType 113 "C" (mkQ 13.003 (U_named "g/mol")) (mkQ 0 Sample.e_charge)
    Reader.default_expression
    [("sigma", mkQ 3.5 Sample.angstrom); ("epsilon", mkQ 0.066 Sample.kcal_mol)] ["r"] "" "" [] "" "".

(** C7, as stated, fails: two atom types with the same structural
    content and different masses do not compare equal. *)
Lemma same_structure_not_equal :
  same_structure Sample.carbon carbon13 /\
  GmsoAtomType.eq Sample.carbon (PyAtomType carbon13) = false.
Proof.
  split; [| reflexivity].
  unfold same_structure. simpl. repeat split; auto.
Qed.

(** The fields of an atom type, its identity apart: what two separately
    constructed records of the same content share. *)
Definition same_fields (a b : AtomType) : Prop :=
  at_name a = at_name b /\ at_mass a = at_mass b /\ at_charge a = at_charge b /\
  at_expression a = at_expression b /\ at_parameters a = at_parameters b /\
  at_independent_variables a = at_independent_variables b /\
  at_atomclass a = at_atomclass b /\ at_doi a = at_doi b /\
  at_overrides a = at_overrides b /\ at_definition a = at_definition b /\
  at_description a = at_description b.

(** A difference in one of the attributes outside the structural
    content that [AtomType.__eq__] compares by value. *)
Definition differ_outside_structure (a b : AtomType) : Prop :=
  unyt_eqb (at_mass a) (at_mass b) = false \/ unyt_eqb (at_charge a) (at_charge b) = false \/
  at_atomclass a <> at_atomclass b \/ at_doi a <> at_doi b \/
  at_definition a <> at_definition b \/ at_description a <> at_description b.

Lemma gmso_eq_iff (a b : AtomType) :
  GmsoAtomType.eq a (PyAtomType b) = true <->
  at_id b = at_id a \/ (same_structure a b /\ same_attributes a b).
Proof.
  unfold GmsoAtomType.eq, same_structure, same_attributes.
  destruct (Nat.eqb_spec (at_id b) (at_id a)) as [E | NE].
  - split; auto.
  - rewrite !andb_true_iff, !String.eqb_eq, !set_eqb_spec. split.
    + intros H. right. tauto.
    + intros [H | H]; [contradiction | tauto].
Qed.

(** C7 (amended). Separately constructed atom types with the same fields
    compare equal under both classes, but the structural content alone
    does not decide equality.

    [gmso/core/atom_type.py]: two atom types compare equal exactly when
    they are the same object, or have the same name and expression, the
    same sets of independent variables and of parameter keys, parameter
    values that [unyt_compare] accepts position by position in the order
    of the two dicts (whatever key holds each value), and the same
    charge, atom class, mass, DOI, overrides, definition and
    description; two objects that differ in mass, charge, atom class,
    DOI, definition or description are not equal.

    [topology/core/atom_type.py]: equality is equality of the hashes of
    the tuple of name, mass, charge, expression, independent variables
    in order, parameter keys in the order of the dict and parameter
    values in that order; atom types with the same tuple compare equal,
    and atom types with different tuples compare equal only when the
    hash takes the same value on two different tuples. *)
Theorem atom_type_equality :
  (forall a b, same_fields a b -> GmsoAtomType.eq a (PyAtomType b) = true) /\
  (forall a b,
     GmsoAtomType.eq a (PyAtomType b) = true <->
     at_id b = at_id a \/ (same_structure a b /\ same_attributes a b)) /\
  (forall a b, at_id b <> at_id a -> differ_outside_structure a b ->
               GmsoAtomType.eq a (PyAtomType b) = false) /\
  (forall py_hash a b, same_fields a b -> TopologyAtomType.eq py_hash a (PyAtomType b) = true) /\
  (forall py_hash a b,
     TopologyAtomType.key a = TopologyAtomType.key b ->
     TopologyAtomType.eq py_hash a (PyAtomType b) = true) /\
  (forall py_hash a b,
     TopologyAtomType.eq py_hash a (PyAtomType b) = true ->
     TopologyAtomType.key a <> TopologyAtomType.key b ->
     exists k1 k2, k1 <> k2 /\ py_hash k1 = py_hash k2).
Proof.
  split; [| split; [| split; [| split; [| split]]]].
  - intros a b (Hn & Hm & Hc & He & Hp & Hi & Hac & Hd & Ho & Hdf & Hds).
    apply eq_same_fields; try assumption; rewrite Hp; tauto || reflexivity.
  - apply gmso_eq_iff.
  - intros a b Hid Hdiff.
    destruct (GmsoAtomType.eq a (PyAtomType b)) eqn:E; [| reflexivity].
    apply gmso_eq_iff in E. destruct E as [E | [_ (Hc & Hac & Hm & Hd & _ & Hdf & Hds)]];
      [contradiction |].
    destruct Hdiff as [H | [H | [H | [H | [H | H]]]]]; congruence.
  - intros py_hash a b (Hn & Hm & Hc & He & Hp & Hi & Hac & Hd & Ho & Hdf & Hds).
    unfold TopologyAtomType.eq, TopologyAtomType.hash_obj, TopologyAtomType.hash,
      TopologyAtomType.key.
    rewrite Hn, Hm, Hc, He, Hp, Hi. apply Z.eqb_refl.
  - intros py_hash a b H.
    unfold TopologyAtomType.eq, TopologyAtomType.hash_obj, TopologyAtomType.hash.
    rewrite H. apply Z.eqb_refl.
  - intros py_hash a b H Hk.
    unfold TopologyAtomType.eq, TopologyAtomType.hash_obj, TopologyAtomType.hash in H.
    apply Z.eqb_eq in H. exists (TopologyAtomType.key a), (TopologyAtomType.key b).
    split; assumption.
Qed.

(** The hash-based equality of [topology/core/atom_type.py]: equal
    hashed tuples (name, mass, charge, expression, independent
    variables, parameter keys and values) give equal types, whatever the
    hash function. *)
Lemma topology_atom_type_eq (py_hash : TopologyAtomType.hash_key -> Z) (a b : AtomType) :
  TopologyAtomType.key a = TopologyAtomType.key b ->
  TopologyAtomType.eq py_hash a (PyAtomType b) = true.
Proof.
  intros H. unfold TopologyAtomType.eq, TopologyAtomType.hash_obj, TopologyAtomType.hash.
  rewrite H. apply Z.eqb_refl.
Qed.

(** Under an injective hash the mass is part of what is compared. *)
Lemma topology_atom_type_mass (py_hash : TopologyAtomType.hash_key -> Z) (a b : AtomType) :
  (forall x y, py_hash x = py_hash y -> x = y) ->
  TopologyAtomType.eq py_hash a (PyAtomType b) = true ->
  normal_value (at_mass a) = normal_value (at_mass b).
Proof.
  intros Hinj H. unfold TopologyAtomType.eq, TopologyAtomType.hash_obj, TopologyAtomType.hash in H.
  apply Z.eqb_eq, Hinj in H. unfold TopologyAtomType.key in H. congruence.
Qed.

(** ** Configuration errors come before any file operation *)

Lemma mem_false (x : string) (l : list string) : ~ In x l -> Py.mem x l = false.
Proof.
  intros H. destruct (Py.mem x l) eqn:E; [| reflexivity].
  apply mem_In in E. contradiction.
Qed.

(** A call of the writer whose configuration is refused: an atom style
    or a unit style outside the supported ones, or reference factors
    given for a style other than [lj]. *)
Definition bad_write_config (atom_style unit_style : string) (lj_cfactorsDict : Writer.cfactors) : Prop :=
  ~ In atom_style Writer.valid_atom_styles \/
  ~ In unit_style Reader.valid_unit_styles \/
  (unit_style <> "lj" /\ exists kv d, lj_cfactorsDict = Some (kv :: d)).

Definition bad_read_config (atom_style unit_style : string) : Prop :=
  atom_style <> "full" \/ ~ In unit_style Reader.valid_unit_styles.

Lemma write_refuses_bad_config (env : Env) (top : Topology)
  (filename atom_style unit_style : string) (strict_potentials strict_units : bool)
  (lj_cfactorsDict : Writer.cfactors) (w : world) :
  bad_write_config atom_style unit_style lj_cfactorsDict ->
  exists msg,
    Writer.write_lammpsdata env top filename atom_style unit_style
      strict_potentials strict_units lj_cfactorsDict w = (Raise (ValueError msg), w).
Proof.
  intros H. unfold Writer.write_lammpsdata.
  destruct (Py.mem atom_style Writer.valid_atom_styles) eqn:Ea; cbn [negb];
    [| eexists; reflexivity].
  destruct (Py.mem unit_style Reader.valid_unit_styles) eqn:Eu; cbn [negb];
    [| eexists; reflexivity].
  destruct H as [H | [H | (Hlj & kv & d & ->)]].
  - apply mem_false in H. congruence.
  - apply mem_false in H. congruence.
  - destruct (String.eqb_spec unit_style "lj") as [E | _]; [contradiction |].
    cbn [negb andb Writer.dict_truthy]. eexists. reflexivity.
Qed.

Lemma read_refuses_bad_config (env : Env) (filename atom_style unit_style : string) (w : world) :
  bad_read_config atom_style unit_style ->
  exists msg,
    Reader.read_lammpsdata env filename atom_style unit_style w = (Raise (ValueError msg), w).
Proof.
  intros H. unfold Reader.read_lammpsdata.
  destruct (Py.mem atom_style ["full"]) eqn:Ea; cbn [negb]; [| eexists; reflexivity].
  destruct (Py.mem unit_style Reader.valid_unit_styles) eqn:Eu; cbn [negb];
    [| eexists; reflexivity].
  destruct H as [H | H].
  - apply mem_In in Ea. destruct Ea as [Ea | []]. congruence.
  - apply mem_false in H. congruence.
Qed.

(** C5: a call of [write_lammpsdata] or [read_lammpsdata] with a refused
    configuration raises [ValueError] and leaves the world as it was: no
    file was opened, created or modified, nothing was logged. *)
Theorem config_errors_before_file (env : Env) (filename atom_style unit_style : string) (w : world) :
  (forall top strict_potentials strict_units lj_cfactorsDict,
     bad_write_config atom_style unit_style lj_cfactorsDict ->
     exists msg,
       Writer.write_lammpsdata env top filename atom_style unit_style
         strict_potentials strict_units lj_cfactorsDict w = (Raise (ValueError msg), w)) /\
  (bad_read_config atom_style unit_style ->
     exists msg,
       Reader.read_lammpsdata env filename atom_style unit_style w = (Raise (ValueError msg), w)).
Proof.
  split.
  - intros. apply write_refuses_bad_config. assumption.
  - apply read_refuses_bad_config.
Qed.

(** The statement at the atom style [atomic], which the writer supports
    and the reader refuses, with reference factors given for the [real]
    style. *)
Lemma config_errors_sample :
  (exists msg,
     Writer.write_lammpsdata Sample.env0 Sample.methylidyne Sample.out_name "atomic" "real"
       false false (Some [("length", mkQ 1 Sample.angstrom)]) Sample.world0
     = (Raise (ValueError msg), Sample.world0)) /\
  (exists msg,
     Reader.read_lammpsdata Sample.env0 Sample.out_name "atomic" "real" Sample.world0
     = (Raise (ValueError msg), Sample.world0)).
Proof.
  destruct (config_errors_before_file Sample.env0 Sample.out_name "atomic" "real" Sample.world0)
    as [Hw Hr].
  split.
  - apply Hw. right. right. split; [discriminate | eexists; eexists; reflexivity].
  - apply Hr. left. discriminate.
Defined.

(** ** Reference factors of the reduced style *)

(** [x] is not greater than [v]: the comparison is defined and false. *)
Definition not_greater (x v : quantity) : Prop := Writer.q_gtb x v = Ok false.

(** [v] is a maximum of [l]: a member that no member exceeds. *)
Definition is_max (v : quantity) (l : list quantity) : Prop :=
  In v l /\ forall x, In x l -> x = v \/ not_greater x v.

Lemma q_gtb_inv (a b : quantity) (g : bool) :
  Writer.q_gtb a b = Ok g ->
  exists va vb d,
    normal_value a = Some (va, d) /\ normal_value b = Some (vb, d) /\ g = negb (Qle_bool va vb).
Proof.
  unfold Writer.q_gtb.
  destruct (normal_value a) as [[va da] |]; [| discriminate].
  destruct (normal_value b) as [[vb db] |]; [| discriminate].
  destruct (dv_eqb da db) eqn:E; [| discriminate].
  apply dv_eqb_eq in E. subst. intros H. injection H as <-.
  exists va, vb, db. auto.
Qed.

Lemma q_gtb_intro (a b : quantity) (va vb : Q) (d : dimvec) :
  normal_value a = Some (va, d) -> normal_value b = Some (vb, d) ->
  Writer.q_gtb a b = Ok (negb (Qle_bool va vb)).
Proof.
  intros Ha Hb. unfold Writer.q_gtb. rewrite Ha, Hb.
  replace (dv_eqb d d) with true by (symmetry; apply dv_eqb_eq; reflexivity).
  reflexivity.
Qed.

Lemma not_greater_of_greater (x m : quantity) :
  Writer.q_gtb x m = Ok true -> not_greater m x.
Proof.
  intros H. apply q_gtb_inv in H. destruct H as (vx & vm & d & Hx & Hm & Hg).
  unfold not_greater. rewrite (q_gtb_intro _ _ _ _ _ Hm Hx). f_equal.
  symmetry in Hg. apply negb_true_iff in Hg.
  apply negb_false_iff. apply Qle_bool_iff.
  destruct (Qlt_le_dec vm vx) as [L | L]; [apply Qlt_le_weak; assumption |].
  apply Qle_bool_iff in L. congruence.
Qed.

Lemma not_greater_trans (x m v : quantity) :
  not_greater x m -> not_greater m v -> not_greater x v.
Proof.
  unfold not_greater. intros H1 H2.
  apply q_gtb_inv in H1. destruct H1 as (vx & vm & d & Hx & Hm & Hg1).
  apply q_gtb_inv in H2. destruct H2 as (vm' & vv & d' & Hm' & Hv & Hg2).
  rewrite Hm in Hm'. injection Hm' as <- <-.
  rewrite (q_gtb_intro _ _ _ _ _ Hx Hv). f_equal.
  symmetry in Hg1, Hg2. apply negb_false_iff in Hg1, Hg2.
  apply negb_false_iff. apply Qle_bool_iff. apply Qle_bool_iff in Hg1, Hg2.
  eapply Qle_trans; eassumption.
Qed.

Lemma max_from_is_max (l : list quantity) (m v : quantity) (seen : list quantity) :
  Writer.max_from m l = Ok v -> is_max m seen -> is_max v (seen ++ l).
Proof.
  revert m seen. induction l as [| x l IH]; intros m seen H Hm.
  - simpl in H. injection H as <-. rewrite app_nil_r. assumption.
  - simpl in H. apply bind_Ok in H. destruct H as (g & Hg & H).
    replace (seen ++ x :: l)%list with ((seen ++ [x]) ++ l)%list
      by (rewrite <- app_assoc; reflexivity).
    apply (IH _ _ H). destruct Hm as [Hin Hall]. destruct g.
    + split; [apply in_or_app; right; left; reflexivity |].
      intros y Hy. apply in_app_or in Hy. destruct Hy as [Hy | [<- | []]]; [| left; reflexivity].
      right. destruct (Hall y Hy) as [-> | Hle].
      * apply not_greater_of_greater. assumption.
      * eapply not_greater_trans; [eassumption |].
        apply not_greater_of_greater. assumption.
    + split; [apply in_or_app; left; assumption |].
      intros y Hy. apply in_app_or in Hy. destruct Hy as [Hy | [<- | []]]; [auto |].
      right. exact Hg.
Qed.

(** Python's [max] returns a maximum of a non-empty list. *)
Lemma py_max_is_max (l : list quantity) (v : quantity) :
  Writer.py_max l = Ok v -> is_max v l.
Proof.
  destruct l as [| x l]; [discriminate |]. simpl. intros H.
  apply (max_from_is_max l x v [x] H).
  split; [left; reflexivity |]. intros y [<- | []]. left. reflexivity.
Qed.

Lemma mapM_Forall2 {A B : Type} (f : A -> outcome B) (l : list A) (l' : list B) :
  mapM f l = Ok l' -> Forall2 (fun a b => f a = Ok b) l l'.
Proof.
  revert l'. induction l as [| a l IH]; simpl; intros l' H.
  - injection H as <-. constructor.
  - apply bind_Ok in H. destruct H as (b & Hb & H).
    apply bind_Ok in H. destruct H as (bs & Hbs & H). injection H as <-.
    constructor; auto.
Qed.

(** The quantity of an atom type behind each reference factor: the
    [sigma] parameter for length, the [epsilon] parameter for energy,
    the mass and the charge. *)
Definition reference_quantity (key : string) (a : AtomType) : option quantity :=
  if String.eqb key "length" then assoc "sigma" (at_parameters a)
  else if String.eqb key "energy" then assoc "epsilon" (at_parameters a)
  else if String.eqb key "mass" then Some (at_mass a)
  else if String.eqb key "charge" then Some (at_charge a)
  else None.

(** [v] is the largest reference quantity of the atom types of [top]. *)
Definition largest_of_topology (top : Topology) (key : string) (v : quantity) : Prop :=
  (exists a, In a (Writer.atom_types top) /\ reference_quantity key a = Some v) /\
  (forall a q, In a (Writer.atom_types top) -> reference_quantity key a = Some q ->
               q = v \/ not_greater q v).

Lemma Forall2_max {A : Type} (f : A -> option quantity) (l : list A) (qs : list quantity) (v : quantity) :
  Forall2 (fun a q => f a = Some q) l qs -> is_max v qs ->
  (exists a, In a l /\ f a = Some v) /\
  (forall a q, In a l -> f a = Some q -> q = v \/ not_greater q v).
Proof.
  intros HF [Hin Hall]. split.
  - induction HF as [| a q l qs Haq HF IH]; [destruct Hin |].
    destruct Hin as [-> | Hin].
    + exists a. split; [left; reflexivity | assumption].
    + destruct (IH Hin) as (a' & Ha' & Hf); [intros; apply Hall; right; assumption |].
      exists a'. split; [right; assumption | assumption].
  - intros a q Ha Hq. apply Hall. clear Hin Hall.
    induction HF as [| a' q' l qs Haq HF IH]; [destruct Ha |].
    destruct Ha as [-> | Ha].
    + left. congruence.
    + right. apply IH. assumption.
Qed.

Lemma default_lj_val_largest (top : Topology) (key : string) (v : quantity) :
  Writer._default_lj_val top key = Ok v -> largest_of_topology top key v.
Proof.
  unfold Writer._default_lj_val, largest_of_topology, reference_quantity. intros H.
  destruct (String.eqb key "length").
  { apply bind_Ok in H. destruct H as (l & Hl & H).
    apply mapM_Forall2 in Hl. apply py_max_is_max in H.
    apply (Forall2_max (fun a => assoc "sigma" (at_parameters a)) _ l); [| assumption].
    eapply Forall2_impl; [| eassumption]. simpl. intros a q Hq. unfold param in Hq.
    destruct (assoc "sigma" (at_parameters a)); [injection Hq as <-; reflexivity | discriminate]. }
  destruct (String.eqb key "energy").
  { apply bind_Ok in H. destruct H as (l & Hl & H).
    apply mapM_Forall2 in Hl. apply py_max_is_max in H.
    apply (Forall2_max (fun a => assoc "epsilon" (at_parameters a)) _ l); [| assumption].
    eapply Forall2_impl; [| eassumption]. simpl. intros a q Hq. unfold param in Hq.
    destruct (assoc "epsilon" (at_parameters a)); [injection Hq as <-; reflexivity | discriminate]. }
  destruct (String.eqb key "mass").
  { apply py_max_is_max in H.
    apply (Forall2_max (fun a => Some (at_mass a)) _ (map at_mass (Writer.atom_types top)));
      [| assumption].
    clear H. induction (Writer.atom_types top); simpl; constructor; auto. }
  destruct (String.eqb key "charge"); [| discriminate].
  apply py_max_is_max in H.
  apply (Forall2_max (fun a => Some (at_charge a)) _ (map at_charge (Writer.atom_types top)));
    [| assumption].
  clear H. induction (Writer.atom_types top); simpl; constructor; auto.
Qed.

Lemma assoc_set_same {A : Type} (k : string) (v : A) (l : list (string * A)) :
  assoc k (assoc_set k v l) = Some v.
Proof.
  induction l as [| [k' v'] l IH]; simpl.
  - rewrite String.eqb_refl. reflexivity.
  - destruct (String.eqb_spec k k') as [E | NE]; simpl.
    + rewrite String.eqb_refl. reflexivity.
    + destruct (String.eqb_spec k k'); [contradiction | assumption].
Qed.

Lemma assoc_set_other {A : Type} (k k' : string) (v : A) (l : list (string * A)) :
  k <> k' -> assoc k (assoc_set k' v l) = assoc k l.
Proof.
  intros NE. induction l as [| [k0 v0] l IH]; simpl.
  - destruct (String.eqb_spec k k'); [contradiction | reflexivity].
  - destruct (String.eqb_spec k' k0) as [E | NE0]; simpl.
    + subst. destruct (String.eqb_spec k k0); [contradiction | reflexivity].
    + destruct (String.eqb_spec k k0); [reflexivity | assumption].
Qed.

(** One turn of the loop of [write_lammpsdata] over the factor names. *)
Lemma resolve_factors_step (top : Topology) (f : string) (rest : list string)
  (d d' : list (string * quantity)) :
  Writer.resolve_factors top (f :: rest) d = Ok d' ->
  In f Writer.defaultsList /\
  exists d1,
    Writer.resolve_factors top rest d1 = Ok d' /\
    (forall k v, assoc k d = Some v -> assoc k d1 = Some v) /\
    (forall k, k <> f -> assoc k d1 = assoc k d) /\
    (assoc f d = None -> exists v, Writer._default_lj_val top f = Ok v /\ assoc f d1 = Some v).
Proof.
  cbn [Writer.resolve_factors].
  destruct (Py.mem f Writer.defaultsList) eqn:Ef; cbn [negb]; [| discriminate].
  intros H. split; [apply mem_In; assumption |].
  destruct (assoc f d) as [v |] eqn:Ev.
  - destruct (Writer.truthy v).
    + exists d. repeat split; auto. discriminate.
    + apply bind_Ok in H. destruct H as (v0 & Hv0 & H).
      exists (assoc_set f v d). split; [assumption |]. repeat split.
      * intros k w Hk. destruct (String.eqb_spec k f) as [-> | NE].
        -- rewrite assoc_set_same. congruence.
        -- rewrite assoc_set_other by assumption. assumption.
      * intros k NE. apply assoc_set_other. assumption.
      * discriminate.
  - apply bind_Ok in H. destruct H as (v0 & Hv0 & H).
    exists (assoc_set f v0 d). split; [assumption |]. repeat split.
    + intros k w Hk. destruct (String.eqb_spec k f) as [-> | NE].
      * congruence.
      * rewrite assoc_set_other by assumption. assumption.
    + intros k NE. apply assoc_set_other. assumption.
    + intros _. exists v0. split; [assumption | apply assoc_set_same].
Qed.

Lemma resolve_factors_preserves (top : Topology) (fs : list string)
  (d d' : list (string * quantity)) (k : string) (v : quantity) :
  Writer.resolve_factors top fs d = Ok d' -> assoc k d = Some v -> assoc k d' = Some v.
Proof.
  revert d. induction fs as [| f fs IH]; intros d H Hk.
  - simpl in H. injection H as <-. assumption.
  - apply resolve_factors_step in H. destruct H as (_ & d1 & H1 & Hp & _).
    eapply IH; eauto.
Qed.

Lemma resolve_factors_default (top : Topology) (fs : list string)
  (d d' : list (string * quantity)) (key : string) :
  Writer.resolve_factors top fs d = Ok d' -> In key fs -> assoc key d = None ->
  exists v, Writer._default_lj_val top key = Ok v /\ assoc key d' = Some v.
Proof.
  revert d. induction fs as [| f fs IH]; intros d H Hin Hk; [destruct Hin |].
  apply resolve_factors_step in H. destruct H as (_ & d1 & H1 & Hp & Ho & Hd).
  destruct (String.eqb_spec key f) as [-> | NE].
  - destruct (Hd Hk) as (v & Hv & Hv1). exists v. split; [assumption |].
    eapply resolve_factors_preserves; eassumption.
  - destruct Hin as [E | Hin]; [congruence |].
    apply (IH d1); auto. rewrite Ho by assumption. assumption.
Qed.

Lemma resolve_factors_bad_key (top : Topology) (fs : list string)
  (d : list (string * quantity)) (bad : string) :
  In bad fs -> ~ In bad Writer.defaultsList ->
  (forall r, Writer.resolve_factors top fs d <> Ok r) /\
  ((forall k, In k Writer.defaultsList -> exists v, Writer._default_lj_val top k = Ok v) ->
   exists msg, Writer.resolve_factors top fs d = Raise (ValueError msg)).
Proof.
  intros Hin Hbad. revert d. induction fs as [| f fs IH]; intros d; [destruct Hin |].
  split.
  - intros r H. apply resolve_factors_step in H. destruct H as (Hf & d1 & H1 & _).
    destruct Hin as [-> | Hin]; [contradiction |].
    destruct (IH Hin d1) as [Hno _]. apply (Hno r). assumption.
  - intros Hdef. cbn [Writer.resolve_factors].
    destruct (Py.mem f Writer.defaultsList) eqn:Ef; cbn [negb]; [| eexists; reflexivity].
    destruct Hin as [-> | Hin]; [apply mem_In in Ef; contradiction |].
    apply mem_In in Ef. destruct (Hdef f Ef) as (v0 & Hv0).
    destruct (assoc f d) as [v |].
    + destruct (Writer.truthy v); [apply IH; assumption |].
      rewrite Hv0. simpl. apply IH; assumption.
    + rewrite Hv0. simpl. apply IH; assumption.
Qed.

(** The explicit entries of the argument [lj_cfactorsDict]. *)
Definition explicit (lj_cfactorsDict : Writer.cfactors) : list (string * quantity) :=
  match lj_cfactorsDict with
  | Some d => d
  | None => []
  end.

(** An atom type of the Buckingham form: no [sigma], no [epsilon]. *)
Definition buckingham : AtomType :=
  mkAtomType 300 "Ar" (mkQ 39.948 (U_named "g/mol")) (mkQ 0 Sample.e_charge)
    "a*exp(-b*r) - c*r**-6"
    [("a", mkQ 1000 Sample.kcal_mol); ("b", mkQ 3 (U_div U_dimensionless Sample.angstrom));
     ("c", mkQ 100 (U_div Sample.kcal_mol (U_pow Sample.angstrom (-6))))] ["r"] "" "" [] "" "".

Definition argon : Topology :=
  mkTop (Some "Topology")
    [mkSite 0 "Ar" (Sample.at_pos 0 0 0) (Some (mkQ 0 Sample.e_charge)) (Some buckingham)
       (Some (mkMolecule "1" 1)) (Some "argon")]
    [] [] [] [] (Some (Sample.cube 10)).

(** C4, as stated, fails: the defaults of the four names are computed
    before a supplied key is looked at, so with an atom type that has no
    [sigma] the key [time] does not raise [ValueError] but the
    [KeyError] of the default length. *)
Lemma unknown_factor_after_defaults :
  In "time" (map fst [("time", mkQ 1 (U_named "fs"))]) /\
  ~ In "time" Writer.defaultsList /\
  Writer.resolve_lj_cfactors argon "lj" (Some [("time", mkQ 1 (U_named "fs"))])
  = Raise (KeyError "sigma") /\
  Writer.write_lammpsdata Sample.env0 argon Sample.out_name "full" "lj" false false
    (Some [("time", mkQ 1 (U_named "fs"))]) Sample.world0
  = (Raise (KeyError "sigma"), Sample.world0).
Proof.
  split; [left; reflexivity |]. split.
  - simpl. intros H. decompose [or] H; discriminate || contradiction.
  - split; [reflexivity | vm_compute; reflexivity].
Qed.

(** C4 (amended): in the [lj] style without strict units, a reference
    factor with no explicit value is resolved to the largest
    corresponding quantity of the atom types of the topology (the
    [sigma] parameter for length, the [epsilon] parameter for energy,
    the mass, the charge); with a key outside length, energy, mass and
    charge the resolution never succeeds, and it raises [ValueError]
    provided the four defaults can be computed from the topology; the
    defaults come first, so when the default length is needed and
    cannot be computed the call raises the error of that default,
    whatever keys are supplied. *)
Theorem lj_default_factors (top : Topology) (lj_cfactorsDict : Writer.cfactors) :
  (forall r key,
     Writer.resolve_lj_cfactors top "lj" lj_cfactorsDict = Ok r ->
     In key Writer.defaultsList -> assoc key (explicit lj_cfactorsDict) = None ->
     exists d v, r = Some d /\ assoc key d = Some v /\ largest_of_topology top key v) /\
  (forall bad,
     In bad (map fst (explicit lj_cfactorsDict)) -> ~ In bad Writer.defaultsList ->
     (forall r, Writer.resolve_lj_cfactors top "lj" lj_cfactorsDict <> Ok r) /\
     ((forall k, In k Writer.defaultsList -> exists v, Writer._default_lj_val top k = Ok v) ->
      exists msg, Writer.resolve_lj_cfactors top "lj" lj_cfactorsDict = Raise (ValueError msg))) /\
  (forall e,
     (forall v, assoc "length" (explicit lj_cfactorsDict) = Some v -> Writer.truthy v = false) ->
     Writer._default_lj_val top "length" = Raise e ->
     Writer.resolve_lj_cfactors top "lj" lj_cfactorsDict = Raise e).
Proof.
  unfold Writer.resolve_lj_cfactors. cbn [String.eqb Ascii.eqb Bool.eqb negb].
  fold (explicit lj_cfactorsDict). split; [| split].
  3:{ intros e Hlen Hdef. cbn [Writer.defaultsList app Writer.resolve_factors].
      change (Py.mem "length" ["length"; "energy"; "mass"; "charge"]) with true. cbn [negb].
      destruct (assoc "length" (explicit lj_cfactorsDict)) as [v |].
      - rewrite (Hlen v eq_refl), Hdef. reflexivity.
      - rewrite Hdef. reflexivity. }
  - intros r key H Hkey Hnone. apply bind_Ok in H. destruct H as (d & Hd & H).
    injection H as <-.
    destruct (resolve_factors_default top _ _ _ key Hd) as (v & Hv & Hv'); [| assumption |].
    + apply in_or_app. left. assumption.
    + exists d, v. repeat split; try assumption; apply default_lj_val_largest in Hv; apply Hv.
  - intros bad Hin Hbad.
    destruct (resolve_factors_bad_key top
                (Writer.defaultsList ++ map fst (explicit lj_cfactorsDict))
                (explicit lj_cfactorsDict) bad) as [Hno Hval];
      [apply in_or_app; right; assumption | assumption |].
    split.
    + intros r H. apply bind_Ok in H. destruct H as (d & Hd & _). apply (Hno d Hd).
    + intros Hdef. destruct (Hval Hdef) as (msg & ->). exists msg. reflexivity.
Qed.

(** The statement at the scenario topology: the default length is the
    [sigma] of carbon, and the key [time] is refused. *)
Lemma lj_default_factors_sample :
  (exists d v,
     Writer.resolve_lj_cfactors Sample.methylidyne "lj" None = Ok (Some d) /\
     assoc "length" d = Some v /\ largest_of_topology Sample.methylidyne "length" v /\
     v = mkQ 3.5 Sample.angstrom) /\
  (exists msg,
     Writer.resolve_lj_cfactors Sample.methylidyne "lj" (Some [("time", mkQ 1 (U_named "fs"))])
     = Raise (ValueError msg)).
Proof.
  split.
  - destruct (lj_default_factors Sample.methylidyne None) as (H & _ & _).
    destruct (H (Some [("length", mkQ 3.5 Sample.angstrom); ("energy", mkQ 0.066 Sample.kcal_mol);
                       ("mass", mkQ 12.011 (U_named "g/mol")); ("charge", mkQ 0 Sample.e_charge)])
                "length") as (d & v & Hd & Hv & Hmax).
    + reflexivity.
    + left. reflexivity.
    + reflexivity.
    + injection Hd as <-. vm_compute in Hv. injection Hv as Hv.
      eexists. exists v. split; [reflexivity |]. split; [rewrite <- Hv; reflexivity |].
      split; [exact Hmax | symmetry; exact Hv].
  - destruct (lj_default_factors Sample.methylidyne (Some [("time", mkQ 1 (U_named "fs"))]))
      as (_ & H & _).
    destruct (H "time") as [_ Hval].
    + left. reflexivity.
    + simpl. intros Hc. decompose [or] Hc; discriminate || contradiction.
    + apply Hval. intros k Hk. simpl in Hk.
      decompose [or] Hk; try contradiction; subst; eexists; reflexivity.
Defined.

(** The potentials step of [write_lammpsdata]: validation or default
    conversions. *)
Definition potentials_step (env : Env) (top : Topology) (strict_potentials : bool) : outcome Topology :=
  if strict_potentials
  then (_ <- Writer._validate_potential_compatibility env top ;; Ok top)
  else Writer._try_default_potential_conversions env top Writer.default_parameterMaps.

(** In [write_lammpsdata] itself: once the potentials step has passed, an
    unknown reference factor raises [ValueError] before the file is
    opened. *)
Lemma write_refuses_unknown_factor (env : Env) (top top' : Topology)
  (filename atom_style : string) (strict_potentials : bool)
  (d : list (string * quantity)) (bad : string) (w : world) :
  In atom_style Writer.valid_atom_styles ->
  potentials_step env top strict_potentials = Ok top' ->
  In bad (map fst d) -> ~ In bad Writer.defaultsList ->
  (forall k, In k Writer.defaultsList -> exists v, Writer._default_lj_val top' k = Ok v) ->
  exists msg,
    Writer.write_lammpsdata env top filename atom_style "lj" strict_potentials false (Some d) w
    = (Raise (ValueError msg), w).
Proof.
  intros Hs Hp Hin Hbad Hdef. unfold Writer.write_lammpsdata.
  apply mem_In in Hs. rewrite Hs.
  change (Py.mem "lj" Reader.valid_unit_styles) with true.
  change ("lj" =? "lj")%string with true. cbn [negb andb].
  unfold potentials_step in Hp. unfold io_bind, lift. rewrite Hp.
  destruct (resolve_factors_bad_key top' (Writer.defaultsList ++ map fst d) d bad) as [_ Hval];
    [apply in_or_app; right; assumption | assumption |].
  destruct (Hval Hdef) as (msg & Hmsg).
  unfold Writer.resolve_lj_cfactors. change ("lj" =? "lj")%string with true. cbn [negb].
  rewrite Hmsg. exists msg. reflexivity.
Qed.

(** ** Pair coefficients *)

Lemma getitem_nat {A : Type} (l : list A) (i : nat) (a : A) :
  getitem l (Z.of_nat i) = Ok a -> nth_error l i = Some a.
Proof.
  unfold getitem.
  destruct (Z.of_nat i <? 0)%Z eqn:E; [apply Z.ltb_lt in E; lia |].
  destruct ((0 <=? Z.of_nat i) && (Z.of_nat i <? Z.of_nat (List.length l)))%Z; [| discriminate].
  rewrite Nat2Z.id. destruct (nth_error l i); simpl; congruence.
Qed.

Lemma nth_error_list_set {A : Type} (l : list A) (i : nat) (v a : A) :
  nth_error l i = Some a -> nth_error (Reader.list_set l i v) i = Some v.
Proof.
  revert i. induction l as [| x l IH]; intros [| i]; simpl; try discriminate; auto.
Qed.

Lemma list_set_set {A : Type} (l : list A) (i : nat) (v v' : A) :
  Reader.list_set (Reader.list_set l i v) i v' = Reader.list_set l i v'.
Proof.
  revert i. induction l as [| x l IH]; intros [| i]; simpl; try reflexivity.
  f_equal. apply IH.
Qed.

(** The number of whitespace-separated fields of a line. *)
Definition n_fields (line : string) : nat := List.length (Py.split line).

(** What the loop over the pair lines does with one line, by its number
    of fields. *)
Lemma parse_pair_line_cases (b : base_unyts) (type_list : list AtomType) (flag : bool)
  (i : nat) (line : string) :
  (n_fields line = 3%nat ->
   forall type_list' flag',
     Reader.parse_pair_line b (type_list, flag) (i, line) = Ok (type_list', flag') ->
     flag' = flag /\
     exists t sg ep ul ue,
       nth_error type_list i = Some t /\
       Reader.float_at (Py.split line) 2 = Ok sg /\ get_units b "length" = Ok ul /\
       Reader.float_at (Py.split line) 1 = Ok ep /\ get_units b "energy" = Ok ue /\
       type_list' =
         Reader.list_set type_list i
           (Reader.set_parameter (Reader.set_parameter t "sigma" (q_of sg ul))
                                 "epsilon" (q_of ep ue))) /\
  (n_fields line = 4%nat ->
   Reader.parse_pair_line b (type_list, flag) (i, line) = Ok (type_list, true)) /\
  (n_fields line <> 3%nat -> n_fields line <> 4%nat ->
   Reader.parse_pair_line b (type_list, flag) (i, line) = Ok (type_list, flag)).
Proof.
  unfold n_fields, Reader.parse_pair_line. repeat split.
  - rewrite H in H0. simpl in H0. inv_bind H0. congruence.
  - rewrite H in H0. change (3 =? 3)%nat with true in H0. cbv iota in H0.
    inv_bind H0. injection H0 as <- <-.
    apply getitem_nat in Ha1. pose proof (nth_error_list_set _ _ (Reader.set_parameter a1 "sigma" (q_of a a0)) _ Ha1) as Hset.
    apply getitem_nat in Ha4. rewrite Hset in Ha4. injection Ha4 as <-.
    exists a1, a, a2, a0, a3. rewrite list_set_set. repeat split; assumption.
  - intros ->. reflexivity.
  - intros H3 H4. apply Nat.eqb_neq in H3, H4. rewrite H3, H4. reflexivity.
Qed.


Definition four_fields (ip : nat * string) : bool := Nat.eqb (n_fields (snd ip)) 4.

(** The flag [warn_ljcutBool] after the loop: set exactly when some pair
    line has four fields. *)
Lemma pair_loop_flag (b : base_unyts) (lines : list (nat * string))
  (type_list type_list' : list AtomType) (flag flag' : bool) :
  Reader.fold_outcome (Reader.parse_pair_line b) lines (type_list, flag) = Ok (type_list', flag') ->
  flag' = flag || existsb four_fields lines.
Proof.
  revert type_list flag flag'.
  induction lines as [| [i line] lines IH]; intros type_list flag flag' H.
  - simpl in H. injection H as <- <-. symmetry. apply orb_false_r.
  - cbn [Reader.fold_outcome] in H. apply bind_Ok in H. destruct H as ([tl1 f1] & H1 & H).
    apply IH in H. rewrite H. cbn [existsb]. unfold four_fields at 2. cbn [snd].
    destruct (parse_pair_line_cases b type_list flag i line) as (H3 & H4 & Hother).
    destruct (Nat.eqb_spec (n_fields line) 4) as [E4 | N4].
    + rewrite (H4 E4) in H1. injection H1 as <- <-. destruct flag; reflexivity.
    + destruct (Nat.eq_dec (n_fields line) 3) as [E3 | N3].
      * destruct (H3 E3 _ _ H1) as [-> _]. reflexivity.
      * rewrite (Hother N3 N4) in H1. injection H1 as <- <-. reflexivity.
Qed.

(** A data file whose only pair row has a cutoff column. *)
Definition cutoff_file : string :=
  join_lines
    ["1 atoms"; ""; "1 atom types"; "";
     "0.0 10.0 xlo xhi"; "0.0 10.0 ylo yhi"; "0.0 10.0 zlo zhi"; "";
     "Masses"; ""; "1 12.011"; "";
     "Pair Coeffs"; ""; "1 0.066 3.5 10.0"; "";
     "Atoms"; ""; "1 1 1 0.0 0.0 0.0 0.0"].

Definition cutoff_world : world := mkWorld [("cutoff.data", cutoff_file)] [] 0.

(** C8, as stated, fails: reading a pair row with a cutoff column warns
    and does not raise, but the two parameters of the row are not read:
    the atom type keeps the default [sigma] and [epsilon], not the
    [3.5] and [0.066] of the row. *)
Lemma cutoff_row_is_skipped :
  exists top t w',
    Reader.read_lammpsdata Sample.env0 "cutoff.data" "full" "real" cutoff_world = (Ok top, w') /\
    In (EvWarn Reader.ljcut_warning) (w_log w') /\
    map site_atom_type (sites top) = [Some t] /\
    assoc "sigma" (at_parameters t) = Some (mkQ 0.3 (U_named "nm")) /\
    assoc "epsilon" (at_parameters t) = Some (mkQ 0.3 (U_named "kJ")).
Proof.
  eexists. eexists. eexists. split; [vm_compute; reflexivity |].
  split; [vm_compute; tauto |]. split; [reflexivity |]. split; reflexivity.
Qed.

(** C8 (amended): a pair row with exactly three fields sets [sigma]
    (third field, in the length unit) and [epsilon] (second field, in
    the energy unit) of the atom type at its position; a row with four
    fields does not raise, sets the warning flag and is otherwise
    skipped (the atom type is left as it was); rows of any other length
    are skipped silently; the warning is raised exactly when some row has
    four fields. *)
Theorem pair_rows (b : base_unyts) :
  (forall type_list flag i line type_list' flag',
     n_fields line = 3%nat ->
     Reader.parse_pair_line b (type_list, flag) (i, line) = Ok (type_list', flag') ->
     flag' = flag /\
     exists t' sg ep ul ue,
       nth_error type_list' i = Some t' /\
       Reader.float_at (Py.split line) 2 = Ok sg /\ get_units b "length" = Ok ul /\
       Reader.float_at (Py.split line) 1 = Ok ep /\ get_units b "energy" = Ok ue /\
       assoc "sigma" (at_parameters t') = Some (q_of sg ul) /\
       assoc "epsilon" (at_parameters t') = Some (q_of ep ue)) /\
  (forall type_list flag i line,
     n_fields line = 4%nat ->
     Reader.parse_pair_line b (type_list, flag) (i, line) = Ok (type_list, true)) /\
  (forall type_list flag i line,
     n_fields line <> 3%nat -> n_fields line <> 4%nat ->
     Reader.parse_pair_line b (type_list, flag) (i, line) = Ok (type_list, flag)) /\
  (forall lines type_list type_list' flag',
     Reader.fold_outcome (Reader.parse_pair_line b) lines (type_list, false) = Ok (type_list', flag') ->
     flag' = existsb four_fields lines).
Proof.
  repeat split.
  - destruct (parse_pair_line_cases b type_list flag i line) as (H3 & _).
    destruct (H3 H _ _ H0) as [Hf _]. exact Hf.
  - destruct (parse_pair_line_cases b type_list flag i line) as (H3 & _).
    destruct (H3 H _ _ H0) as [_ (t & sg & ep & ul & ue & Ht & Hsg & Hul & Hep & Hue & ->)].
    eexists. exists sg, ep, ul, ue. split; [eapply nth_error_list_set; eassumption |].
    repeat split; try assumption.
    + unfold Reader.set_parameter. cbn [at_parameters].
      rewrite assoc_set_other by discriminate. apply assoc_set_same.
    + unfold Reader.set_parameter. cbn [at_parameters]. apply assoc_set_same.
  - intros. apply (parse_pair_line_cases b type_list flag i line). assumption.
  - intros. apply (parse_pair_line_cases b type_list flag i line); assumption.
  - intros lines type_list type_list' flag' H. apply pair_loop_flag in H. exact H.
Qed.

(** The statement at a row with three fields and at a row with four. *)
Lemma pair_rows_sample :
  (exists t',
     assoc "sigma" (at_parameters t') = Some (mkQ (Qred 3.5) Sample.angstrom) /\
     assoc "epsilon" (at_parameters t') = Some (mkQ (Qred 0.066) Sample.kcal_mol)) /\
  Reader.parse_pair_line (Sample.unit_systems "real") ([carbon13], false) (0%nat, "1 0.066 3.5 10.0")
  = Ok ([carbon13], true).
Proof.
  destruct (pair_rows (Sample.unit_systems "real")) as (H3 & H4 & _).
  split.
  - destruct (H3 [carbon13] false 0%nat "1 0.066 3.5" _ _ eq_refl eq_refl)
      as (_ & t' & sg & ep & ul & ue & _ & Hsg & Hul & Hep & Hue & Hs & He).
    exists t'.
    vm_compute in Hsg, Hul, Hep, Hue.
    injection Hsg as <-. injection Hul as <-. injection Hep as <-. injection Hue as <-.
    split; assumption.
  - apply H4. reflexivity.
Defined.

(** ** What the writer appends to the file *)

Lemma append_assoc (a b c : string) : (a ++ b) ++ c = a ++ (b ++ c).
Proof.
  induction a as [| x a IH]; simpl; [reflexivity | rewrite IH; reflexivity].
Qed.

Lemma append_nil_r (a : string) : a ++ "" = a.
Proof.
  induction a as [| x a IH]; simpl; [reflexivity | rewrite IH; reflexivity].
Qed.

(** The text of a section whose chunks all succeed. *)
Fixpoint all_ok (cs : Writer.chunks) : outcome string :=
  match cs with
  | [] => Ok EmptyString
  | c :: cs' => s <- c ;; r <- all_ok cs' ;; Ok (s ++ r)
  end.

Fixpoint cat_all (l : list string) : string :=
  match l with
  | [] => EmptyString
  | s :: l' => s ++ cat_all l'
  end.

(** [m], when it succeeds, appends to the file [f] a text satisfying
    [P] and leaves what was there. *)
Definition appends (f : string) (m : IO unit) (P : string -> Prop) : Prop :=
  forall w w' c,
    m w = (Ok tt, w') -> assoc f (w_files w) = Some c ->
    exists s, assoc f (w_files w') = Some (c ++ s) /\ P s.

Lemma appends_weaken (f : string) (m : IO unit) (P Q : string -> Prop) :
  (forall s, P s -> Q s) -> appends f m P -> appends f m Q.
Proof.
  intros HPQ H w w' c Hm Hc. destruct (H w w' c Hm Hc) as (s & Hs & HP). eauto.
Qed.

Lemma appends_ret (f : string) : appends f (ret tt) (fun s => s = EmptyString).
Proof.
  intros w w' c H Hc. injection H as <-. exists EmptyString.
  rewrite append_nil_r. auto.
Qed.

Lemma appends_write (f s : string) : appends f (write f s) (fun s' => s' = s).
Proof.
  intros w w' c H Hc. unfold write in H. rewrite Hc in H. injection H as <-.
  exists s. simpl. rewrite assoc_set_same. auto.
Qed.

Lemma appends_seq (f : string) (m1 m2 : IO unit) (P1 P2 : string -> Prop) :
  appends f m1 P1 -> appends f m2 P2 ->
  appends f (io_bind m1 (fun _ => m2)) (fun s => exists s1 s2, s = s1 ++ s2 /\ P1 s1 /\ P2 s2).
Proof.
  intros H1 H2 w w' c H Hc. unfold io_bind in H.
  destruct (m1 w) as [[[] | e] w1] eqn:E1; [| discriminate].
  destruct (H1 w w1 c E1 Hc) as (s1 & Hs1 & HP1).
  destruct (H2 w1 w' _ H Hs1) as (s2 & Hs2 & HP2).
  exists (s1 ++ s2). rewrite <- append_assoc. eauto 6.
Qed.

Lemma appends_lift_write (f : string) (o : outcome string) :
  appends f (io_bind (lift o) (fun s => write f s)) (fun s => o = Ok s).
Proof.
  intros w w' c H Hc. unfold io_bind, lift in H. destruct o as [s | e]; [| discriminate].
  destruct (appends_write f s w w' c H Hc) as (s' & Hs' & ->). eauto.
Qed.

Lemma appends_emit (f : string) (cs : Writer.chunks) :
  appends f (Writer.emit f cs) (fun s => all_ok cs = Ok s).
Proof.
  induction cs as [| c0 cs IH]; intros w w' c H Hc.
  - destruct (appends_ret f w w' c H Hc) as (s & Hs & ->). exists EmptyString. auto.
  - cbn [Writer.emit] in H. unfold io_bind at 1, lift in H.
    destruct c0 as [s0 | e]; [| discriminate].
    destruct (appends_seq f (write f s0) (Writer.emit f cs) _ _ (appends_write f s0) IH w w' c H Hc)
      as (s & Hs & s1 & s2 & -> & -> & H2).
    exists (s0 ++ s2). split; [assumption |]. simpl. rewrite H2. reflexivity.
Qed.

Lemma all_ok_map {A : Type} (g : A -> outcome string) (l : list A) (s : string) :
  all_ok (map g l) = Ok s ->
  exists rows, Forall2 (fun a r => g a = Ok r) l rows /\ s = cat_all rows.
Proof.
  revert s. induction l as [| a l IH]; simpl; intros s H.
  - injection H as <-. exists []. split; [constructor | reflexivity].
  - apply bind_Ok in H. destruct H as (r & Hr & H).
    apply bind_Ok in H. destruct H as (rest & Hrest & H). injection H as <-.
    destruct (IH _ Hrest) as (rows & HF & ->).
    exists (r :: rows). split; [constructor; assumption | reflexivity].
Qed.

Lemma enumerate_length {A : Type} (l : list A) : List.length (Reader.enumerate l) = List.length l.
Proof.
  unfold Reader.enumerate. rewrite length_combine, length_seq. apply Nat.min_id.
Qed.

(** The head of the data section of a kind of connections. *)
Definition section_head (k : conn_kind) : string :=
  Writer.NL ++ Py.capitalize (Writer.conn_str k) ++ Writer.NL ++ Writer.NL.

Lemma mapM_map_result {A B C : Type} (f : A -> outcome B) (g : B -> C) (l : list A) (r : list C) :
  mapM (fun x => y <- f x ;; Ok (g y)) l = Ok r ->
  exists ys, mapM f l = Ok ys /\ r = map g ys.
Proof.
  revert r. induction l as [| a l IH]; simpl; intros r H.
  - injection H as <-. exists []. auto.
  - apply bind_Ok in H. destruct H as (c & Hc & H).
    apply bind_Ok in Hc. destruct Hc as (y & Hy & Hc). injection Hc as <-.
    apply bind_Ok in H. destruct H as (cs & Hcs & H). injection H as <-.
    destruct (IH _ Hcs) as (ys & Hys & ->). exists (y :: ys). rewrite Hy, Hys. auto.
Qed.

(** The text of a row of a data section: the 1-based number of the
    connection, the 1-based number of its type and the 1-based positions
    of its members, each padded on the right to six characters, with
    tabs between them. *)
Definition conn_line (number type_number : Z) (members : list Z) : string :=
  Py.ljust 6 (Py.fmt_d number) ++ Writer.TAB ++ Py.ljust 6 (Py.fmt_d type_number) ++ Writer.TAB
  ++ Writer.join Writer.TAB (map (fun p => Py.ljust 6 (Py.fmt_d p)) members) ++ Writer.NL.

(** [row] is the row of the connection [snd ic], the one of number
    [fst ic] counted from 0: the type number is the position of the
    sorted member types of its type in [indexList], the members are the
    positions of its members in the list of sites of the topology. *)
Definition row_of (env : Env) (top : Topology) (indexList : list (list string))
  (ic : nat * Connection) (row : string) : Prop :=
  exists ct key ti ps,
    connection_type (snd ic) = Some ct /\
    sort_by_types env ct = Ok key /\
    Writer.index_of (Writer.list_eqb key) indexList 0 = Ok ti /\
    mapM (Writer.site_index top) (connection_members (snd ic)) = Ok ps /\
    row = conn_line (Z.of_nat (fst ic) + 1) (ti + 1) (map (fun p => (p + 1)%Z) ps).

Lemma conn_row_text (env : Env) (top : Topology) (indexList : list (list string))
  (ic : nat * Connection) (row : string) :
  Writer.conn_row env top indexList (fst ic) (snd ic) = Ok row -> row_of env top indexList ic row.
Proof.
  unfold Writer.conn_row. intros H.
  apply bind_Ok in H. destruct H as (ct & Hct & H).
  apply bind_Ok in H. destruct H as (key & Hkey & H).
  apply bind_Ok in H. destruct H as (ti & Hti & H).
  apply bind_Ok in H. destruct H as (idxs & Hidx & H). injection H as <-.
  apply (mapM_map_result (Writer.site_index top) (fun si => Py.ljust 6 (Py.fmt_d (si + 1))))
    in Hidx.
  destruct Hidx as (ps & Hps & ->).
  destruct (connection_type (snd ic)) as [ct0 |] eqn:Ect; [| discriminate]. injection Hct as ->.
  exists ct, key, ti, ps. repeat split; try assumption.
  unfold conn_line, Writer.TAB. rewrite map_map.
  repeat first [rewrite append_assoc | progress cbn [append]]. reflexivity.
Qed.

(** The text of a data section: its head and the row of each
    connection, in order. *)
Lemma conn_data_text (env : Env) (top : Topology) (k : conn_kind) (s : string) :
  all_ok (Writer.conn_data_chunks env top k) = Ok s ->
  exists rows indexList,
    s = section_head k ++ cat_all rows /\
    Writer.conn_index_list env top k = Ok indexList /\
    Forall2 (row_of env top indexList) (Reader.enumerate (connections top k)) rows.
Proof.
  unfold Writer.conn_data_chunks. cbn [all_ok bind]. intros H.
  apply bind_Ok in H. destruct H as (r & Hr & H). injection H as <-.
  unfold Writer.after in Hr.
  destruct (Writer.conn_index_list env top k) as [indexList | e];
    [| simpl in Hr; discriminate].
  apply all_ok_map in Hr. destruct Hr as (rows & HF & ->).
  exists rows, indexList. split; [reflexivity |]. split; [reflexivity |].
  eapply Forall2_impl; [| exact HF]. intros ic row Hrow. apply conn_row_text. assumption.
Qed.

Lemma appends_if (f : string) (c : bool) (m1 m2 : IO unit) (P : string -> Prop) :
  appends f m1 P -> appends f m2 P -> appends f (if c then m1 else m2) P.
Proof.
  destruct c; auto.
Qed.

Lemma appends_any_seq (f : string) (m1 m2 : IO unit) :
  appends f m1 (fun _ => True) -> appends f m2 (fun _ => True) ->
  appends f (io_bind m1 (fun _ => m2)) (fun _ => True).
Proof.
  intros H1 H2. eapply appends_weaken; [| apply appends_seq; eassumption]. auto.
Qed.

Lemma appends_any_emit (f : string) (cs : Writer.chunks) :
  appends f (Writer.emit f cs) (fun _ => True).
Proof.
  eapply appends_weaken; [| apply appends_emit]. auto.
Qed.

Lemma appends_any_ret (f : string) : appends f (ret tt) (fun _ => True).
Proof.
  eapply appends_weaken; [| apply appends_ret]. auto.
Qed.

(** The text [s] holds the data section of the connections of kind [k]:
    its head followed by the row of each connection, in the order of
    the topology. *)
Definition holds_section (env : Env) (top : Topology) (k : conn_kind) (s : string) : Prop :=
  exists pre rows post indexList,
    s = pre ++ section_head k ++ cat_all rows ++ post /\
    Writer.conn_index_list env top k = Ok indexList /\
    Forall2 (row_of env top indexList) (Reader.enumerate (connections top k)) rows.

(** The loop of [write_lammpsdata] over the kinds of connections writes
    the data section of every kind that has connections. *)
Lemma conn_sections (env : Env) (f : string) (top : Topology) (ks : list conn_kind) :
  appends f
    (foldM (fun _ k => if Writer.nonempty (connections top k)
                       then Writer._write_conn_data env f top k else ret tt) ks tt)
    (fun s => forall k, In k ks -> connections top k <> [] -> holds_section env top k s).
Proof.
  induction ks as [| k0 ks IH]; intros w w' c H Hc.
  - injection H as <-. exists EmptyString. rewrite append_nil_r. split; [assumption |].
    intros k [].
  - cbn [foldM] in H. unfold io_bind in H.
    destruct (Writer.nonempty (connections top k0)) eqn:En.
    + destruct (Writer._write_conn_data env f top k0 w) as [[[] | e] w1] eqn:E1; [| discriminate].
      destruct (appends_emit f _ w w1 c E1 Hc) as (s1 & Hs1 & Hok).
      destruct (IH w1 w' _ H Hs1) as (s2 & Hs2 & Hrest).
      exists (s1 ++ s2). rewrite <- append_assoc. split; [assumption |].
      intros k [<- | Hk] Hne.
      * apply conn_data_text in Hok. destruct Hok as (rows & indexList & -> & Hil & Hrows).
        exists EmptyString, rows, s2, indexList. split; [| split; assumption].
        simpl. rewrite !append_assoc. reflexivity.
      * destruct (Hrest k Hk Hne) as (pre & rows & post & indexList & -> & Hil & Hrows).
        exists (s1 ++ pre), rows, post, indexList. split; [| split; assumption].
        rewrite !append_assoc. reflexivity.
    + unfold ret in H. destruct (IH w w' c H Hc) as (s2 & Hs2 & Hrest).
      exists s2. split; [assumption |].
      intros k [<- | Hk] Hne; [| auto].
        destruct (connections top k0); [contradiction | discriminate].
Qed.

(** What [write_lammpsdata] writes once the file is open: the header,
    then the box, the type sections and the rows of the sites, then the
    data sections of the connections. *)
Lemma write_body_text (env : Env) (f : string) (top : Topology) (atom_style : string)
  (b : base_unyts) (cf : Writer.cfactors) :
  appends f (Writer.write_body env f top atom_style b cf)
    (fun s => exists mid conns,
       s = Writer.header_text env top atom_style ++ mid ++ conns /\
       forall k, connections top k <> [] -> holds_section env top k conns).
Proof.
  unfold Writer.write_body.
  eapply appends_weaken;
    [| apply appends_seq; [apply appends_write |
       apply appends_seq; [apply appends_lift_write |
       apply appends_seq; [|
       apply appends_seq; [apply appends_any_emit | apply conn_sections]]]]].
  - intros s (s1 & r1 & -> & -> & s2 & r2 & -> & _ & s3 & r3 & -> & _ & s4 & s5 & -> & _ & H).
    exists (s2 ++ s3 ++ s4), s5. split.
    + rewrite !append_assoc. reflexivity.
    + intros k Hk. apply H; [| assumption]. destruct k; simpl; auto.
  - unfold Writer._write_atomtypes, Writer._write_pairtypes, Writer._write_bondtypes,
      Writer._write_angletypes, Writer._write_dihedraltypes, Writer._write_impropertypes.
    apply appends_if; [| apply appends_any_ret].
    repeat (apply appends_any_emit || apply appends_any_ret
            || apply appends_if || apply appends_any_seq).
Qed.

(** The header in the atom styles [atomic] and [charge]: the title, the
    number of atoms and the number of atom types, nothing about
    connections. *)
Lemma header_without_counts (env : Env) (top : Topology) (atom_style : string) :
  In atom_style ["atomic"; "charge"] ->
  Writer.header_text env top atom_style =
  Writer.title_line env top
  ++ (Py.fmt_d (n_sites top) ++ " atoms" ++ Writer.NL)
  ++ (Py.fmt_d (Writer.len (Writer.atom_types_view env top)) ++ " atom types" ++ Writer.NL)
  ++ Writer.NL.
Proof.
  intros [<- | [<- | []]]; unfold Writer.header_text;
    change (Writer.full_or_molecular _) with false; rewrite !andb_false_r; reflexivity.
Qed.

(** The file after a successful call of [write_lammpsdata]. *)
Lemma write_lammpsdata_text (env : Env) (top : Topology)
  (filename atom_style unit_style : string) (strict_potentials strict_units : bool)
  (lj_cfactorsDict : Writer.cfactors) (w w' : world) :
  Writer.write_lammpsdata env top filename atom_style unit_style
    strict_potentials strict_units lj_cfactorsDict w = (Ok tt, w') ->
  exists top' mid conns,
    potentials_step env top strict_potentials = Ok top' /\
    assoc filename (w_files w') = Some (Writer.header_text env top' atom_style ++ mid ++ conns) /\
    forall k, connections top' k <> [] -> holds_section env top' k conns.
Proof.
  unfold Writer.write_lammpsdata. intros H.
  destruct (negb (Py.mem atom_style Writer.valid_atom_styles)); [discriminate |].
  destruct (negb (Py.mem unit_style Reader.valid_unit_styles)); [discriminate |].
  destruct (negb (unit_style =? "lj")%string && Writer.dict_truthy lj_cfactorsDict);
    [discriminate |].
  unfold io_bind at 1, lift at 1 in H. fold (potentials_step env top strict_potentials) in H.
  destruct (potentials_step env top strict_potentials) as [top' | e]; [| discriminate].
  unfold io_bind at 1, lift at 1 in H.
  match type of H with
  | (match ?c with _ => _ end) = _ => destruct c as [cf' | e]; [| discriminate]
  end.
  destruct (negb (parent_exists env filename)); [discriminate |].
  unfold io_bind at 1 in H.
  destruct (open_w filename w) as [[[] | e] w1] eqn:Eo; [| discriminate].
  assert (Hc : assoc filename (w_files w1) = Some EmptyString).
  { unfold open_w, io_bind, log_event in Eo. injection Eo as <-. simpl. apply assoc_set_same. }
  destruct (write_body_text env filename top' atom_style _ cf' w1 w' _ H Hc)
    as (s & Hs & mid & conns & -> & Hconns).
  exists top', mid, conns. simpl in Hs. auto.
Qed.

(** C10: in the atom styles [atomic] and [charge] the header holds
    neither the counts of bonds, angles, dihedrals and impropers nor the
    counts of their types, whereas the body holds, for every kind with
    at least one connection, the data section of that kind: its title
    and, for each connection in the order of the topology, the row of
    its number, the number of its type and the positions of its members
    in the list of sites. *)
Theorem data_sections_without_counts (env : Env) (top : Topology) (atom_style : string)
  (H : In atom_style ["atomic"; "charge"]) :
  Writer.header_text env top atom_style =
    Writer.title_line env top
    ++ (Py.fmt_d (n_sites top) ++ " atoms" ++ Writer.NL)
    ++ (Py.fmt_d (Writer.len (Writer.atom_types_view env top)) ++ " atom types" ++ Writer.NL)
    ++ Writer.NL /\
  (forall out_file b cf w w' c k,
     connections top k <> [] ->
     Writer.write_body env out_file top atom_style b cf w = (Ok tt, w') ->
     assoc out_file (w_files w) = Some c ->
     exists mid conns,
       assoc out_file (w_files w') =
         Some (c ++ Writer.header_text env top atom_style ++ mid ++ conns) /\
       holds_section env top k conns) /\
  (forall filename unit_style strict_potentials strict_units lj_cfactorsDict w w',
     Writer.write_lammpsdata env top filename atom_style unit_style
       strict_potentials strict_units lj_cfactorsDict w = (Ok tt, w') ->
     exists top' mid conns,
       potentials_step env top strict_potentials = Ok top' /\
       assoc filename (w_files w') = Some (Writer.header_text env top' atom_style ++ mid ++ conns) /\
       forall k, connections top' k <> [] -> holds_section env top' k conns).
Proof.
  split; [apply header_without_counts; assumption |]. split.
  - intros out_file b cf w w' c k Hk Hw Hc.
    destruct (write_body_text env out_file top atom_style b cf w w' c Hw Hc)
      as (s & Hs & mid & conns & -> & Hconns).
    exists mid, conns. auto.
  - intros. eapply write_lammpsdata_text. eassumption.
Qed.

(** The statement at the scenario topology, written in the atom style
    [atomic]: the call succeeds, the header has four lines and a blank
    one, and the file holds the section [Bonds] with its one row, of
    bond 1, of type 1, between the sites 1 and 2. *)
Lemma data_sections_sample :
  exists w' mid conns,
    Writer.write_lammpsdata Sample.env0 Sample.methylidyne Sample.out_name "atomic" "real"
      false false None Sample.world0 = (Ok tt, w') /\
    assoc Sample.out_name (w_files w') =
      Some (Writer.header_text Sample.env0 Sample.methylidyne "atomic" ++ mid ++ conns) /\
    Writer.header_text Sample.env0 Sample.methylidyne "atomic" =
      Writer.title_line Sample.env0 Sample.methylidyne
      ++ "2 atoms" ++ Writer.NL ++ "2 atom types" ++ Writer.NL ++ Writer.NL /\
    holds_section Sample.env0 Sample.methylidyne Bond conns /\
    exists pre post, conns = pre ++ section_head Bond ++ conn_line 1 1 [1; 2]%Z ++ post.
Proof.
  destruct (data_sections_without_counts Sample.env0 Sample.methylidyne "atomic")
    as (Hh & _ & Hw); [left; reflexivity |].
  destruct (Writer.write_lammpsdata Sample.env0 Sample.methylidyne Sample.out_name "atomic" "real"
              false false None Sample.world0) as [r w'] eqn:E.
  assert (Hr : r = Ok tt) by (vm_compute in E; congruence). subst r.
  destruct (Hw _ _ _ _ _ _ _ E) as (top' & mid & conns & Hp & Hf & Hc).
  vm_compute in Hp. injection Hp as <-.
  exists w', mid, conns. split; [reflexivity |]. split; [exact Hf |].
  split; [rewrite Hh; reflexivity |].
  assert (Hs : holds_section Sample.env0 Sample.methylidyne Bond conns)
    by (apply Hc; discriminate).
  split; [exact Hs |].
  destruct Hs as (pre & rows & post & indexList & -> & Hil & HF).
  vm_compute in Hil. injection Hil as <-.
  change (Reader.enumerate (connections Sample.methylidyne Bond))
    with [(0%nat, mkConn Bond [0; 1]%nat (Some Sample.ch_bond_type))] in HF.
  inversion HF as [| ic row ics rows' Hrow HF' E1 E2]. subst.
  inversion HF'. subst.
  destruct Hrow as (ct & key & ti & ps & Hct & Hkey & Hti & Hps & ->).
  cbn [snd connection_type] in Hct. injection Hct as <-.
  vm_compute in Hkey. injection Hkey as <-.
  vm_compute in Hti. injection Hti as <-.
  vm_compute in Hps. injection Hps as <-.
  exists pre, post. cbn [cat_all]. rewrite append_nil_r. reflexivity.
Defined.

(** ** The scenario: one harmonic bond in the [real] style *)

(** The rows of a coefficient section of a file, each split into its
    fields: the lines after the title line (first fields [title] and
    [Coeffs]) and the line of labels, up to the next blank line. *)
Fixpoint rows_until_blank (ls : list string) : list (list string) :=
  match ls with
  | [] => []
  | l :: ls' =>
      match Py.split l with
      | [] => []
      | toks => toks :: rows_until_blank ls'
      end
  end.

Fixpoint coeff_rows (title : string) (ls : list string) : list (list string) :=
  match ls with
  | [] => []
  | l :: ls' =>
      match Py.split l with
      | t :: "Coeffs" :: _ =>
          if String.eqb t title then rows_until_blank (tl ls') else coeff_rows title ls'
      | _ => coeff_rows title ls'
      end
  end.

(** The parameter [k] of the type of each bond of a topology. *)
Definition bond_ks (top : Topology) : list (option quantity) :=
  map (fun c => match connection_type c with
                | Some ct => assoc "k" (ct_parameters ct)
                | None => None
                end) (bonds top).

Definition kcal_mol_A2 : Unit := U_div Sample.kcal_mol (U_pow Sample.angstrom 2).

(** The reader doubles the number it finds in the [k] field of a bond
    coefficient line, and takes [r_eq] as it is. *)
Lemma parse_bond_doubles (env : Env) (b : base_unyts) (line : string) (ct : ConnType) :
  Reader.parse_conn_type env b Bond line = Ok ct ->
  exists k0 r0 ue ul,
    Reader.float_at (Py.split line) 1 = Ok k0 /\
    Reader.float_at (Py.split line) 2 = Ok r0 /\
    get_units b "energy" = Ok ue /\ get_units b "length" = Ok ul /\
    ct_parameters ct = [("k", mkQ (Qred (k0 * 2)) (U_div ue (U_pow ul 2))); ("r_eq", mkQ r0 ul)].
Proof.
  unfold Reader.parse_conn_type. intros H. inv_bind H.
  injection H as <-. rewrite Ha2 in Ha4. injection Ha4 as <-.
  exists a0, a3, a1, a2. repeat split; assumption.
Qed.

(** The reader doubles the number it finds in the [k] field of an angle
    coefficient line, and takes [theta_eq] as it is. *)
Lemma parse_angle_doubles (env : Env) (b : base_unyts) (line : string) (ct : ConnType) :
  Reader.parse_conn_type env b Angle line = Ok ct ->
  exists k0 th ue ua uq,
    Reader.float_at (Py.split line) 1 = Ok k0 /\
    Reader.float_at (Py.split line) 2 = Ok th /\
    get_units b "energy" = Ok ue /\ get_units b "angle" = Ok ua /\
    get_units b "angle_eq" = Ok uq /\
    ct_parameters ct =
      [("k", mkQ (Qred (k0 * 2)) (U_div ue (U_pow ua 2))); ("theta_eq", mkQ th uq)].
Proof.
  unfold Reader.parse_conn_type. intros H. inv_bind H.
  injection H as <-. exists a0, a3, a1, a2, a4. repeat split; assumption.
Qed.

(** The writer puts the converted parameters of a bond type in its row
    as they are stored, without any factor. *)
Lemma bond_row_values (b : base_unyts) (cf : Writer.cfactors) (ps : list (string * quantity))
  (vs : list Q) :
  Writer.row_values b cf ps 6 false Writer.bond_style_orderTuple = Ok vs ->
  exists k r vk vr,
    assoc "k" ps = Some k /\ assoc "r_eq" ps = Some r /\
    Writer.convert_parameter b k cf 6 "" = Ok vk /\
    Writer.convert_parameter b r cf 6 "" = Ok vr /\
    vs = [vk; vr].
Proof.
  unfold Writer.row_values, Writer.bond_style_orderTuple, param. cbn [mapM]. intros H.
  destruct (assoc "k" ps) as [k |]; cbn [or_raise bind] in H; [| discriminate].
  destruct (Writer.convert_parameter b k cf 6 "") as [vk |] eqn:Ek; cbn [bind] in H;
    [| discriminate].
  destruct (assoc "r_eq" ps) as [r |]; cbn [or_raise bind] in H; [| discriminate].
  destruct (Writer.convert_parameter b r cf 6 "") as [vr |] eqn:Er; cbn [bind] in H;
    [| discriminate].
  injection H as <-.
  exists k, r, vk, vr. repeat split; assumption || reflexivity.
Qed.

(** C3, as stated, fails: the [k] field of the Bond Coeffs row written
    for [k = 340] is [340.0], not [680.0], and reading the file back
    gives [k = 680], not [340]. *)
Lemma scenario_k_not_doubled_by_writer :
  exists w1 w2 top',
    Writer.write_lammpsdata Sample.env0 Sample.methylidyne Sample.out_name "full" "real"
      false false None Sample.world0 = (Ok tt, w1) /\
    coeff_rows "Bond" (readlines (Sample.content w1 Sample.out_name))
      = [["1"; "340.0"; "1.09"; "#"; "C"; "H"]] /\
    Reader.read_lammpsdata Sample.env0 Sample.out_name "full" "real" w1 = (Ok top', w2) /\
    bond_ks top' = [Some (mkQ 680 kcal_mol_A2)] /\
    bond_ks Sample.methylidyne = [Some (mkQ 340 kcal_mol_A2)].
Proof.
  eexists. eexists. eexists.
  split; [vm_compute; reflexivity |].
  split; [vm_compute; reflexivity |].
  split; [vm_compute; reflexivity |].
  split; reflexivity.
Qed.

(** C3 (amended): for the topology of the scenario, written in the
    [real] style, the Bond Coeffs row holds the stored [k] as it is
    ([340.0]) and [r_eq = 1.09]; reading the written file back gives a
    bond type with [k = 680 kcal/mol/A^2], twice the number in the file,
    and [r_eq = 1.09 A]. In general the writer converts the stored
    parameters without any factor and the reader doubles the [k] field
    of every bond coefficient line. *)
Theorem scenario_bond_coefficient :
  (exists w1 w2 top',
     Writer.write_lammpsdata Sample.env0 Sample.methylidyne Sample.out_name "full" "real"
       false false None Sample.world0 = (Ok tt, w1) /\
     coeff_rows "Bond" (readlines (Sample.content w1 Sample.out_name))
       = [["1"; "340.0"; "1.09"; "#"; "C"; "H"]] /\
     Reader.read_lammpsdata Sample.env0 Sample.out_name "full" "real" w1 = (Ok top', w2) /\
     map (fun c => match connection_type c with
                   | Some ct => ct_parameters ct
                   | None => []
                   end) (bonds top')
       = [[("k", mkQ 680 kcal_mol_A2); ("r_eq", mkQ (Qred 1.09) Sample.angstrom)]]) /\
  (forall env b line ct,
     Reader.parse_conn_type env b Bond line = Ok ct ->
     exists k0 ue ul,
       Reader.float_at (Py.split line) 1 = Ok k0 /\
       get_units b "energy" = Ok ue /\ get_units b "length" = Ok ul /\
       assoc "k" (ct_parameters ct) = Some (mkQ (Qred (k0 * 2)) (U_div ue (U_pow ul 2)))) /\
  (forall b cf ps vs,
     Writer.row_values b cf ps 6 false Writer.bond_style_orderTuple = Ok vs ->
     exists k vk,
       assoc "k" ps = Some k /\ Writer.convert_parameter b k cf 6 "" = Ok vk /\
       nth_error vs 0 = Some vk).
Proof.
  split; [| split].
  - eexists. eexists. eexists.
    split; [vm_compute; reflexivity |].
    split; [vm_compute; reflexivity |].
    split; [vm_compute; reflexivity |]. reflexivity.
  - intros env b line ct H. apply parse_bond_doubles in H.
    destruct H as (k0 & r0 & ue & ul & Hk & _ & He & Hl & Hp).
    exists k0, ue, ul. rewrite Hp. repeat split; assumption || reflexivity.
  - intros b cf ps vs H. apply bond_row_values in H.
    destruct H as (k & r & vk & vr & Hk & _ & Hvk & _ & ->).
    exists k, vk. repeat split; assumption || reflexivity.
Qed.

(** ** Canonical order of the type tables *)

Section SortedBy.

Context {A K : Type}.
Variable lt : K -> K -> bool.
Variable key : A -> K.

Hypothesis lt_irrefl : forall x, lt x x = false.
Hypothesis lt_trans : forall x y z, lt x y = true -> lt y z = true -> lt x z = true.
Hypothesis lt_total : forall x y, lt x y = false -> lt y x = false -> x = y.

Definition before (a b : A) : Prop := lt (key a) (key b) = true.

Definition ordered (l : list A) : Prop := StronglySorted before l.

Lemma insert_by_perm (x : A) (l : list A) :
  Permutation (Writer.insert_by lt key x l) (x :: l).
Proof.
  induction l as [| y l IH]; simpl; [reflexivity |].
  destruct (lt (key x) (key y)); [reflexivity |].
  rewrite IH. apply perm_swap.
Qed.

Lemma sorted_by_perm_acc (l acc : list A) :
  Permutation (fold_left (fun acc x => Writer.insert_by lt key x acc) l acc) (acc ++ l).
Proof.
  revert acc. induction l as [| x l IH]; intros acc; simpl.
  - rewrite app_nil_r. reflexivity.
  - rewrite IH, insert_by_perm. apply Permutation_middle.
Qed.

Lemma sorted_by_perm (l : list A) : Permutation (Writer.sorted_by lt key l) l.
Proof.
  unfold Writer.sorted_by. apply (sorted_by_perm_acc l []).
Qed.

Lemma insert_by_ordered (x : A) (l : list A) :
  ordered l -> (forall y, In y l -> key y <> key x) -> ordered (Writer.insert_by lt key x l).
Proof.
  intros Hs. induction Hs as [| y l Hs IH Hy]; intros Hne; simpl.
  - constructor; constructor.
  - destruct (lt (key x) (key y)) eqn:E.
    + constructor; [constructor; assumption |].
      constructor; [exact E |].
      rewrite Forall_forall in *. intros z Hz. unfold before in *.
      eapply lt_trans; [exact E | apply Hy; assumption].
    + assert (Hyx : before y x).
      { unfold before. destruct (lt (key y) (key x)) eqn:E'; [reflexivity |].
        exfalso. apply (Hne y); [left; reflexivity |]. apply lt_total; assumption. }
      constructor.
      * apply IH. intros z Hz. apply Hne. right. assumption.
      * rewrite Forall_forall in *. intros z Hz.
        apply (Permutation_in _ (insert_by_perm x l)) in Hz.
        destruct Hz as [<- | Hz]; [assumption | apply Hy; assumption].
Qed.

Lemma sorted_by_ordered_acc (l acc : list A) :
  ordered acc -> NoDup (map key (acc ++ l)) ->
  ordered (fold_left (fun acc x => Writer.insert_by lt key x acc) l acc).
Proof.
  revert acc. induction l as [| x l IH]; intros acc Hs Hnd; simpl; [assumption |].
  apply IH.
  - apply insert_by_ordered; [assumption |].
    intros y Hy E. rewrite map_app in Hnd. simpl in Hnd.
    apply NoDup_remove_2 in Hnd. apply Hnd. apply in_or_app. left.
    rewrite <- E. apply in_map. assumption.
  - eapply Permutation_NoDup; [| exact Hnd].
    apply Permutation_map. rewrite insert_by_perm.
    rewrite <- Permutation_middle. reflexivity.
Qed.

Lemma sorted_by_ordered (l : list A) :
  NoDup (map key l) -> ordered (Writer.sorted_by lt key l).
Proof.
  intros H. apply sorted_by_ordered_acc; [constructor | assumption].
Qed.

Lemma ordered_head (a : A) (l1 : list A) (b : A) (l2 : list A) :
  ordered (a :: l1) -> ordered (b :: l2) -> Permutation (a :: l1) (b :: l2) -> a = b.
Proof.
  intros H1 H2 HP.
  apply StronglySorted_inv in H1. destruct H1 as [_ H1].
  apply StronglySorted_inv in H2. destruct H2 as [_ H2].
  rewrite Forall_forall in H1, H2.
  assert (Ha : In a (b :: l2)) by (apply (Permutation_in _ HP); left; reflexivity).
  assert (Hb : In b (a :: l1))
    by (apply (Permutation_in _ (Permutation_sym HP)); left; reflexivity).
  destruct Ha as [Ha | Ha]; [auto |]. destruct Hb as [Hb | Hb]; [auto |].
  pose proof (lt_trans _ _ _ (H1 b Hb) (H2 a Ha)) as Hc.
  rewrite lt_irrefl in Hc. discriminate.
Qed.

Lemma ordered_unique (l1 l2 : list A) :
  ordered l1 -> ordered l2 -> Permutation l1 l2 -> l1 = l2.
Proof.
  revert l2. induction l1 as [| a l1 IH]; intros l2 H1 H2 HP.
  - apply Permutation_nil in HP. auto.
  - destruct l2 as [| b l2]; [apply Permutation_sym, Permutation_nil in HP; discriminate |].
    pose proof (ordered_head _ _ _ _ H1 H2 HP) as <-.
    f_equal. apply IH.
    + apply StronglySorted_inv in H1. apply H1.
    + apply StronglySorted_inv in H2. apply H2.
    + eapply Permutation_cons_inv. eassumption.
Qed.

(** Sorting by pairwise distinct keys gives the same list for every
    order of the input. *)
Lemma sorted_by_permutation (l l' : list A) :
  NoDup (map key l) -> Permutation l l' ->
  Writer.sorted_by lt key l = Writer.sorted_by lt key l'.
Proof.
  intros Hnd HP. apply ordered_unique.
  - apply sorted_by_ordered. assumption.
  - apply sorted_by_ordered. eapply Permutation_NoDup; [| exact Hnd].
    apply Permutation_map. assumption.
  - rewrite !sorted_by_perm. assumption.
Qed.

End SortedBy.

Lemma ascii_compare_refl (c : ascii) : Ascii.compare c c = Eq.
Proof.
  unfold Ascii.compare. apply N.compare_refl.
Qed.

Lemma string_compare_refl (s : string) : String.compare s s = Eq.
Proof.
  induction s as [| c s IH]; simpl; [reflexivity |].
  rewrite ascii_compare_refl. assumption.
Qed.

Lemma string_compare_trans (s1 s2 s3 : string) :
  String.compare s1 s2 = Lt -> String.compare s2 s3 = Lt -> String.compare s1 s3 = Lt.
Proof.
  revert s2 s3. induction s1 as [| c1 s1 IH]; intros [| c2 s2] [| c3 s3]; simpl; try easy.
  unfold Ascii.compare.
  destruct (N.compare_spec (N_of_ascii c1) (N_of_ascii c2)) as [E12 | L12 | G12]; try easy;
    destruct (N.compare_spec (N_of_ascii c2) (N_of_ascii c3)) as [E23 | L23 | G23]; try easy;
    intros H1 H2.
  - rewrite <- E23, E12, N.compare_refl. eapply IH; eassumption.
  - rewrite E12. apply N.compare_lt_iff in L23. rewrite L23. reflexivity.
  - rewrite <- E23. apply N.compare_lt_iff in L12. rewrite L12. reflexivity.
  - assert (L : (N_of_ascii c1 < N_of_ascii c3)%N) by (eapply N.lt_trans; eassumption).
    apply N.compare_lt_iff in L. rewrite L. reflexivity.
Qed.

Lemma string_ltb_irrefl (s : string) : String.ltb s s = false.
Proof.
  unfold String.ltb. rewrite string_compare_refl. reflexivity.
Qed.

Lemma string_ltb_trans (x y z : string) :
  String.ltb x y = true -> String.ltb y z = true -> String.ltb x z = true.
Proof.
  unfold String.ltb. intros H1 H2.
  destruct (String.compare x y) eqn:E1; try discriminate.
  destruct (String.compare y z) eqn:E2; try discriminate.
  rewrite (string_compare_trans _ _ _ E1 E2). reflexivity.
Qed.

Lemma string_ltb_total (x y : string) :
  String.ltb x y = false -> String.ltb y x = false -> x = y.
Proof.
  unfold String.ltb. rewrite (String.compare_antisym y x).
  destruct (String.compare x y) eqn:E; simpl; try discriminate.
  intros _ _. apply String.compare_eq_iff. assumption.
Qed.

Lemma list_ltb_irrefl (l : list string) : Writer.list_ltb l l = false.
Proof.
  induction l as [| x l IH]; simpl; [reflexivity |].
  rewrite string_ltb_irrefl, String.eqb_refl. assumption.
Qed.

Lemma list_ltb_trans (a b c : list string) :
  Writer.list_ltb a b = true -> Writer.list_ltb b c = true -> Writer.list_ltb a c = true.
Proof.
  revert b c. induction a as [| x a IH]; intros [| y b] [| z c]; simpl; try easy.
  destruct (String.ltb x y) eqn:Lxy; destruct (String.ltb y z) eqn:Lyz.
  - intros _ _. rewrite (string_ltb_trans _ _ _ Lxy Lyz). reflexivity.
  - destruct (String.eqb_spec y z) as [<- | _]; [| discriminate].
    intros _ _. rewrite Lxy. reflexivity.
  - destruct (String.eqb_spec x y) as [-> | _]; [| discriminate].
    intros _ _. rewrite Lyz. reflexivity.
  - destruct (String.eqb_spec x y) as [-> | _]; [| discriminate].
    destruct (String.eqb_spec y z) as [<- | _]; [| discriminate].
    rewrite Lxy, ?String.eqb_refl. apply IH.
Qed.

Lemma list_ltb_total (a b : list string) :
  Writer.list_ltb a b = false -> Writer.list_ltb b a = false -> a = b.
Proof.
  revert b. induction a as [| x a IH]; intros [| y b]; simpl; try easy.
  destruct (String.ltb x y) eqn:Lxy; [discriminate |].
  destruct (String.ltb y x) eqn:Lyx; [discriminate |].
  pose proof (string_ltb_total _ _ Lxy Lyx) as <-.
  rewrite String.eqb_refl. intros H1 H2. f_equal. apply IH; assumption.
Qed.

(** The table of atom types does not depend on the order in which the
    types are supplied, as long as their names are pairwise distinct. *)
Lemma sorted_atom_types_permutation (env : Env) (top top' : Topology) :
  NoDup (map at_name (Writer.atom_types_view env top)) ->
  Permutation (Writer.atom_types_view env top) (Writer.atom_types_view env top') ->
  Writer.sorted_atom_types env top = Writer.sorted_atom_types env top'.
Proof.
  intros Hnd HP. unfold Writer.sorted_atom_types.
  apply sorted_by_permutation; try assumption.
  - exact string_ltb_irrefl.
  - exact string_ltb_trans.
  - exact string_ltb_total.
Qed.

Lemma mapM_Ok_iff {A B : Type} (f : A -> outcome B) (l : list A) (r : list B) :
  mapM f l = Ok r <-> Forall2 (fun a b => f a = Ok b) l r.
Proof.
  split; [apply mapM_Forall2 |].
  induction 1 as [| a b l r Hab HF IH]; simpl; [reflexivity |].
  rewrite Hab, IH. reflexivity.
Qed.

(** [mapM] over a permutation of the list succeeds as well, with a
    permutation of the results. *)
Lemma mapM_permutation {A B : Type} (f : A -> outcome B) (l l' : list A) (r : list B) :
  Permutation l l' -> mapM f l = Ok r ->
  exists r', mapM f l' = Ok r' /\ Permutation r r'.
Proof.
  intros HP. revert r. induction HP as [| a l l' HP IH | a b l | l l1 l2 HP1 IH1 HP2 IH2];
    intros r H.
  - exists r. split; [assumption | reflexivity].
  - simpl in H. apply bind_Ok in H. destruct H as (x & Hx & H).
    apply bind_Ok in H. destruct H as (xs & Hxs & H). injection H as <-.
    destruct (IH _ Hxs) as (r' & Hr' & HPr).
    exists (x :: r'). simpl. rewrite Hx, Hr'. split; [reflexivity | constructor; assumption].
  - simpl in H. apply bind_Ok in H. destruct H as (x & Hx & H).
    apply bind_Ok in H. destruct H as (xs & Hxs & H). injection H as <-.
    apply bind_Ok in Hxs. destruct Hxs as (y & Hy & Hxs).
    apply bind_Ok in Hxs. destruct Hxs as (ys & Hys & Hxs). injection Hxs as <-.
    exists (y :: x :: ys). simpl. rewrite Hy, Hx, Hys. split; [reflexivity | apply perm_swap].
  - destruct (IH1 _ H) as (r1 & Hr1 & HP1').
    destruct (IH2 _ Hr1) as (r2 & Hr2 & HP2').
    exists r2. split; [assumption | eapply Permutation_trans; eassumption].
Qed.

(** Computing keys and sorting by them gives the same result for every
    order of the input, as long as the keys are pairwise distinct. *)
Lemma keyed_sort_permutation {A B : Type} (f : A -> outcome (B * list string))
  (l l' : list A) (kl : list (B * list string)) :
  Permutation l l' -> mapM f l = Ok kl -> NoDup (map snd kl) ->
  exists kl',
    mapM f l' = Ok kl' /\
    Writer.sorted_by Writer.list_ltb snd kl' = Writer.sorted_by Writer.list_ltb snd kl.
Proof.
  intros HP H Hnd. destruct (mapM_permutation f l l' kl HP H) as (kl' & Hkl' & HPk).
  exists kl'. split; [assumption |]. symmetry.
  apply sorted_by_permutation; try assumption.
  - exact list_ltb_irrefl.
  - exact list_ltb_trans.
  - exact list_ltb_total.
Qed.

(** The list of connection types behind the type index of the data rows
    ([indexList] of [_write_conn_data]) does not depend on the order in
    which the types are supplied. *)
Lemma conn_index_list_permutation (env : Env) (top top' : Topology) (k : conn_kind)
  (members : list (list string)) (keyed : list (list string * list string)) :
  mapM (sort_by_types env) (Writer.conn_types_view env top k) = Ok members ->
  mapM (fun x => key <- Writer.sorting_func k x ;; Ok (x, key)) members = Ok keyed ->
  NoDup (map snd keyed) ->
  Permutation (Writer.conn_types_view env top k) (Writer.conn_types_view env top' k) ->
  Writer.conn_index_list env top' k = Writer.conn_index_list env top k.
Proof.
  intros Hm Hk Hnd HP. unfold Writer.conn_index_list.
  destruct (mapM_permutation _ _ _ _ HP Hm) as (members' & Hm' & HPm).
  destruct (keyed_sort_permutation _ _ _ _ HPm Hk Hnd) as (keyed' & Hk' & Hs).
  rewrite Hm, Hm'. cbn [bind]. rewrite Hk, Hk'. cbn [bind]. rewrite Hs. reflexivity.
Qed.

(** The same for the tables of bond and angle types. *)
Lemma sort_with_keys_permutation {A : Type} (key : A -> outcome (list string))
  (l l' : list A) (r : list (A * list string)) :
  Writer.sort_with_keys key l = Ok r -> NoDup (map snd r) -> Permutation l l' ->
  Writer.sort_with_keys key l' = Ok r.
Proof.
  unfold Writer.sort_with_keys. intros H Hnd HP.
  apply bind_Ok in H. destruct H as (kl & Hkl & H). injection H as <-.
  assert (Hnd' : NoDup (map snd kl)).
  { eapply Permutation_NoDup; [| exact Hnd]. apply Permutation_map. apply sorted_by_perm. }
  destruct (keyed_sort_permutation _ _ _ _ HP Hkl Hnd') as (kl' & Hkl' & Hs).
  rewrite Hkl'. cbn [bind]. rewrite Hs. reflexivity.
Qed.

(** The scenario topology with its two sites supplied in the other
    order; the sites, the bond and the box are the same objects. *)
Definition methylidyne_swapped : Topology :=
  mkTop (Some "Topology") [Sample.site_h; Sample.site_c]
    [mkConn Bond [0; 1]%nat (Some Sample.ch_bond_type)] [] [] [] (Some (Sample.cube 10)).

(** The rows of a data section of a file, each split into its fields:
    the lines after the title line and the blank line that follows it, up
    to the next blank line. *)
Fixpoint data_rows (title : string) (ls : list string) : list (list string) :=
  match ls with
  | [] => []
  | l :: ls' =>
      match Py.split l with
      | t :: _ =>
          if String.eqb t title then rows_until_blank (tl ls') else data_rows title ls'
      | [] => data_rows title ls'
      end
  end.

(** C2, as stated, fails: supplying the two sites of the scenario in the
    other order changes the file: the rows of the sections [Atoms] and
    [Bonds] follow the order of the sites. *)
Lemma site_order_changes_output :
  exists w1 w2,
    Writer.write_lammpsdata Sample.env0 Sample.methylidyne Sample.out_name "full" "real"
      false false None Sample.world0 = (Ok tt, w1) /\
    Writer.write_lammpsdata Sample.env0 methylidyne_swapped Sample.out_name "full" "real"
      false false None Sample.world0 = (Ok tt, w2) /\
    Permutation (sites Sample.methylidyne) (sites methylidyne_swapped) /\
    bonds methylidyne_swapped = bonds Sample.methylidyne /\
    String.eqb (Sample.content w1 Sample.out_name) (Sample.content w2 Sample.out_name) = false /\
    data_rows "Atoms" (readlines (Sample.content w1 Sample.out_name))
      = [["1"; "1"; "1"; "0.0"; "0.0"; "0.0"; "0.0"]; ["2"; "1"; "2"; "0.0"; "1.09"; "0.0"; "0.0"]] /\
    data_rows "Atoms" (readlines (Sample.content w2 Sample.out_name))
      = [["1"; "1"; "2"; "0.0"; "1.09"; "0.0"; "0.0"]; ["2"; "1"; "1"; "0.0"; "0.0"; "0.0"; "0.0"]] /\
    data_rows "Bonds" (readlines (Sample.content w1 Sample.out_name)) = [["1"; "1"; "1"; "2"]] /\
    data_rows "Bonds" (readlines (Sample.content w2 Sample.out_name)) = [["1"; "1"; "2"; "1"]].
Proof.
  eexists. eexists.
  split; [vm_compute; reflexivity |].
  split; [vm_compute; reflexivity |].
  split; [apply perm_swap |].
  split; [reflexivity |].
  repeat split; vm_compute; reflexivity.
Qed.

Lemma site_type_index_ext (l l' : list AtomType) (s : Site) :
  l = l' -> Writer.site_type_index l s = Writer.site_type_index l' s.
Proof.
  intros ->. reflexivity.
Qed.

Lemma nth_error_enumerate {A : Type} (l : list A) (n i : nat) (a : A) :
  nth_error l i = Some a ->
  nth_error (combine (seq n (List.length l)) l) i = Some ((n + i)%nat, a).
Proof.
  revert n i. induction l as [| x l IH]; intros n [| i] H; simpl in *; try discriminate.
  - injection H as ->. rewrite Nat.add_0_r. reflexivity.
  - rewrite (IH (S n) i H). f_equal. f_equal. lia.
Qed.

(** The row of a site is at the position of the site. *)
Lemma site_row_position (env : Env) (top : Topology) (atom_style : string)
  (b : base_unyts) (cf : Writer.cfactors) (i : nat) (s : Site) :
  nth_error (sites top) i = Some s ->
  nth_error (Writer.site_data_chunks env top atom_style b cf) (S i) =
  Some (Writer.site_row atom_style b cf (Writer.sorted_atom_types env top) i s).
Proof.
  intros H. unfold Writer.site_data_chunks. cbn [nth_error].
  rewrite nth_error_map. unfold Reader.enumerate.
  rewrite (nth_error_enumerate _ 0 i s H). reflexivity.
Qed.

(** The row of a connection is at the position of the connection. *)
Lemma conn_row_position (env : Env) (top : Topology) (k : conn_kind)
  (indexList : list (list string)) (i : nat) (c : Connection) :
  Writer.conn_index_list env top k = Ok indexList ->
  nth_error (connections top k) i = Some c ->
  nth_error (Writer.conn_data_chunks env top k) (S i) =
  Some (Writer.conn_row env top indexList i c).
Proof.
  intros Hl H. unfold Writer.conn_data_chunks. rewrite Hl. cbn [nth_error Writer.after].
  rewrite nth_error_map. unfold Reader.enumerate.
  rewrite (nth_error_enumerate _ 0 i c H). reflexivity.
Qed.

(** C2 (amended): the tables of types and the type indices do not depend
    on the order in which the types are supplied, as long as their sort
    keys are pairwise distinct: the sorted list of atom types, the
    section [Masses] and the type index of every site; the sorted tables
    of bond and angle types; the list behind the type index of the
    connection rows. The rows of the sites and of the connections follow
    the order of the topology: row [i] is the row of site (connection)
    [i] and carries the number [i]. *)
Theorem type_tables_order_independent (env : Env) (top top' : Topology) :
  (NoDup (map at_name (Writer.atom_types_view env top)) ->
   Permutation (Writer.atom_types_view env top) (Writer.atom_types_view env top') ->
   Writer.sorted_atom_types env top' = Writer.sorted_atom_types env top /\
   (forall b cf, Writer.atomtypes_chunks env top' b cf = Writer.atomtypes_chunks env top b cf) /\
   (forall s, Writer.site_type_index (Writer.sorted_atom_types env top') s
              = Writer.site_type_index (Writer.sorted_atom_types env top) s)) /\
  (forall k key r,
     Writer.sort_with_keys key (Writer.conn_types_view env top k) = Ok r ->
     NoDup (map snd r) ->
     Permutation (Writer.conn_types_view env top k) (Writer.conn_types_view env top' k) ->
     Writer.sort_with_keys key (Writer.conn_types_view env top' k) = Ok r) /\
  (forall k members keyed,
     mapM (sort_by_types env) (Writer.conn_types_view env top k) = Ok members ->
     mapM (fun x => key <- Writer.sorting_func k x ;; Ok (x, key)) members = Ok keyed ->
     NoDup (map snd keyed) ->
     Permutation (Writer.conn_types_view env top k) (Writer.conn_types_view env top' k) ->
     Writer.conn_index_list env top' k = Writer.conn_index_list env top k) /\
  (forall atom_style b cf i s,
     nth_error (sites top) i = Some s ->
     nth_error (Writer.site_data_chunks env top atom_style b cf) (S i) =
     Some (Writer.site_row atom_style b cf (Writer.sorted_atom_types env top) i s)) /\
  (forall k indexList i c,
     Writer.conn_index_list env top k = Ok indexList ->
     nth_error (connections top k) i = Some c ->
     nth_error (Writer.conn_data_chunks env top k) (S i) =
     Some (Writer.conn_row env top indexList i c)).
Proof.
  split; [| split; [| split; [| split]]].
  - intros Hnd HP.
    pose proof (sorted_atom_types_permutation env top top' Hnd HP) as E.
    split; [symmetry; exact E |]. split.
    + intros b cf. unfold Writer.atomtypes_chunks. rewrite E. reflexivity.
    + intros s. rewrite E. reflexivity.
  - intros k key r H Hnd HP. eapply sort_with_keys_permutation; eassumption.
  - intros k members keyed Hm Hk Hnd HP. eapply conn_index_list_permutation; eassumption.
  - intros. apply site_row_position. assumption.
  - intros. apply conn_row_position; assumption.
Qed.

(** The statement at the scenario topology and the same topology with
    its sites in the other order: the same table of atom types and the
    same section [Masses]. *)
Lemma type_tables_sample :
  Writer.sorted_atom_types Sample.env0 methylidyne_swapped = [Sample.carbon; Sample.hydrogen] /\
  Writer.sorted_atom_types Sample.env0 methylidyne_swapped
  = Writer.sorted_atom_types Sample.env0 Sample.methylidyne /\
  Writer.atomtypes_chunks Sample.env0 methylidyne_swapped (Sample.unit_systems "real") None
  = Writer.atomtypes_chunks Sample.env0 Sample.methylidyne (Sample.unit_systems "real") None.
Proof.
  destruct (type_tables_order_independent Sample.env0 Sample.methylidyne methylidyne_swapped)
    as (H & _).
  destruct H as (E & Hc & _).
  - repeat constructor; simpl; intuition discriminate.
  - apply perm_swap.
  - split; [reflexivity |]. split; [exact E | apply Hc].
Defined.

(** ** The box transforms over the real numbers *)

Module BoxR.

Local Open Scope R_scope.

(** The operations of [numpy] as the functions of analysis. A quotient
    by zero, which [numpy] answers with [nan] or [inf], has no meaning
    here: the statements below are about cells in which the divisors
    they use are not zero. *)
Definition ROps : FloatOps R :=
  mkFloatOps R 0 1 Rplus Rminus Rmult Rdiv Rmax Rmin sqrt acos cos sin.

(** The integer nearest to a real number, ties to even, and a real
    number rounded to six decimals: what [{:.6f}] prints and [float]
    reads back, and what [convert_parameter] returns. *)
Definition floor (x : R) : Z := (up x - 1)%Z.

Definition nearest (x : R) : Z :=
  let f := floor x in
  match total_order_T (x - IZR f) (1 / 2) with
  | inleft (left _) => f
  | inleft (right _) => if Z.even f then f else (f + 1)%Z
  | inright _ => (f + 1)%Z
  end.

Definition round6 (x : R) : R := IZR (nearest (x * 1000000)) / 1000000.

(** The triclinic branch of the writer, with lengths given in the length
    unit of the style and angles in radians: the numbers of the four
    lines before they are formatted. *)
Definition exact_bounds (lengths : R * R * R) (alpha beta gamma : R) : bounds R :=
  triclinic_bounds (ops := ROps) lengths alpha beta gamma.

(** The same with the rounding of [convert_parameter] on the lengths and
    of [{:.6f}] on the nine numbers. *)
Definition file_bounds (lengths : R * R * R) (alpha beta gamma : R) : bounds R :=
  let '(a, b, c) := lengths in
  map_bounds round6
    (triclinic_bounds (ops := ROps) (round6 a, round6 b, round6 c) alpha beta gamma).

(** The triclinic branch of the reader. *)
Definition read_box (bd : bounds R) : (R * R * R) * (R * R * R) :=
  box_of_bounds (ops := ROps) bd.

(** The branch test of the writer: every angle within
    [atol + rtol * 90] of 90 degrees. *)
Definition degrees (x : R) : R := x * 180 / PI.

Definition close_to_90 (x : R) : Prop :=
  Rabs (degrees x - 90) <= 1 / 100000000 + 1 / 100000 * 90.

Definition is_triclinic (alpha beta gamma : R) : Prop :=
  ~ (close_to_90 alpha /\ close_to_90 beta /\ close_to_90 gamma).

(** The squared volume of the unit cell, up to the factor of the
    lengths. *)
Definition cell_discriminant (alpha beta gamma : R) : R :=
  sin gamma * sin gamma - cos alpha * cos alpha - cos beta * cos beta
  + (cos alpha * cos beta * cos gamma + cos alpha * cos beta * cos gamma).

End BoxR.

(** ** The triclinic box law *)

Section BoxReal.

Import BoxR.

Local Open Scope R_scope.

Lemma cancel_bounds (x M m : R) : x + M - M - (0 + m - m) = x.
Proof.
  ring.
Qed.

(** C9 (amended): for a box with positive lengths, angles [alpha] and
    [beta] between 0 and 180 degrees, [gamma] strictly between them and
    a positive cell volume, the transform of the reader applied to the
    exact bounds and tilt factors of the triclinic branch of the writer
    gives back the lengths and the angles exactly. The rounding of the
    numbers of the file to six decimals is left out of the statement. *)
Theorem exact_roundtrip (a b c alpha beta gamma : R) :
  0 < a -> 0 < b -> 0 < c ->
  0 <= alpha <= PI -> 0 <= beta <= PI -> 0 < gamma < PI ->
  0 < cell_discriminant alpha beta gamma ->
  read_box (exact_bounds (a, b, c) alpha beta gamma) = ((a, b, c), (alpha, beta, gamma)).
Proof.
  intros Ha Hb Hc Hal Hbe Hga HD.
  unfold read_box, exact_bounds, box_of_bounds, triclinic_bounds, get_unit_vectors.
  cbn -[sqrt acos cos sin Rmax Rmin PI].
  rewrite !cancel_bounds.
  fold (cell_discriminant alpha beta gamma).
  assert (Hsg : 0 < sin gamma) by (apply sin_gt_0; lra).
  assert (Hsc : sin gamma * sin gamma + cos gamma * cos gamma = 1).
  { pose proof (sin2_cos2 gamma) as H. unfold Rsqr in H. exact H. }
  assert (Hq : sqrt (cell_discriminant alpha beta gamma) * sqrt (cell_discriminant alpha beta gamma)
               = cell_discriminant alpha beta gamma) by (apply sqrt_sqrt; lra).
  set (q := sqrt (cell_discriminant alpha beta gamma)) in *.
  assert (Eb : sqrt (b * sin gamma * (b * sin gamma) + b * cos gamma * (b * cos gamma)) = b).
  { replace (b * sin gamma * (b * sin gamma) + b * cos gamma * (b * cos gamma))
      with (b * b) by (transitivity (b * b * (sin gamma * sin gamma + cos gamma * cos gamma)); [rewrite Hsc; ring | ring]).
    apply sqrt_square. lra. }
  assert (Ec : sqrt ((c * (q / sin gamma) - 0) * (c * (q / sin gamma) - 0)
                     + c * cos beta * (c * cos beta)
                     + c * ((cos alpha - cos beta * cos gamma) / sin gamma)
                       * (c * ((cos alpha - cos beta * cos gamma) / sin gamma))) = c).
  { replace ((c * (q / sin gamma) - 0) * (c * (q / sin gamma) - 0)
             + c * cos beta * (c * cos beta)
             + c * ((cos alpha - cos beta * cos gamma) / sin gamma)
               * (c * ((cos alpha - cos beta * cos gamma) / sin gamma)))
      with (c * c).
    - apply sqrt_square. lra.
    - transitivity (c * c * ((q * q + cos beta * cos beta * (sin gamma * sin gamma)
                              + (cos alpha - cos beta * cos gamma) * (cos alpha - cos beta * cos gamma))
                             / (sin gamma * sin gamma))); [| field; lra].
      rewrite Hq. unfold cell_discriminant.
      replace (sin gamma * sin gamma - cos alpha * cos alpha - cos beta * cos beta +
               (cos alpha * cos beta * cos gamma + cos alpha * cos beta * cos gamma) +
               cos beta * cos beta * (sin gamma * sin gamma) +
               (cos alpha - cos beta * cos gamma) * (cos alpha - cos beta * cos gamma))
        with (sin gamma * sin gamma
              + cos beta * cos beta * (sin gamma * sin gamma + cos gamma * cos gamma - 1)) by ring.
      rewrite Hsc. field. lra. }
  rewrite Eb, Ec.
  replace (a * 1) with a by ring.
  replace ((c * ((cos alpha - cos beta * cos gamma) / sin gamma) * (b * sin gamma)
            + b * cos gamma * (c * cos beta)) / (b * c)) with (cos alpha) by (field; lra).
  replace (c * cos beta / c) with (cos beta) by (field; lra).
  replace (b * cos gamma / b) with (cos gamma) by (field; lra).
  rewrite !acos_cos by lra. reflexivity.
Qed.

(** The amended statement at the box of lengths 1, 2, 3 and angles 60,
    90 and 90 degrees. *)
Lemma exact_roundtrip_sample :
  read_box (exact_bounds (1, 2, 3) (PI / 3) (PI / 2) (PI / 2))
  = ((1, 2, 3), (PI / 3, PI / 2, PI / 2)).
Proof.
  pose proof PI_RGT_0 as H0.
  apply exact_roundtrip; try lra.
  unfold cell_discriminant. rewrite sin_PI2, cos_PI2, cos_PI3. lra.
Defined.

Lemma nearest_of (z : Z) (x : R) :
  IZR z - 1 / 2 < x < IZR z + 1 / 2 -> nearest x = z.
Proof.
  intros [Hlo Hhi]. unfold nearest, floor.
  destruct (Rle_or_lt (IZR z) x) as [Hge | Hlt].
  - assert (Hup : up x = (z + 1)%Z).
    { symmetry. apply tech_up; rewrite plus_IZR; lra. }
    rewrite Hup. replace (z + 1 - 1)%Z with z by lia.
    destruct (total_order_T (x - IZR z) (1 / 2)) as [[H | H] | H]; [reflexivity | lra | lra].
  - assert (Hup : up x = z).
    { symmetry. apply tech_up; lra. }
    rewrite Hup.
    destruct (total_order_T (x - IZR (z - 1)) (1 / 2)) as [[H | H] | H];
      rewrite minus_IZR in H; try lra. lia.
Qed.

Lemma round6_of (z : Z) (x : R) :
  IZR z - 1 / 2 < x * 1000000 < IZR z + 1 / 2 -> round6 x = IZR z / 1000000.
Proof.
  intros H. unfold round6. rewrite (nearest_of z); [reflexivity | assumption].
Qed.

Lemma acos_two_fifths : acos (2 / 5) < PI / 2 - 2 / 5.
Proof.
  destruct (Rlt_or_le (acos (2 / 5)) (PI / 2 - 2 / 5)) as [H | H]; [assumption | exfalso].
  pose proof PI2_1 as Hpi. pose proof (acos_bound (2 / 5)) as Hb.
  assert (Hc : cos (acos (2 / 5)) <= cos (PI / 2 - 2 / 5)).
  { apply cos_decr_1; lra. }
  rewrite cos_acos in Hc by lra. rewrite cos_shift in Hc.
  pose proof (sin_lt_x (2 / 5) ltac:(lra)). lra.
Qed.

(** A box edge of one millionth of the length unit. *)
Definition tiny : R := 1 / 1000000.

(** C9, as stated, fails: for the box of lengths [1], [1e-6], [1] and
    angles 90, 90 and [acos 0.4] (about 66.4) degrees, which takes the
    triclinic branch, the tilt factor [xy = 4e-7] is written as
    [0.000000] and the angle [gamma] is read back as 90 degrees, more
    than [1e-6] (in fact more than [0.4] radian) away from the
    original. *)
Lemma tilt_lost :
  0 < 1 /\ 0 < tiny /\
  is_triclinic (PI / 2) (PI / 2) (acos (2 / 5)) /\
  snd (snd (read_box (file_bounds (1, tiny, 1) (PI / 2) (PI / 2) (acos (2 / 5))))) = PI / 2 /\
  1 / 1000000 < Rabs (PI / 2 - acos (2 / 5)).
Proof.
  pose proof acos_two_fifths as Hacos. pose proof PI_4 as H4. pose proof PI_RGT_0 as H0.
  split; [lra |]. split; [unfold tiny; lra |]. split; [| split].
  - intros (_ & _ & H). unfold close_to_90, degrees in H.
    assert (Hd : acos (2 / 5) * 180 / PI - 90 < - 18).
    { replace (acos (2 / 5) * 180 / PI - 90) with ((acos (2 / 5) - PI / 2) * (180 / PI))
        by (field; lra).
      assert (45 <= 180 / PI).
      { apply Rmult_le_reg_r with PI; [lra |]. unfold Rdiv. rewrite Rmult_assoc, Rinv_l; lra. }
      nra. }
    rewrite Rabs_left in H by lra. lra.
  - unfold read_box, file_bounds, box_of_bounds, triclinic_bounds, get_unit_vectors, map_bounds.
    cbn -[sqrt acos cos sin Rmax Rmin PI round6 tiny].
    assert (Ht : round6 tiny = tiny).
    { unfold tiny. rewrite (round6_of 1); [reflexivity | simpl; lra]. }
    rewrite Ht, cos_acos by lra.
    assert (Hxy : round6 (tiny * (2 / 5)) = 0).
    { unfold tiny. rewrite (round6_of 0); [simpl; lra | simpl; lra]. }
    rewrite Hxy. unfold Rdiv at 1. rewrite Rmult_0_l. apply acos_0.
  - rewrite Rabs_right; lra.
Qed.

End BoxReal.

(** ** Writing, then reading *)

(** The relation of the round trip of the specification (section 8):
    the same numbers of sites and connections, the same type assigned
    to each of them, and positions, box and parameter values equal up to
    [1e-5]. *)
Definition close (x y : Q) : bool := Qle_bool (Qabs (x - y)) (1 # 100000).

Definition q_close (a b : quantity) : bool :=
  match normal_value a, normal_value b with
  | Some (va, da), Some (vb, db) => dv_eqb da db && close va vb
  | _, _ => unit_eqb (units a) (units b) && close (value a) (value b)
  end.

Fixpoint all2 {A : Type} (p : A -> A -> bool) (l l' : list A) : bool :=
  match l, l' with
  | [], [] => true
  | x :: r, y :: r' => p x y && all2 p r r'
  | _, _ => false
  end.

Definition params_close (ps ps' : list (string * quantity)) : bool :=
  all2 (fun p p' => String.eqb (fst p) (fst p') && q_close (snd p) (snd p')) ps ps'.

Definition opt2 {A : Type} (p : A -> A -> bool) (o o' : option A) : bool :=
  match o, o' with
  | Some x, Some y => p x y
  | None, None => true
  | _, _ => false
  end.

Definition atom_type_close (a a' : AtomType) : bool :=
  String.eqb (at_name a) (at_name a') && q_close (at_mass a) (at_mass a')
  && params_close (at_parameters a) (at_parameters a').

Definition conn_type_close (c c' : ConnType) : bool :=
  String.eqb (ct_name c) (ct_name c') && params_close (ct_parameters c) (ct_parameters c').

Definition site_close (s s' : Site) : bool :=
  all2 q_close (site_position s) (site_position s')
  && opt2 atom_type_close (site_atom_type s) (site_atom_type s').

(** The members of a connection as positions in the list of sites. *)
Definition member_positions (t : Topology) (c : Connection) : list (option Z) :=
  map (fun id => match Writer.site_index t id with Ok i => Some i | Raise _ => None end)
      (connection_members c).

Definition conn_close (t t' : Topology) (c c' : Connection) : bool :=
  all2 (opt2 Z.eqb) (member_positions t c) (member_positions t' c')
  && opt2 conn_type_close (connection_type c) (connection_type c').

Definition box_close (b b' : Box) : bool :=
  all2 q_close (box_lengths b) (box_lengths b') && all2 q_close (box_angles b) (box_angles b').

Definition roundtrip_equal (t t' : Topology) : bool :=
  all2 site_close (sites t) (sites t')
  && forallb (fun k => all2 (conn_close t t') (connections t k) (connections t' k))
       [Bond; Angle; Dihedral; Improper]
  && opt2 box_close (box t) (box t').

(** Two quantities of the same dimensions whose normalized values
    differ by [tol] at most. *)
Definition q_within (tol : Q) (a b : quantity) : bool :=
  match normal_value a, normal_value b with
  | Some (va, da), Some (vb, db) => dv_eqb da db && Qle_bool (Qabs (va - vb)) tol
  | _, _ => unit_eqb (units a) (units b) && Qle_bool (Qabs (value a - value b)) tol
  end.

(** The atom type of each site, by name, mass and parameters. *)
Definition site_types (t : Topology) : list (option (string * quantity * list (string * quantity))) :=
  map (fun s => match site_atom_type s with
                | Some a => Some (at_name a, at_mass a, at_parameters a)
                | None => None
                end) (sites t).

(** The type of each bond, by name and parameters. *)
Definition bond_types (t : Topology) : list (option (string * list (string * quantity))) :=
  map (fun c => match connection_type c with
                | Some ct => Some (ct_name ct, ct_parameters ct)
                | None => None
                end) (bonds t).

(** C1, as stated, fails: the scenario topology is fully typed and its
    bond type is the accepted template, yet the topology read back from
    the written file is not equal to it up to [1e-5]: the bond type has
    [k = 680] instead of [340], and the atom types are named [1] and [2]
    instead of [C] and [H] and carry the default parameters. *)
Lemma roundtrip_changes_types :
  exists w1 w2 top',
    Writer.is_fully_typed Sample.methylidyne = true /\
    Writer.write_lammpsdata Sample.env0 Sample.methylidyne Sample.out_name "full" "real"
      false false None Sample.world0 = (Ok tt, w1) /\
    Reader.read_lammpsdata Sample.env0 Sample.out_name "full" "real" w1 = (Ok top', w2) /\
    roundtrip_equal Sample.methylidyne top' = false /\
    bond_ks Sample.methylidyne = [Some (mkQ 340 kcal_mol_A2)] /\
    bond_ks top' = [Some (mkQ 680 kcal_mol_A2)] /\
    map (fun s => match site_atom_type s with Some a => at_name a | None => "" end)
        (sites Sample.methylidyne) = ["C"; "H"] /\
    map (fun s => match site_atom_type s with Some a => at_name a | None => "" end)
        (sites top') = ["1"; "2"].
Proof.
  eexists. eexists. eexists.
  split; [reflexivity |].
  split; [vm_compute; reflexivity |].
  split; [vm_compute; reflexivity |].
  repeat split; vm_compute; reflexivity.
Qed.

Lemma io_bind_Ok {A B : Type} (m : IO A) (k : A -> IO B) (w w' : world) (r : B) :
  io_bind m k w = (Ok r, w') -> exists a w1, m w = (Ok a, w1) /\ k a w1 = (Ok r, w').
Proof.
  unfold io_bind. destruct (m w) as [[a | e] w1]; [eauto | discriminate].
Qed.

Lemma lift_Ok {A : Type} (m : outcome A) (w w' : world) (a : A) :
  lift m w = (Ok a, w') -> m = Ok a /\ w' = w.
Proof.
  unfold lift. intros H. injection H as -> ->. auto.
Qed.

(** The reader names an atom type by the first field of its line of the
    section [Masses], takes the mass from the second field and gives it
    the default expression and parameters. *)
Lemma parse_mass_line_name (env : Env) (b : base_unyts) (acc acc' : list AtomType)
  (line : string) (w w' : world) :
  Reader.parse_mass_line env b acc line w = (Ok acc', w') ->
  exists a m um,
    acc' = (acc ++ [a])%list /\
    getitem (Py.split line) 0 = Ok (at_name a) /\
    Reader.float_at (Py.split line) 1 = Ok m /\ get_units b "mass" = Ok um /\
    at_mass a = q_of m um /\
    at_expression a = Reader.default_expression /\
    at_parameters a = Reader.default_parameters.
Proof.
  unfold Reader.parse_mass_line. intros H.
  apply io_bind_Ok in H. destruct H as (name & w1 & H1 & H). apply lift_Ok in H1. destruct H1 as [H1 ->].
  apply io_bind_Ok in H. destruct H as (m & w2 & H2 & H). apply lift_Ok in H2. destruct H2 as [H2 ->].
  apply io_bind_Ok in H. destruct H as (um & w3 & H3 & H). apply lift_Ok in H3. destruct H3 as [H3 ->].
  apply io_bind_Ok in H. destruct H as (id & w4 & _ & H).
  apply io_bind_Ok in H. destruct H as (a & w5 & H5 & H). apply lift_Ok in H5. destruct H5 as [H5 ->].
  injection H as <- <-.
  unfold Reader.new_atom_type in H5. apply bind_Ok in H5. destruct H5 as (m' & Hm' & H5).
  unfold Reader.validate_mass in Hm'. apply bind_Ok in Hm'. destruct Hm' as (u & _ & Hm').
  injection Hm' as <-. injection H5 as <-.
  exists (mkAtomType id name (q_of m um) (mkQ 0 (U_named "elementary_charge"))
            Reader.default_expression Reader.default_parameters ["r"] "" "" [] "" ""), m, um.
  repeat split; assumption || reflexivity.
Qed.

(** The row of an atom type in the section [Masses] starts with the
    1-based index of the type in the sorted table; its name comes last,
    after a comment sign. *)
Lemma masses_row (env : Env) (top : Topology) (b : base_unyts) (cf : Writer.cfactors)
  (i : nat) (a : AtomType) :
  nth_error (Writer.sorted_atom_types env top) i = Some a ->
  nth_error (Writer.atomtypes_chunks env top b cf) (2 + i) =
  Some (idx <- Writer.atom_type_index (Writer.sorted_atom_types env top) a ;;
        m <- Writer.convert_parameter b (at_mass a) cf 6 "" ;;
        Ok (Py.fmt_d (idx + 1) ++ Writer.TAB ++ Writer.num m ++ Writer.TAB
            ++ "# " ++ at_name a ++ Writer.NL)).
Proof.
  intros H. unfold Writer.atomtypes_chunks, Writer.cat. cbn [app nth_error Nat.add].
  rewrite nth_error_map, H. reflexivity.
Qed.

(** C1 (amended): writing, then reading does not give the topology back.
    On every file the reader takes the [k] of a bond or angle type as
    twice the number in field 1 of its coefficient line and [r_eq] or
    [theta_eq] as the number in field 2, names an atom type by the
    first field of its line of the section [Masses] and gives it the
    default parameters, and takes [sigma] and [epsilon] from pair rows
    of exactly three fields only; for every topology the writer puts the
    1-based table index first in a row of [Masses] and writes the stored
    parameters of a bond type converted, without any factor. For the
    scenario topology the file read back has the same numbers of sites
    and of connections of each kind, the same positions, charges and box
    lengths within [1e-6], the same masses and bond members, the bond
    type of the accepted template with [r_eq] unchanged and [k = 680]
    (twice the stored 340), and atom types named [1] and [2] with the
    default Lennard-Jones parameters. *)
Theorem roundtrip_of_scenario :
  (exists w1 w2 top',
     Writer.write_lammpsdata Sample.env0 Sample.methylidyne Sample.out_name "full" "real"
       false false None Sample.world0 = (Ok tt, w1) /\
     Reader.read_lammpsdata Sample.env0 Sample.out_name "full" "real" w1 = (Ok top', w2) /\
     List.length (sites top') = List.length (sites Sample.methylidyne) /\
     map (fun k => List.length (connections top' k)) [Bond; Angle; Dihedral; Improper]
       = map (fun k => List.length (connections Sample.methylidyne k))
           [Bond; Angle; Dihedral; Improper] /\
     all2 (fun s s' => all2 (q_within (1 # 1000000)) (site_position s) (site_position s')
                       && opt2 (q_within (1 # 1000000)) (site_charge s) (site_charge s'))
          (sites Sample.methylidyne) (sites top') = true /\
     map (member_positions top') (bonds top')
       = map (member_positions Sample.methylidyne) (bonds Sample.methylidyne) /\
     opt2 (fun b b' => all2 (q_within (1 # 1000000)) (box_lengths b) (box_lengths b'))
          (box Sample.methylidyne) (box top') = true /\
     site_types top'
       = [Some ("1", mkQ 12.011 (U_named "amu"), Reader.default_parameters);
          Some ("2", mkQ (Qred 1.008) (U_named "amu"), Reader.default_parameters)] /\
     bond_types top'
       = [Some ("LAMMPSHarmonicBondPotential",
                [("k", mkQ 680 kcal_mol_A2); ("r_eq", mkQ (Qred 1.09) Sample.angstrom)])]) /\
  (forall env b line ct,
     Reader.parse_conn_type env b Bond line = Ok ct ->
     exists k0 r0 ue ul,
       Reader.float_at (Py.split line) 1 = Ok k0 /\
       Reader.float_at (Py.split line) 2 = Ok r0 /\
       get_units b "energy" = Ok ue /\ get_units b "length" = Ok ul /\
       ct_parameters ct =
         [("k", mkQ (Qred (k0 * 2)) (U_div ue (U_pow ul 2))); ("r_eq", mkQ r0 ul)]) /\
  (forall env b line ct,
     Reader.parse_conn_type env b Angle line = Ok ct ->
     exists k0 th ue ua uq,
       Reader.float_at (Py.split line) 1 = Ok k0 /\
       Reader.float_at (Py.split line) 2 = Ok th /\
       get_units b "energy" = Ok ue /\ get_units b "angle" = Ok ua /\
       get_units b "angle_eq" = Ok uq /\
       ct_parameters ct =
         [("k", mkQ (Qred (k0 * 2)) (U_div ue (U_pow ua 2))); ("theta_eq", mkQ th uq)]) /\
  (forall env b acc acc' line w w',
     Reader.parse_mass_line env b acc line w = (Ok acc', w') ->
     exists a m um,
       acc' = (acc ++ [a])%list /\
       getitem (Py.split line) 0 = Ok (at_name a) /\
       Reader.float_at (Py.split line) 1 = Ok m /\ get_units b "mass" = Ok um /\
       at_mass a = q_of m um /\
       at_expression a = Reader.default_expression /\
       at_parameters a = Reader.default_parameters) /\
  (forall b type_list flag i line,
     n_fields line <> 3%nat ->
     exists flag', Reader.parse_pair_line b (type_list, flag) (i, line) = Ok (type_list, flag')) /\
  (forall env top b cf i a,
     nth_error (Writer.sorted_atom_types env top) i = Some a ->
     nth_error (Writer.atomtypes_chunks env top b cf) (2 + i) =
     Some (idx <- Writer.atom_type_index (Writer.sorted_atom_types env top) a ;;
           m <- Writer.convert_parameter b (at_mass a) cf 6 "" ;;
           Ok (Py.fmt_d (idx + 1) ++ Writer.TAB ++ Writer.num m ++ Writer.TAB
               ++ "# " ++ at_name a ++ Writer.NL))) /\
  (forall b cf ps vs,
     Writer.row_values b cf ps 6 false Writer.bond_style_orderTuple = Ok vs ->
     exists k r vk vr,
       assoc "k" ps = Some k /\ assoc "r_eq" ps = Some r /\
       Writer.convert_parameter b k cf 6 "" = Ok vk /\
       Writer.convert_parameter b r cf 6 "" = Ok vr /\
       vs = [vk; vr]).
Proof.
  split; [| split; [| split; [| split; [| split; [| split]]]]].
  - eexists. eexists. eexists.
    split; [vm_compute; reflexivity |].
    split; [vm_compute; reflexivity |].
    repeat split; vm_compute; reflexivity.
  - intros env b line ct H. eapply parse_bond_doubles. eassumption.
  - intros env b line ct H. eapply parse_angle_doubles. eassumption.
  - intros env b acc acc' line w w' H. eapply parse_mass_line_name. eassumption.
  - intros b type_list flag i line H3.
    destruct (parse_pair_line_cases b type_list flag i line) as (_ & H4 & Hother).
    destruct (Nat.eq_dec (n_fields line) 4) as [E4 | N4].
    + exists true. apply H4. assumption.
    + exists flag. apply Hother; assumption.
  - intros env top b cf i a H. apply masses_row. assumption.
  - intros b cf ps vs H. apply bond_row_values. assumption.
Qed.
(** * Further properties *)

(** ** Which files a call touches *)

(** A computation that leaves every file as it was, whatever its
    outcome. *)
Definition keeps_files {A : Type} (m : IO A) : Prop :=
  forall w, w_files (snd (m w)) = w_files w.

Lemma keeps_ret {A : Type} (a : A) : keeps_files (ret a).
Proof. intros w. reflexivity. Qed.

Lemma keeps_raise {A : Type} (e : exn) : keeps_files (@raise A e).
Proof. intros w. reflexivity. Qed.

Lemma keeps_lift {A : Type} (m : outcome A) : keeps_files (lift m).
Proof. intros w. reflexivity. Qed.

Lemma keeps_fresh : keeps_files fresh.
Proof. intros w. reflexivity. Qed.

Lemma keeps_warn (msg : string) : keeps_files (warn msg).
Proof. intros w. reflexivity. Qed.

Lemma keeps_bind {A B : Type} (m : IO A) (k : A -> IO B) :
  keeps_files m -> (forall a, keeps_files (k a)) -> keeps_files (io_bind m k).
Proof.
  intros Hm Hk w. unfold io_bind. specialize (Hm w).
  destruct (m w) as [[a | e] w1]; simpl in *; [rewrite Hk | ]; assumption.
Qed.

Lemma keeps_open_r (filename : string) : keeps_files (open_r filename).
Proof.
  intros w. unfold open_r, io_bind, log_event. simpl.
  destruct (assoc filename (w_files w)); reflexivity.
Qed.

Lemma keeps_foldM {A B : Type} (f : B -> A -> IO B) (l : list A) (b : B) :
  (forall b a, keeps_files (f b a)) -> keeps_files (foldM f l b).
Proof.
  intros Hf. revert b. induction l as [| a l IH]; intros b; simpl.
  - apply keeps_ret.
  - apply keeps_bind; [apply Hf | assumption].
Qed.

Ltac keeps :=
  repeat first
    [ apply keeps_ret | apply keeps_raise | apply keeps_lift | apply keeps_fresh
    | apply keeps_warn | apply keeps_open_r
    | apply keeps_foldM; intros
    | apply keeps_bind; [| intros ?]
    | match goal with
      | |- keeps_files (match ?x with _ => _ end) => destruct x
      end ].

Lemma keeps_get_box (env : Env) (filename : string) (b : base_unyts) (t : Topology) :
  keeps_files (Reader._get_box_coordinates env filename b t).
Proof. unfold Reader._get_box_coordinates. keeps. Qed.

Lemma keeps_get_ff (env : Env) (filename : string) (b : base_unyts) (t : Topology) :
  keeps_files (Reader._get_ff_information env filename b t).
Proof. unfold Reader._get_ff_information, Reader.parse_mass_line. keeps. Qed.

Lemma keeps_get_atoms (env : Env) (filename : string) (t : Topology) (b : base_unyts)
  (type_list : list AtomType) :
  keeps_files (Reader._get_atoms env filename t b type_list).
Proof. unfold Reader._get_atoms, Reader.parse_atom_line. keeps. Qed.

Lemma keeps_get_connection (env : Env) (filename : string) (t : Topology) (b : base_unyts)
  (k : conn_kind) :
  keeps_files (Reader._get_connection env filename t b k).
Proof. unfold Reader._get_connection. keeps. Qed.

(** The reader opens files for reading only: whatever the arguments and
    whether the call returns or raises, every file holds afterwards what
    it held before. *)
Theorem read_lammpsdata_keeps_files (env : Env) (filename atom_style unit_style : string)
  (w : world) :
  w_files (snd (Reader.read_lammpsdata env filename atom_style unit_style w)) = w_files w.
Proof.
  revert w. change (keeps_files (Reader.read_lammpsdata env filename atom_style unit_style)).
  unfold Reader.read_lammpsdata.
  repeat first
    [ apply keeps_get_box | apply keeps_get_ff | apply keeps_get_atoms
    | apply keeps_get_connection | apply keeps_ret | apply keeps_raise
    | apply keeps_bind; [| intros ?]
    | match goal with
      | |- keeps_files (match ?x with _ => _ end) => destruct x
      end ].
Qed.

(** A computation that leaves every file but [filename] as it was. *)
Definition keeps_others {A : Type} (filename : string) (m : IO A) : Prop :=
  forall w other, other <> filename ->
    assoc other (w_files (snd (m w))) = assoc other (w_files w).

Lemma keeps_files_others {A : Type} (filename : string) (m : IO A) :
  keeps_files m -> keeps_others filename m.
Proof. intros H w other _. rewrite H. reflexivity. Qed.

Lemma others_bind {A B : Type} (filename : string) (m : IO A) (k : A -> IO B) :
  keeps_others filename m -> (forall a, keeps_others filename (k a)) ->
  keeps_others filename (io_bind m k).
Proof.
  intros Hm Hk w other NE. unfold io_bind. specialize (Hm w other NE).
  destruct (m w) as [[a | e] w1]; simpl in *; [rewrite Hk by assumption | ]; assumption.
Qed.

Lemma others_write (filename s : string) : keeps_others filename (write filename s).
Proof.
  intros w other NE. unfold write. destruct (assoc filename (w_files w)); simpl;
    [apply assoc_set_other; assumption | reflexivity].
Qed.

Lemma others_open_w (filename : string) : keeps_others filename (open_w filename).
Proof.
  intros w other NE. unfold open_w, io_bind, log_event. simpl.
  apply assoc_set_other. assumption.
Qed.

Lemma others_emit (filename : string) (cs : Writer.chunks) :
  keeps_others filename (Writer.emit filename cs).
Proof.
  induction cs as [| c cs IH]; simpl.
  - apply keeps_files_others, keeps_ret.
  - apply others_bind; [apply keeps_files_others, keeps_lift |].
    intros s. apply others_bind; [apply others_write | intros _; assumption].
Qed.

Lemma others_foldM {A B : Type} (filename : string) (f : B -> A -> IO B) (l : list A) (b : B) :
  (forall b a, keeps_others filename (f b a)) -> keeps_others filename (foldM f l b).
Proof.
  intros Hf. revert b. induction l as [| a l IH]; intros b; simpl.
  - apply keeps_files_others, keeps_ret.
  - apply others_bind; [apply Hf | assumption].
Qed.

Lemma others_write_body (env : Env) (filename : string) (top : Topology) (atom_style : string)
  (b : base_unyts) (cf : Writer.cfactors) :
  keeps_others filename (Writer.write_body env filename top atom_style b cf).
Proof.
  unfold Writer.write_body, Writer._write_header, Writer._write_box, Writer._write_atomtypes,
    Writer._write_pairtypes, Writer._write_bondtypes, Writer._write_angletypes,
    Writer._write_dihedraltypes, Writer._write_impropertypes, Writer._write_site_data,
    Writer._write_conn_data.
  repeat first
    [ apply others_write | apply others_emit
    | apply keeps_files_others, keeps_ret | apply keeps_files_others, keeps_lift
    | apply others_foldM; intros
    | apply others_bind; [| intros ?]
    | match goal with
      | |- keeps_others _ (if ?x then _ else _) => destruct x
      end ].
Qed.

(** The writer changes no file but the one it is given: whatever the
    arguments and whether the call returns or raises, any other file
    holds afterwards what it held before. *)
Theorem write_lammpsdata_only_named_file (env : Env) (top : Topology)
  (filename atom_style unit_style : string) (strict_potentials strict_units : bool)
  (lj_cfactorsDict : Writer.cfactors) (w : world) (other : string) :
  other <> filename ->
  assoc other (w_files (snd (Writer.write_lammpsdata env top filename atom_style unit_style
                               strict_potentials strict_units lj_cfactorsDict w)))
  = assoc other (w_files w).
Proof.
  revert w other.
  change (keeps_others filename
            (Writer.write_lammpsdata env top filename atom_style unit_style
               strict_potentials strict_units lj_cfactorsDict)).
  unfold Writer.write_lammpsdata.
  repeat first
    [ apply others_write_body | apply others_open_w
    | apply keeps_files_others, keeps_raise | apply keeps_files_others, keeps_lift
    | apply others_bind; [| intros ?]
    | match goal with
      | |- keeps_others _ (if ?x then _ else _) => destruct x
      end ].
Qed.

(** Writing the scenario next to a file [notes.txt]: the call succeeds
    and the notes are still there. *)
Lemma write_lammpsdata_only_named_file_sample :
  "notes.txt" <> Sample.out_name /\
  fst (Writer.write_lammpsdata Sample.env0 Sample.methylidyne Sample.out_name "full" "real"
         false false None (mkWorld [("notes.txt", "keep")] [] 0)) = Ok tt /\
  assoc "notes.txt"
    (w_files (snd (Writer.write_lammpsdata Sample.env0 Sample.methylidyne Sample.out_name
                     "full" "real" false false None (mkWorld [("notes.txt", "keep")] [] 0))))
  = Some "keep".
Proof.
  split; [discriminate |]. split; [vm_compute; reflexivity |].
  rewrite (write_lammpsdata_only_named_file Sample.env0 Sample.methylidyne Sample.out_name
             "full" "real" false false None (mkWorld [("notes.txt", "keep")] [] 0) "notes.txt");
    [reflexivity | discriminate].
Defined.

(** ** The scanning loops of the reader *)

(** While no line is a count line, the count stays as it was. *)
Lemma scan_no_count (is_count is_stop : string -> bool) (exclusive : bool)
  (ls : list string) (i : Z) (last n : option Z) :
  (forall l, In l ls -> is_count l = false) ->
  exists i', Reader.scan is_count is_stop exclusive ls i last n = Ok (i', n).
Proof.
  revert i last. induction ls as [| l ls IH]; intros i last H; simpl.
  - eauto.
  - rewrite (H l) by (left; reflexivity).
    destruct (is_stop l); [eauto |]. apply IH. intros x Hx. apply H. right. assumption.
Qed.

(** The lines before the first count line or stop line are passed
    over. *)
Lemma scan_skip (is_count is_stop : string -> bool) (exclusive : bool)
  (pre ls : list string) (i : Z) (last n : option Z) :
  (forall l, In l pre -> is_count l = false /\ is_stop l = false) ->
  exists i' last',
    Reader.scan is_count is_stop exclusive (pre ++ ls) i last n
    = Reader.scan is_count is_stop exclusive ls i' last' n.
Proof.
  revert i last. induction pre as [| l pre IH]; intros i last H; simpl.
  - eauto.
  - destruct (H l) as [-> ->]; [left; reflexivity |].
    apply IH. intros x Hx. apply H. right. assumption.
Qed.

Lemma open_r_found (filename c : string) (w : world) :
  assoc filename (w_files w) = Some c ->
  open_r filename w
  = (Ok (readlines c), mkWorld (w_files w) (w_log w ++ [EvOpenRead filename]) (w_next_id w)).
Proof.
  intros H. unfold open_r, io_bind, log_event. simpl. rewrite H. reflexivity.
Qed.

(** A file in which no line holds the word of a kind of connections
    ([bond], [angle], [dihedral], [improper]) as a field declares no
    type of that kind: [_get_connection] returns the topology as it got
    it, whatever data section the file may hold for that kind. *)
Theorem get_connection_without_types (env : Env) (filename : string) (top : Topology)
  (b : base_unyts) (k : conn_kind) (w : world) (c : string) :
  assoc filename (w_files w) = Some c ->
  (forall l, In l (readlines c) -> Reader.has_token (Reader.conn_word k) l = false) ->
  fst (Reader._get_connection env filename top b k w) = Ok top.
Proof.
  intros Hc Hno. unfold Reader._get_connection, io_bind at 1.
  rewrite (open_r_found _ _ _ Hc).
  destruct (scan_no_count (Reader.has_token (Reader.conn_word k))
              (Reader.has_token (Py.capitalize (Reader.conn_word k))) false
              (readlines c) 0 None None Hno) as (i' & Hs).
  unfold io_bind, lift. rewrite Hs. reflexivity.
Qed.

Definition atoms_only_file : string :=
  "2 atoms" ++ Writer.NL ++ "1 atom types" ++ Writer.NL ++ Writer.NL
  ++ "Bonds" ++ Writer.NL ++ Writer.NL ++ "1 1 1 2" ++ Writer.NL.

(** A file with a section [Bonds] and no line [N bond types]: the bonds
    are not read. *)
Lemma get_connection_without_types_sample :
  fst (Reader._get_connection Sample.env0 "a.data" Sample.methylidyne
         (Sample.unit_systems "real") Bond (mkWorld [("a.data", atoms_only_file)] [] 0))
  = Ok Sample.methylidyne.
Proof.
  apply (get_connection_without_types Sample.env0 "a.data" Sample.methylidyne
           (Sample.unit_systems "real") Bond (mkWorld [("a.data", atoms_only_file)] [] 0)
           atoms_only_file).
  - reflexivity.
  - intros l Hl. vm_compute in Hl. decompose [or] Hl; subst; try contradiction; reflexivity.
Defined.

(** The scan of [_get_ff_information] on a file whose first line that
    holds [atom] or [Masses] holds [atom] and does not start with an
    integer. *)
Lemma ff_information_raises (env : Env) (filename : string) (b : base_unyts)
  (top : Topology) (w : world) (c : string) (pre post : list string) (l tok : string) :
  assoc filename (w_files w) = Some c ->
  readlines c = (pre ++ l :: post)%list ->
  (forall x, In x pre -> Py.contains "atom" x = false /\ Py.contains "Masses" x = false) ->
  Py.contains "atom" l = true ->
  getitem (Py.split l) 0 = Ok tok ->
  Py.int tok = None ->
  fst (Reader._get_ff_information env filename b top w)
  = Raise (ValueError ("invalid literal for int(): " ++ tok)).
Proof.
  intros Hc Hl Hpre Hatom Htok Hint. unfold Reader._get_ff_information, io_bind at 1.
  rewrite (open_r_found _ _ _ Hc), Hl.
  destruct (scan_skip (Py.contains "atom") (Py.contains "Masses") true pre (l :: post)
              0 None None Hpre) as (i' & last' & ->).
  cbn [Reader.scan]. rewrite Hatom, Htok. cbn [bind]. unfold py_int. rewrite Hint. reflexivity.
Qed.




(** ** Fields of a line *)

Fixpoint forall_chars (p : ascii -> bool) (s : string) : bool :=
  match s with
  | EmptyString => true
  | String c s' => p c && forall_chars p s'
  end.

(** A string without white space, and a field: such a string that is
    not empty. *)
Definition no_space (s : string) : bool := forall_chars (fun c => negb (Py.isspace c)) s.

Definition all_space (s : string) : bool := forall_chars Py.isspace s.

Definition is_token (s : string) : Prop := s <> EmptyString /\ no_space s = true.

Lemma forall_chars_app (p : ascii -> bool) (a b : string) :
  forall_chars p (a ++ b) = forall_chars p a && forall_chars p b.
Proof.
  induction a as [| c a IH]; simpl; [reflexivity | rewrite IH, andb_assoc; reflexivity].
Qed.

Lemma forall_chars_weaken (p q : ascii -> bool) (s : string) :
  (forall c, p c = true -> q c = true) -> forall_chars p s = true -> forall_chars q s = true.
Proof.
  intros H. induction s as [| c s IH]; simpl; [reflexivity |].
  intros Hs. apply andb_true_iff in Hs. destruct Hs as [Hc Hs].
  rewrite (H c Hc), IH by assumption. reflexivity.
Qed.

Lemma split_from_no_space (a cur s : string) :
  no_space a = true -> Py.split_from cur (a ++ s) = Py.split_from (cur ++ a) s.
Proof.
  revert cur. induction a as [| c a IH]; intros cur H; simpl.
  - rewrite append_nil_r. reflexivity.
  - unfold no_space in H. simpl in H. apply andb_true_iff in H. destruct H as [Hc Ha].
    apply negb_true_iff in Hc. rewrite Hc. rewrite IH by assumption.
    rewrite append_assoc. reflexivity.
Qed.

Lemma split_from_all_space (ws s : string) :
  all_space ws = true -> Py.split_from EmptyString (ws ++ s) = Py.split_from EmptyString s.
Proof.
  induction ws as [| c ws IH]; intros H; simpl; [reflexivity |].
  unfold all_space in H. simpl in H. apply andb_true_iff in H. destruct H as [Hc Hws].
  rewrite Hc. apply IH. assumption.
Qed.

Lemma split_from_token_space (t : string) (c : ascii) (s : string) :
  is_token t -> Py.isspace c = true ->
  Py.split_from EmptyString (t ++ String c s) = t :: Py.split_from EmptyString s.
Proof.
  intros [Hne Hns] Hc. rewrite split_from_no_space by assumption. simpl. rewrite Hc.
  destruct t; [contradiction | reflexivity].
Qed.

Lemma split_token (t : string) : is_token t -> Py.split t = [t].
Proof.
  intros [Hne Hns]. unfold Py.split. rewrite <- (append_nil_r t) at 1.
  rewrite split_from_no_space by assumption. simpl. destruct t; [contradiction | reflexivity].
Qed.

(** A field followed by white space, then the rest of the line. *)
Lemma split_token_sep (t ws s : string) :
  is_token t -> all_space ws = true -> ws <> EmptyString ->
  Py.split_from EmptyString (t ++ ws ++ s) = t :: Py.split_from EmptyString s.
Proof.
  intros Ht Hws Hne. destruct ws as [| c ws]; [contradiction |].
  unfold all_space in Hws. simpl in Hws. apply andb_true_iff in Hws. destruct Hws as [Hc Hws].
  change (String c ws ++ s) with (String c (ws ++ s)).
  rewrite split_from_token_space by assumption. f_equal. apply split_from_all_space. assumption.
Qed.

Lemma all_space_repeat (n : nat) : all_space (Py.repeat_char " " n) = true.
Proof. induction n as [| n IH]; [reflexivity | exact IH]. Qed.

Lemma all_space_app (a b : string) :
  all_space a = true -> all_space b = true -> all_space (a ++ b) = true.
Proof.
  intros Ha Hb. unfold all_space. rewrite forall_chars_app. apply andb_true_iff. auto.
Qed.

Lemma app_not_empty_r (a b : string) : b <> EmptyString -> a ++ b <> EmptyString.
Proof. destruct a; simpl; [auto | discriminate]. Qed.

Lemma is_token_app (a b : string) :
  no_space a = true -> is_token b -> is_token (a ++ b).
Proof.
  intros Ha [Hne Hb]. split; [apply app_not_empty_r; assumption |].
  unfold no_space. rewrite forall_chars_app. apply andb_true_iff. auto.
Qed.

(** *** Decimal digits *)

Definition is_digit (c : ascii) : bool :=
  match Py.digit_val c with Some _ => true | None => false end.

Lemma digit_val_char (d : Z) : (0 <= d < 10)%Z -> Py.digit_val (Py.digit_char d) = Some d.
Proof.
  intros H.
  assert (E : (d = 0 \/ d = 1 \/ d = 2 \/ d = 3 \/ d = 4 \/ d = 5 \/ d = 6 \/ d = 7
               \/ d = 8 \/ d = 9)%Z) by lia.
  decompose [or] E; subst; reflexivity.
Qed.

Lemma is_digit_char (d : Z) : (0 <= d < 10)%Z -> is_digit (Py.digit_char d) = true.
Proof. intros H. unfold is_digit. rewrite digit_val_char by assumption. reflexivity. Qed.

Lemma is_digit_no_space (c : ascii) : is_digit c = true -> negb (Py.isspace c) = true.
Proof.
  destruct c as [[] [] [] [] [] [] [] []]; vm_compute; intros H; congruence.
Qed.

Lemma digits_fixed_app (n : nat) (z : Z) (acc : string) :
  Py.digits_fixed n z acc = Py.digits_fixed n z EmptyString ++ acc.
Proof.
  revert z acc. induction n as [| n IH]; intros z acc; simpl; [reflexivity |].
  rewrite IH. rewrite (IH _ (String _ EmptyString)). rewrite append_assoc. reflexivity.
Qed.

Lemma digits_fixed_digits (n : nat) (z : Z) :
  forall_chars is_digit (Py.digits_fixed n z EmptyString) = true.
Proof.
  revert z. induction n as [| n IH]; intros z; simpl; [reflexivity |].
  rewrite digits_fixed_app, forall_chars_app, IH. simpl.
  rewrite is_digit_char; [reflexivity | apply Z.mod_pos_bound; lia].
Qed.

Lemma digits_fixed_length (n : nat) (z : Z) :
  String.length (Py.digits_fixed n z EmptyString) = n.
Proof.
  revert z. induction n as [| n IH]; intros z; simpl; [reflexivity |].
  rewrite digits_fixed_app.
  assert (L : forall a b, String.length (a ++ b) = (String.length a + String.length b)%nat).
  { intros a b. induction a as [| c a IHa]; simpl; [reflexivity | rewrite IHa; reflexivity]. }
  rewrite L, IH. simpl. lia.
Qed.

Lemma digits_from_app (a b : string) (acc v : Z) :
  Py.digits_from acc a = Some v -> Py.digits_from acc (a ++ b) = Py.digits_from v b.
Proof.
  revert acc. induction a as [| c a IH]; intros acc; simpl.
  - intros H. injection H as <-. reflexivity.
  - destruct (Py.digit_val c); [apply IH | discriminate].
Qed.

(** The value of the [n] digits written for [z] is [z] modulo [10^n]. *)
Lemma digits_from_fixed (n : nat) (z acc : Z) :
  Py.digits_from acc (Py.digits_fixed n z EmptyString)
  = Some (acc * 10 ^ Z.of_nat n + z mod 10 ^ Z.of_nat n)%Z.
Proof.
  revert z acc. induction n as [| n IH]; intros z acc.
  - simpl. rewrite Z.mod_1_r. f_equal. lia.
  - cbn [Py.digits_fixed]. rewrite digits_fixed_app.
    rewrite (digits_from_app _ _ _ _ (IH (z / 10)%Z acc)).
    cbn [Py.digits_from]. rewrite digit_val_char by (apply Z.mod_pos_bound; lia).
    f_equal. rewrite Nat2Z.inj_succ, Z.pow_succ_r by lia.
    rewrite (Z.rem_mul_r z 10 (10 ^ Z.of_nat n)) by lia. lia.
Qed.

Lemma ndigits_fuel_bound (f : nat) (z : Z) :
  (z < 2 ^ Z.of_nat f)%Z -> (z < 10 ^ Z.of_nat (Py.ndigits_fuel f z))%Z.
Proof.
  revert z. induction f as [| f IH]; intros z H.
  - simpl in *. lia.
  - cbn [Py.ndigits_fuel]. destruct (Z.ltb_spec z 10) as [Hz | Hz]; [simpl; lia |].
    rewrite Nat2Z.inj_succ, Z.pow_succ_r in * by lia.
    assert (Hq : (z / 10 < 2 ^ Z.of_nat f)%Z).
    { apply Z.div_lt_upper_bound; lia. }
    specialize (IH _ Hq).
    pose proof (Z.div_mod z 10 ltac:(lia)). pose proof (Z.mod_pos_bound z 10 ltac:(lia)). lia.
Qed.

Lemma ndigits_bound (z : Z) : (z < 10 ^ Z.of_nat (Py.ndigits z))%Z.
Proof.
  unfold Py.ndigits. apply ndigits_fuel_bound.
  destruct (Z.le_gt_cases z 0) as [Hz | Hz].
  - pose proof (Z.pow_pos_nonneg 2 (Z.of_nat (S (Z.to_nat (Z.log2 z)))) ltac:(lia) ltac:(lia)). lia.
  - rewrite Nat2Z.inj_succ, Z2Nat.id by apply Z.log2_nonneg.
    apply Z.log2_spec. assumption.
Qed.

Lemma ndigits_fuel_pos (f : nat) (z : Z) : (1 <= Py.ndigits_fuel f z)%nat.
Proof. destruct f; simpl; [lia | destruct (z <? 10)%Z; lia]. Qed.

Lemma nat_str_digits (z : Z) : forall_chars is_digit (Py.nat_str z) = true.
Proof. apply digits_fixed_digits. Qed.

Lemma nat_str_not_empty (z : Z) : Py.nat_str z <> EmptyString.
Proof.
  intros E. apply (f_equal String.length) in E. unfold Py.nat_str in E.
  rewrite digits_fixed_length in E. simpl in E.
  pose proof (ndigits_fuel_pos (S (Z.to_nat (Z.log2 z))) z). unfold Py.ndigits in E. lia.
Qed.

Lemma is_digit_not_underscore (c : ascii) : is_digit c = true -> Ascii.eqb c "_" = false.
Proof. destruct c as [[] [] [] [] [] [] [] []]; vm_compute; intros H; congruence. Qed.

(** A run of digits without underscores is read as it stands. *)
Lemma ungroup_digits (s : string) : forall_chars is_digit s = true -> Py.ungroup s = Some s.
Proof.
  induction s as [| c s IH]; [reflexivity |]. cbn [forall_chars Py.ungroup]. intros H.
  apply andb_true_iff in H. destruct H as [Hc Hs].
  rewrite (is_digit_not_underscore _ Hc), (IH Hs). reflexivity.
Qed.

Lemma digit_run_digits (s : string) : forall_chars is_digit s = true -> Py.digit_run s = Some s.
Proof.
  intros H. destruct s as [| c s]; [reflexivity |]. unfold Py.digit_run.
  rewrite (ungroup_digits _ H). cbn [forall_chars] in H. apply andb_true_iff in H.
  destruct H as [Hc _]. unfold is_digit in Hc. destruct (Py.digit_val c); [reflexivity | discriminate].
Qed.

Lemma digits_nat_str (z : Z) : (0 <= z)%Z -> Py.digits (Py.nat_str z) = Some z.
Proof.
  intros Hz. unfold Py.digits. pose proof (nat_str_not_empty z) as Hne.
  rewrite (digit_run_digits _ (nat_str_digits z)).
  destruct (Py.nat_str z) eqn:E; [contradiction |]. rewrite <- E.
  unfold Py.nat_str. rewrite digits_from_fixed. f_equal.
  rewrite Z.mod_small; [lia | split; [assumption | apply ndigits_bound]].
Qed.

Lemma strip_sign_digits (s : string) :
  forall_chars is_digit s = true -> Py.strip_sign s = (false, s).
Proof.
  destruct s as [| c s]; [reflexivity |]. simpl. intros H.
  apply andb_true_iff in H. destruct H as [Hc _].
  destruct c as [[] [] [] [] [] [] [] []]; try reflexivity; vm_compute in Hc; discriminate.
Qed.

(** [int] reads back what [{:d}] writes. *)
Lemma int_fmt_d (z : Z) : Py.int (Py.fmt_d z) = Some z.
Proof.
  unfold Py.fmt_d. destruct (Z.ltb_spec z 0) as [Hz | Hz].
  - unfold Py.int. cbn [Py.strip_sign]. rewrite digits_nat_str by lia. f_equal. lia.
  - unfold Py.int. rewrite strip_sign_digits by apply nat_str_digits.
    rewrite digits_nat_str by assumption. reflexivity.
Qed.

Lemma no_space_digits (s : string) : forall_chars is_digit s = true -> no_space s = true.
Proof. apply forall_chars_weaken. apply is_digit_no_space. Qed.

Lemma is_token_nat_str (z : Z) : is_token (Py.nat_str z).
Proof. split; [apply nat_str_not_empty | apply no_space_digits, nat_str_digits]. Qed.

Lemma is_token_fmt_d (z : Z) : is_token (Py.fmt_d z).
Proof.
  unfold Py.fmt_d. destruct (z <? 0)%Z; [| apply is_token_nat_str].
  apply (is_token_app "-"); [reflexivity | apply is_token_nat_str].
Qed.

(** *** Numbers are written as one field *)

Lemma forall_chars_substring (p : ascii -> bool) (s : string) (n m : nat) :
  forall_chars p s = true -> forall_chars p (substring n m s) = true.
Proof.
  revert n m. induction s as [| c s IH]; intros n m H.
  - destruct n, m; reflexivity.
  - simpl in H. apply andb_true_iff in H. destruct H as [Hc Hs].
    destruct n as [| n]; [destruct m as [| m] |]; simpl; auto.
    rewrite Hc. simpl. auto.
Qed.

Lemma forall_chars_strip_zeros (p : ascii -> bool) (s : string) (k : nat) :
  forall_chars p s = true -> forall_chars p (Py.strip_zeros k s) = true.
Proof.
  revert k. induction s as [| c s IH]; intros k H; [reflexivity |].
  simpl in H. apply andb_true_iff in H. destruct H as [Hc Hs].
  destruct k as [| k]; simpl.
  - specialize (IH O Hs). destruct (Py.strip_zeros 0 s) eqn:E.
    + destruct (Ascii.eqb c "0"); simpl; [reflexivity | rewrite Hc; reflexivity].
    + simpl. rewrite Hc. exact IH.
  - rewrite Hc. simpl. auto.
Qed.

Lemma forall_chars_repeat (p : ascii -> bool) (c : ascii) (n : nat) :
  p c = true -> forall_chars p (Py.repeat_char c n) = true.
Proof. intros H. induction n as [| n IH]; simpl; [reflexivity | rewrite H; exact IH]. Qed.

Lemma no_space_app (a b : string) :
  no_space a = true -> no_space b = true -> no_space (a ++ b) = true.
Proof.
  intros Ha Hb. unfold no_space. rewrite forall_chars_app. apply andb_true_iff. auto.
Qed.

Lemma no_space_digits_fixed (n : nat) (z : Z) : no_space (Py.digits_fixed n z EmptyString) = true.
Proof. apply no_space_digits, digits_fixed_digits. Qed.

Lemma is_token_prefix (a b : string) :
  a <> EmptyString -> no_space a = true -> no_space b = true -> is_token (a ++ b).
Proof.
  intros Hne Ha Hb. split; [| apply no_space_app; assumption].
  destruct a; [contradiction | discriminate].
Qed.

(** The text of a number in the general format is one field. *)
Lemma is_token_fmt_general (p : nat) (thr : Z) (q : Q) : is_token (Py.fmt_general p thr q).
Proof.
  unfold Py.fmt_general. destruct (Qeq_bool q 0); [split; [discriminate | reflexivity] |].
  set (e0 := Py.dec_exp (Qabs q)).
  set (m0 := Py.round_half_even _).
  destruct (if (Py.pow10 p <=? m0)%Z then ((m0 / 10)%Z, (e0 + 1)%Z) else (m0, e0)) as [m e].
  set (ds := Py.strip_zeros 1 (Py.digits_fixed p m EmptyString)).
  assert (Hds : no_space ds = true).
  { apply forall_chars_strip_zeros, no_space_digits_fixed. }
  assert (Hsub : forall a b s, no_space s = true -> no_space (substring a b s) = true).
  { intros a b s. apply forall_chars_substring. }
  assert (Hz : forall n, no_space (Py.repeat_char "0" n) = true).
  { intros n. apply forall_chars_repeat. reflexivity. }
  match goal with
  | |- is_token (if _ then String "-" ?body else ?body) =>
      assert (Hb : is_token body);
      [| destruct (Py.Qneg q); [apply (is_token_app "-"); [reflexivity |] |]; exact Hb]
  end.
  destruct ((-4 <=? e)%Z && (e <? thr)%Z).
  - destruct (0 <=? e)%Z.
    + apply is_token_app; [apply Hsub, no_space_app; auto |].
      apply (is_token_prefix "."); [discriminate | reflexivity |].
      unfold Py.drop. specialize (Hsub (S (Z.to_nat e)) (String.length ds - S (Z.to_nat e))%nat ds Hds).
      destruct (substring _ _ ds); [reflexivity | exact Hsub].
    + apply (is_token_prefix "0."); [discriminate | reflexivity |].
      apply no_space_app; auto.
  - apply is_token_app; [apply Hsub; assumption |].
    apply is_token_app.
    + unfold Py.drop. specialize (Hsub 1%nat (String.length ds - 1)%nat ds Hds).
      destruct (substring _ _ ds); [reflexivity |].
      apply (no_space_app "."); [reflexivity | exact Hsub].
    + apply (is_token_prefix "e"); [discriminate | reflexivity |].
      apply no_space_app; [destruct (e <? 0)%Z; reflexivity | apply no_space_digits_fixed].
Qed.

Lemma is_token_repr_float (q : Q) : is_token (Py.repr_float q).
Proof. apply is_token_fmt_general. Qed.

Lemma is_token_fmt_f (n : nat) (q : Q) : is_token (Py.fmt_f n q).
Proof.
  unfold Py.fmt_f.
  match goal with
  | |- is_token (if _ then String "-" ?body else ?body) =>
      assert (Hb : is_token body);
      [| destruct (Py.Qneg q); [apply (is_token_app "-"); [reflexivity |] |]; exact Hb]
  end.
  apply is_token_app; [apply no_space_digits, nat_str_digits |].
  apply (is_token_prefix "."); [discriminate | reflexivity | apply no_space_digits_fixed].
Qed.

Lemma split_from_space (c : ascii) (s : string) :
  Py.isspace c = true -> Py.split_from EmptyString (String c s) = Py.split_from EmptyString s.
Proof. intros H. simpl. rewrite H. reflexivity. Qed.

(** Padding on the left adds white space in front of a field, padding
    on the right adds it behind. *)
Lemma split_from_rjust (w : nat) (t s : string) :
  Py.split_from EmptyString (Py.rjust w t ++ s) = Py.split_from EmptyString (t ++ s).
Proof.
  unfold Py.rjust. rewrite append_assoc. apply split_from_all_space, all_space_repeat.
Qed.

Lemma split_from_ljust_sep (w : nat) (t : string) (c : ascii) (s : string) :
  is_token t -> Py.isspace c = true ->
  Py.split_from EmptyString (Py.ljust w t ++ String c s) = t :: Py.split_from EmptyString s.
Proof.
  intros Ht Hc. unfold Py.ljust. rewrite append_assoc.
  destruct (Py.repeat_char " " (w - String.length t)) as [| c0 r] eqn:E.
  - simpl. apply split_from_token_space; assumption.
  - rewrite <- E. rewrite split_token_sep; try assumption.
    + simpl. rewrite Hc. reflexivity.
    + apply all_space_repeat.
    + rewrite E. discriminate.
Qed.

(** ** Coefficient rows, as the reader sees them *)

Lemma isspace_tab : Py.isspace "009" = true.
Proof. reflexivity. Qed.

Lemma isspace_nl : Py.isspace "010" = true.
Proof. reflexivity. Qed.

(** The fields of numbers joined by tabs, each padded on the left. *)
Lemma split_join_numbers (w : nat) (vs : list Q) (c : ascii) (tail : string) :
  vs <> [] -> Py.isspace c = true ->
  Py.split_from EmptyString (Writer.join Writer.TAB (map (Writer.num_w w) vs) ++ String c tail)
  = (map Py.repr_float vs ++ Py.split_from EmptyString tail)%list.
Proof.
  intros Hne Hc. induction vs as [| v vs IH]; [contradiction |].
  destruct vs as [| v' vs].
  - cbn [map Writer.join app]. unfold Writer.num_w. rewrite split_from_rjust.
    apply split_from_token_space; [apply is_token_repr_float | assumption].
  - change (Writer.join Writer.TAB (map (Writer.num_w w) (v :: v' :: vs)))
      with (Writer.num_w w v ++ Writer.TAB ++ Writer.join Writer.TAB (map (Writer.num_w w) (v' :: vs))).
    rewrite !append_assoc. unfold Writer.num_w at 1. rewrite split_from_rjust.
    change (Writer.TAB ++ ?x) with (String "009" x).
    rewrite split_from_token_space by (apply is_token_repr_float || reflexivity).
    cbn [map app]. f_equal. apply IH. discriminate.
Qed.

Lemma mapM_length {A B : Type} (f : A -> outcome B) (l : list A) (r : list B) :
  mapM f l = Ok r -> List.length r = List.length l.
Proof.
  revert r. induction l as [| a l IH]; simpl; intros r H.
  - injection H as <-. reflexivity.
  - inv_bind H. injection H as <-. simpl. f_equal. apply IH. assumption.
Qed.

Lemma row_values_length (b : base_unyts) (cf : Writer.cfactors) (ps : list (string * quantity))
  (n : nat) (named : bool) (order : list string) (vs : list Q) :
  Writer.row_values b cf ps n named order = Ok vs -> List.length vs = List.length order.
Proof. apply mapM_length. Qed.

(** A chunk of a coefficient section after its two opening lines. *)
Lemma nth_error_rows {A : Type} (head1 head2 : outcome string) (m : outcome (list A))
  (g : nat * A -> outcome string) (i : nat) (row : string) :
  nth_error (Writer.cat [head1; head2]
               (Writer.after m (fun l => map g (Reader.enumerate l)))) (2 + i)
  = Some (Ok row) ->
  exists l x, m = Ok l /\ nth_error l i = Some x /\ g (i, x) = Ok row.
Proof.
  unfold Writer.cat. cbn [app nth_error Nat.add]. destruct m as [l | e]; cbn [Writer.after].
  - rewrite nth_error_map. destruct (nth_error l i) as [x |] eqn:Ex.
    + unfold Reader.enumerate. rewrite (nth_error_enumerate l 0 i x Ex). cbn [option_map Nat.add].
      intros H. injection H as H. eauto.
    + assert (E : nth_error (Reader.enumerate l) i = None).
      { apply nth_error_None. rewrite enumerate_length. apply nth_error_None. assumption. }
      rewrite E. discriminate.
  - destruct i; simpl; [discriminate | destruct i; discriminate].
Qed.

(** The row of an improper type holds three fields, and the reader takes
    the parameters of an improper type from the third and the fourth
    field of a row: every row of the section [Improper Coeffs] that the
    writer emits is refused by the reader. *)
Theorem improper_rows_are_refused (env : Env) (top : Topology) (b : base_unyts)
  (cf : Writer.cfactors) (i : nat) (row : string) (env' : Env) (b' : base_unyts) :
  nth_error (Writer.impropertypes_chunks env top b cf) (2 + i) = Some (Ok row) ->
  List.length (Py.split row) = 3%nat /\
  exists e, Reader.parse_conn_type env' b' Improper row = Raise e.
Proof.
  unfold Writer.impropertypes_chunks. intros H.
  destruct (Writer.test_type top Improper) as [test |]; cbn [Writer.after] in H;
    [| destruct i; simpl in H; [discriminate | destruct i; discriminate]].
  unfold Writer.coeff_head in H. apply nth_error_rows in H.
  destruct H as (l & [ty members] & _ & _ & H). cbv beta iota in H.
  apply bind_Ok in H. destruct H as (a & Hvs & H). injection H as <-.
  pose proof (row_values_length _ _ _ _ _ _ _ Hvs) as Hlen.
  assert (Hs : Py.split (Py.fmt_d (Z.of_nat i + 1) ++ Writer.TAB
                         ++ Writer.join Writer.TAB (map (Writer.num_w 7) a) ++ Writer.NL)
               = Py.fmt_d (Z.of_nat i + 1) :: map Py.repr_float a).
  { unfold Py.split. change (Writer.TAB ++ ?x) with (String "009" x).
    rewrite split_from_token_space by (apply is_token_fmt_d || reflexivity).
    unfold Writer.NL. rewrite split_join_numbers; [| destruct a; discriminate | reflexivity].
    simpl. rewrite app_nil_r. reflexivity. }
  change (String "009" ?x) with (Writer.TAB ++ x).
  split.
  - rewrite Hs. simpl. rewrite length_map, Hlen. reflexivity.
  - unfold Reader.parse_conn_type. rewrite Hs.
    destruct a as [| v1 [| v2 [| v3 vs]]]; try discriminate.
    cbn [map].
    destruct (Reader.template env' "HarmonicImproperPotential"); cbn [bind]; [| eauto].
    destruct (Reader.float_at _ 2); cbn [bind]; [| eauto].
    destruct (get_units b' "energy"); cbn [bind]; [| eauto].
    eexists. reflexivity.
Qed.

(** A planar centre with three hydrogens and one improper. *)
Definition out_of_plane : ConnType :=
  mkConnType Improper "HarmonicImproperPotential" "0.5 * k * ((phi - phi_eq))**2"
    [("k", mkQ 10.5 (U_div Sample.kcal_mol (U_pow u_radian 2))); ("phi_eq", mkQ 180 u_degree)]
    ["phi"] (Some ["C"; "H"; "H"; "H"]).

Definition hydrogen_at (id : nat) (x y : Q) : Site :=
  mkSite id "H" (Sample.at_pos x y 0) (Some (mkQ 0 Sample.e_charge)) (Some Sample.hydrogen)
    (Some (mkMolecule "1" 1)) (Some "hydrogen").

Definition methyl : Topology :=
  mkTop (Some "Topology")
    [Sample.site_c; hydrogen_at 1 1.09 0; hydrogen_at 2 (-0.545) 0.944; hydrogen_at 3 (-0.545) (-0.944)]
    [] [] [] [mkConn Improper [0; 1; 2; 3]%nat (Some out_of_plane)]
    (Some (Sample.cube 10)).

(** The row written for the improper type of the sample. *)
Lemma improper_rows_are_refused_sample :
  exists row,
    nth_error (Writer.impropertypes_chunks Sample.env0 methyl (Sample.unit_systems "real") None) 2
    = Some (Ok row) /\
    List.length (Py.split row) = 3%nat /\
    exists e, Reader.parse_conn_type Sample.env0 (Sample.unit_systems "real") Improper row = Raise e.
Proof.
  eexists. split; [vm_compute; reflexivity |].
  apply (improper_rows_are_refused Sample.env0 methyl (Sample.unit_systems "real") None 0 _
           Sample.env0 (Sample.unit_systems "real")).
  vm_compute. reflexivity.
Defined.

(** The row of an atom type in the section [Pair Coeffs] holds five
    fields when the name of the type is one field: the index, the two
    parameters, the comment sign and the name. The reader takes
    parameters from rows of three fields only, so it leaves the types as
    they are on every row that the writer emits. *)
Theorem pair_rows_are_skipped (env : Env) (top : Topology) (b : base_unyts)
  (cf : Writer.cfactors) (i : nat) (row : string)
  (b' : base_unyts) (type_list : list AtomType) (flag : bool) (j : nat) :
  (forall a, In a (Writer.sorted_atom_types env top) -> is_token (at_name a)) ->
  nth_error (Writer.pairtypes_chunks env top b cf) (2 + i) = Some (Ok row) ->
  List.length (Py.split row) = 5%nat /\
  Reader.parse_pair_line b' (type_list, flag) (j, row) = Ok (type_list, flag).
Proof.
  unfold Writer.pairtypes_chunks. intros Hnames H.
  destruct (s0 <- getitem (sites top) 0 ;; Ok (site_atom_type s0)) as [test |];
    cbn [Writer.after] in H;
    [| destruct i; simpl in H; [discriminate | destruct i; discriminate]].
  pose proof (nth_error_rows _ _ (Ok (Writer.sorted_atom_types env top)) _ i row H) as H'.
  clear H. destruct H' as (l & p & Hl & Hp & H). injection Hl as <-.
  cbv beta iota in H.
  apply bind_Ok in H. destruct H as (vs & Hvs & H).
  apply bind_Ok in H. destruct H as ([e sg] & Hes & H). injection H as <-.
  assert (Hn : is_token (at_name p)) by (apply Hnames; eapply nth_error_In; eassumption).
  assert (Hsplit : List.length (Py.split
            (Py.fmt_d (Z.of_nat i + 1) ++ Writer.TAB ++ Writer.num_w 7 e ++ Writer.TAB
             ++ Writer.TAB ++ Writer.num_w 7 sg ++ Writer.TAB ++ Writer.TAB ++ "# "
             ++ at_name p ++ Writer.NL)) = 5%nat).
  { unfold Py.split. repeat (progress change (Writer.TAB ++ ?x) with (String "009" x)).
    rewrite split_from_token_space by (apply is_token_fmt_d || reflexivity).
    unfold Writer.num_w. rewrite split_from_rjust.
    rewrite split_from_token_space by (apply is_token_repr_float || reflexivity).
    rewrite split_from_space by reflexivity.
    rewrite split_from_rjust.
    rewrite split_from_token_space by (apply is_token_repr_float || reflexivity).
    rewrite split_from_space by reflexivity.
    change ("# " ++ ?x) with ("#" ++ String " " x).
    rewrite split_from_token_space by (reflexivity || (split; [discriminate | reflexivity])).
    unfold Writer.NL.
    rewrite split_from_token_space by (assumption || reflexivity).
    reflexivity. }
  change (String "009" ?x) with (Writer.TAB ++ x).
  split; [exact Hsplit |].
  destruct (parse_pair_line_cases b' type_list flag j
              (Py.fmt_d (Z.of_nat i + 1) ++ Writer.TAB ++ Writer.num_w 7 e ++ Writer.TAB
               ++ Writer.TAB ++ Writer.num_w 7 sg ++ Writer.TAB ++ Writer.TAB ++ "# "
               ++ at_name p ++ Writer.NL)) as (_ & _ & Hother).
  apply Hother; unfold n_fields; rewrite Hsplit; discriminate.
Qed.

(** The row written for carbon in the scenario: five fields, and the
    reader keeps the parameters it had. *)
Lemma pair_rows_are_skipped_sample :
  exists row,
    nth_error (Writer.pairtypes_chunks Sample.env0 Sample.methylidyne
                 (Sample.unit_systems "real") None) 2 = Some (Ok row) /\
    List.length (Py.split row) = 5%nat /\
    Reader.parse_pair_line (Sample.unit_systems "real") ([Sample.carbon], false) (0%nat, row)
    = Ok ([Sample.carbon], false).
Proof.
  eexists. split; [vm_compute; reflexivity |].
  apply (pair_rows_are_skipped Sample.env0 Sample.methylidyne (Sample.unit_systems "real") None 0 _
           (Sample.unit_systems "real") [Sample.carbon] false 0).
  - intros a Ha. vm_compute in Ha. decompose [or] Ha; subst; try contradiction;
      (split; [discriminate | reflexivity]).
  - vm_compute. reflexivity.
Defined.

(** ** Data rows, as the reader sees them *)

Lemma getitem_of_nat {A : Type} (l : list A) (n : nat) (a : A) :
  nth_error l n = Some a -> getitem l (Z.of_nat n) = Ok a.
Proof.
  intros H. unfold getitem.
  destruct (Z.ltb_spec (Z.of_nat n) 0) as [Hn | _]; [lia |].
  assert (Hlt : (n < List.length l)%nat) by (apply nth_error_Some; congruence).
  destruct (Z.leb_spec 0 (Z.of_nat n)); [| lia].
  destruct (Z.ltb_spec (Z.of_nat n) (Z.of_nat (List.length l))); [| lia].
  simpl. rewrite Nat2Z.id, H. reflexivity.
Qed.

Lemma index_of_nonneg {A : Type} (f : A -> bool) (l : list A) (i r : Z) :
  Writer.index_of f l i = Ok r -> (i <= r)%Z.
Proof.
  revert i. induction l as [| y l IH]; intros i H; simpl in H; [discriminate |].
  destruct (f y); [injection H as <-; lia |]. apply IH in H. lia.
Qed.

(** Fields padded on the right and joined by tabs. *)
Lemma split_join_ljust (w : nat) (toks : list string) (c : ascii) (tail : string) :
  Forall is_token toks -> Py.isspace c = true ->
  Py.split_from EmptyString (Writer.join Writer.TAB (map (Py.ljust w) toks) ++ String c tail)
  = (toks ++ Py.split_from EmptyString tail)%list.
Proof.
  intros Ht Hc. induction Ht as [| t toks Htok Hrest IH].
  - simpl. rewrite Hc. reflexivity.
  - destruct toks as [| t' toks].
    + cbn [map Writer.join app]. apply split_from_ljust_sep; assumption.
    + change (Writer.join Writer.TAB (map (Py.ljust w) (t :: t' :: toks)))
        with (Py.ljust w t ++ Writer.TAB
              ++ Writer.join Writer.TAB (map (Py.ljust w) (t' :: toks))).
      rewrite !append_assoc. change (Writer.TAB ++ ?x) with (String "009" x).
      rewrite split_from_ljust_sep by (assumption || reflexivity).
      cbn [app]. f_equal. exact IH.
Qed.

Lemma mapM_ext {A B : Type} (f g : A -> outcome B) (l : list A) :
  (forall a, In a l -> f a = g a) -> mapM f l = mapM g l.
Proof.
  induction l as [| a l IH]; intros H; simpl; [reflexivity |].
  rewrite (H a) by (left; reflexivity). rewrite IH; [reflexivity |].
  intros x Hx. apply H. right. assumption.
Qed.

Lemma mapM_seq_nth {A B : Type} (g : A -> outcome B) (f : nat -> outcome B) (l : list A) (n : nat) :
  (forall j a, nth_error l j = Some a -> f (n + j)%nat = g a) ->
  mapM f (seq n (List.length l)) = mapM g l.
Proof.
  revert n. induction l as [| a l IH]; intros n H; simpl; [reflexivity |].
  rewrite <- (H 0%nat a eq_refl), Nat.add_0_r.
  rewrite (IH (S n)); [reflexivity |].
  intros j x Hj. rewrite <- (H (S j) x Hj). f_equal. lia.
Qed.

(** The type of a connection read from a row: the type of the table
    with the names of the atom types of its members. *)
Definition with_member_names (ctype : ConnType) (names : list string) : ConnType :=
  mkConnType (ct_kind ctype) (ct_name ctype) (ct_expression ctype)
    (ct_parameters ctype) (ct_independent_variables ctype) (Some names).

(** Reading a row from the positions [ps] of its members in the list of
    sites and the position [ti] of its type in the table. *)
Definition connection_at (k : conn_kind) (types : list ConnType) (t : Topology)
  (ti : Z) (ps : list Z) : outcome Topology :=
  site_list <- mapM (getitem (sites t)) ps ;;
  ctype <- getitem types ti ;;
  names <- mapM Reader.atom_type_name site_list ;;
  _ <- Reader.validate_fields k site_list ;;
  Ok (Reader.add_connection t (mkConn k (map site_id site_list)
                                 (Some (with_member_names ctype names)))).

(** The row written for a connection is read back to the same
    positions: the reader takes the members at the positions that the
    members of the connection have in the list of sites of the writer,
    and the type at the position that the type of the connection has in
    the sorted table of the writer. *)
Theorem conn_rows_read_back (env : Env) (top : Topology) (indexList : list (list string))
  (i : nat) (conn : Connection) (row : string)
  (k : conn_kind) (types : list ConnType) (t : Topology) :
  Writer.conn_row env top indexList i conn = Ok row ->
  List.length (connection_members conn) = Reader.n_members k ->
  exists ct key ti ps,
    connection_type conn = Some ct /\ sort_by_types env ct = Ok key /\
    Writer.index_of (Writer.list_eqb key) indexList 0 = Ok ti /\
    mapM (Writer.site_index top) (connection_members conn) = Ok ps /\
    Reader.parse_connection k types t row = connection_at k types t ti ps.
Proof.
  unfold Writer.conn_row. intros H Hlen.
  apply bind_Ok in H. destruct H as (ct & Hct & H).
  apply bind_Ok in H. destruct H as (key & Hkey & H).
  apply bind_Ok in H. destruct H as (ti & Hti & H).
  apply bind_Ok in H. destruct H as (idxs & Hidx & H). injection H as <-.
  apply (mapM_map_result (Writer.site_index top) (fun si => Py.ljust 6 (Py.fmt_d (si + 1))))
    in Hidx.
  destruct Hidx as (ps & Hps & ->).
  exists ct, key, ti, ps.
  destruct (connection_type conn) as [ct0 |]; [| discriminate]. injection Hct as ->.
  repeat split; try assumption.
  unfold Reader.parse_connection, connection_at, with_member_names.
  match goal with
  | |- context [Py.split ?r] =>
      assert (Hs : Py.split r
                   = Py.fmt_d (Z.of_nat i + 1) :: Py.fmt_d (ti + 1)
                     :: map (fun si => Py.fmt_d (si + 1)) ps)
  end.
  { unfold Py.split, Writer.TAB. repeat (rewrite append_assoc; cbn [append]).
    rewrite split_from_ljust_sep by (apply is_token_fmt_d || reflexivity).
    rewrite split_from_ljust_sep by (apply is_token_fmt_d || reflexivity).
    rewrite <- (map_map (fun si => Py.fmt_d (si + 1)) (Py.ljust 6)).
    unfold Writer.NL.
    change (String "009" EmptyString) with Writer.TAB.
    rewrite split_join_ljust; [| | reflexivity].
    - simpl. rewrite app_nil_r. reflexivity.
    - apply Forall_forall. intros x Hx. apply in_map_iff in Hx.
      destruct Hx as (p & <- & _). apply is_token_fmt_d. }
  rewrite Hs. clear Hs.
  assert (Hsites :
    mapM (fun j : nat =>
            idx <- Reader.int_at (Py.fmt_d (Z.of_nat i + 1) :: Py.fmt_d (ti + 1)
                                  :: map (fun si => Py.fmt_d (si + 1)) ps) (Z.of_nat j + 2) ;;
            getitem (sites t) (idx - 1))
         (seq 0 (Reader.n_members k))
    = mapM (getitem (sites t)) ps).
  { apply mapM_length in Hps. rewrite <- Hlen, <- Hps.
    apply mapM_seq_nth. intros j p Hj. cbn [Nat.add].
    unfold Reader.int_at.
    replace (Z.of_nat j + 2)%Z with (Z.of_nat (S (S j))) by lia.
    rewrite (getitem_of_nat _ (S (S j)) (Py.fmt_d (p + 1)))
      by (cbn [nth_error]; rewrite nth_error_map, Hj; reflexivity).
    cbn [bind]. unfold py_int. rewrite int_fmt_d. cbn [or_raise bind].
    f_equal. lia. }
  rewrite Hsites. clear Hsites.
  destruct (mapM (getitem (sites t)) ps) as [site_list | e]; cbn [bind]; [| reflexivity].
  unfold Reader.int_at.
  change (getitem ?l 1) with (getitem l (Z.of_nat 1)).
  rewrite (getitem_of_nat _ 1 (Py.fmt_d (ti + 1))) by reflexivity.
  cbn [bind]. unfold py_int. rewrite int_fmt_d. cbn [or_raise bind].
  replace (ti + 1 - 1)%Z with ti by lia.
  reflexivity.
Qed.

(** The bond of the scenario: its row is read back to the sites at the
    positions 0 and 1 and to the type at the position 0. *)
Lemma conn_rows_read_back_sample :
  exists row,
    Writer.conn_row Sample.env0 Sample.methylidyne [["C"; "H"]] 0
      (mkConn Bond [0; 1]%nat (Some Sample.ch_bond_type)) = Ok row /\
    Reader.parse_connection Bond [Sample.ch_bond_type] Sample.methylidyne row
    = connection_at Bond [Sample.ch_bond_type] Sample.methylidyne 0 [0; 1]%Z.
Proof.
  eexists. split; [vm_compute; reflexivity |].
  match goal with
  | |- Reader.parse_connection _ _ _ ?row = _ =>
      destruct (conn_rows_read_back Sample.env0 Sample.methylidyne [["C"; "H"]] 0
                  (mkConn Bond [0; 1]%nat (Some Sample.ch_bond_type)) row
                  Bond [Sample.ch_bond_type] Sample.methylidyne)
        as (ct & key & ti & ps & Hct & Hkey & Hti & Hps & Heq)
  end.
  - vm_compute. reflexivity.
  - reflexivity.
  - injection Hct as <-. vm_compute in Hkey. injection Hkey as <-.
    vm_compute in Hti. injection Hti as <-. vm_compute in Hps. injection Hps as <-.
    exact Heq.
Defined.

Lemma fresh_Ok (w w' : world) (id : nat) :
  fresh w = (Ok id, w') -> id = w_next_id w.
Proof. unfold fresh. intros H. injection H as <- _. reflexivity. Qed.

Lemma getitem_head {A : Type} (a : A) (l : list A) : getitem (a :: l) 0 = Ok a.
Proof. apply (getitem_of_nat (a :: l) 0 a). reflexivity. Qed.

(** Whatever the name of an atom type, the reader names the type it
    reads from the row of the section [Masses] by the number that the
    writer put first in the row: the position of the type in the table
    sorted by name, counted from one. The parameters are the default
    ones. *)
Theorem masses_rows_read_back (env : Env) (top : Topology) (b : base_unyts)
  (cf : Writer.cfactors) (i : nat) (row : string)
  (env' : Env) (b' : base_unyts) (acc acc' : list AtomType) (w w' : world) :
  nth_error (Writer.atomtypes_chunks env top b cf) (2 + i) = Some (Ok row) ->
  Reader.parse_mass_line env' b' acc row w = (Ok acc', w') ->
  exists x idx a,
    nth_error (Writer.sorted_atom_types env top) i = Some x /\
    Writer.atom_type_index (Writer.sorted_atom_types env top) x = Ok idx /\
    acc' = (acc ++ [a])%list /\
    at_name a = Py.fmt_d (idx + 1) /\
    at_expression a = Reader.default_expression /\
    at_parameters a = Reader.default_parameters.
Proof.
  unfold Writer.atomtypes_chunks, Writer.cat. cbn [app nth_error Nat.add].
  rewrite nth_error_map. intros H Hr.
  destruct (nth_error (Writer.sorted_atom_types env top) i) as [x |] eqn:Ex; [| discriminate].
  cbn [option_map] in H. injection H as H.
  apply bind_Ok in H. destruct H as (idx & Hidx & H).
  apply bind_Ok in H. destruct H as (m & Hm & H). injection H as <-.
  apply parse_mass_line_name in Hr.
  destruct Hr as (a & m' & um & -> & Hname & _ & _ & _ & Hexpr & Hpar).
  exists x, idx, a. repeat split; try assumption.
  revert Hname. unfold Py.split, Writer.TAB. cbn [append].
  rewrite split_from_token_space by (apply is_token_fmt_d || reflexivity).
  rewrite getitem_head. intros Hname. injection Hname as <-. reflexivity.
Qed.

(** The row of carbon in the scenario: the type is read back under the
    name [1]. *)
Lemma masses_rows_read_back_sample :
  exists row acc' a,
    nth_error (Writer.atomtypes_chunks Sample.env0 Sample.methylidyne
                 (Sample.unit_systems "real") None) 2 = Some (Ok row) /\
    fst (Reader.parse_mass_line Sample.env0 (Sample.unit_systems "real") [] row Sample.world0)
    = Ok acc' /\
    acc' = [a] /\ at_name a = "1" /\ at_parameters a = Reader.default_parameters.
Proof.
  destruct (nth_error (Writer.atomtypes_chunks Sample.env0 Sample.methylidyne
                         (Sample.unit_systems "real") None) 2) as [[row | e] |] eqn:Erow;
    try (vm_compute in Erow; discriminate).
  destruct (Reader.parse_mass_line Sample.env0 (Sample.unit_systems "real") []
              row Sample.world0) as [r w'] eqn:E.
  assert (Hr : exists acc', r = Ok acc').
  { vm_compute in Erow. injection Erow as <-. vm_compute in E. injection E as <- _. eauto. }
  destruct Hr as (acc' & ->).
  destruct (masses_rows_read_back Sample.env0 Sample.methylidyne (Sample.unit_systems "real")
              None 0 row Sample.env0 (Sample.unit_systems "real") [] acc' Sample.world0 w'
              Erow E)
    as (x & idx & a & Hx & Hidx & Hacc & Hname & _ & Hpar).
  exists row, acc', a. split; [reflexivity |]. split; [rewrite E; reflexivity |].
  split; [exact Hacc |]. split; [| exact Hpar].
  vm_compute in Hx. injection Hx as <-. vm_compute in Hidx. injection Hidx as <-.
  exact Hname.
Defined.

(** The fields of the row of a site in the atom style [full]. *)
Lemma split_atom_line_full (index moleculeid type_index : Z) (charge x y z : Q) :
  Py.split (Writer.atom_line "full" index moleculeid type_index charge x y z)
  = [Py.fmt_d index; Py.fmt_d moleculeid; Py.fmt_d type_index;
     Writer.num8 charge; Writer.num8 x; Writer.num8 y; Writer.num8 z].
Proof.
  unfold Writer.atom_line.
  change ("full" =? "atomic")%string with false.
  change ("full" =? "charge")%string with false.
  change ("full" =? "molecular")%string with false. cbv iota.
  unfold Py.split, Writer.TAB, Writer.NL, Writer.num8. cbn [append].
  repeat rewrite split_from_token_space
    by first [apply is_token_fmt_d | apply is_token_fmt_general | reflexivity].
  reflexivity.
Qed.

(** The row written for a site in the atom style [full] is read back to
    a site of the same molecule number, whose atom type is a copy of the
    type that the list of the reader holds at the position that the type
    of the site has in the sorted table of the writer; charge and
    position are what [float] makes of the eight significant digits
    that the writer printed. *)
Theorem site_rows_read_back (b : base_unyts) (cf : Writer.cfactors) (types : list AtomType)
  (i : nat) (site : Site) (row : string)
  (env' : Env) (b' : base_unyts) (type_list : list AtomType) (t t' : Topology) (w w' : world) :
  Writer.site_row "full" b cf types i site = Ok row ->
  Reader.parse_atom_line env' b' type_list t row w = (Ok t', w') ->
  exists m ti ty s id,
    site_molecule site = Some m /\
    Writer.site_type_index types site = Ok ti /\
    getitem type_list ti = Ok ty /\
    sites t' = (sites t ++ [s])%list /\
    site_atom_type s = Some (Reader.deepcopy_atom_type id ty) /\
    site_molecule s = Some (mkMolecule (Py.fmt_d (mol_number m)) (mol_number m)) /\
    exists charge x y z c' x' y' z' uc ul,
      Py.split row = [Py.fmt_d (Z.of_nat i + 1); Py.fmt_d (mol_number m); Py.fmt_d (ti + 1);
                      Writer.num8 charge; Writer.num8 x; Writer.num8 y; Writer.num8 z] /\
      py_float (Writer.num8 charge) = Ok c' /\ py_float (Writer.num8 x) = Ok x' /\
      py_float (Writer.num8 y) = Ok y' /\ py_float (Writer.num8 z) = Ok z' /\
      get_units b' "charge" = Ok uc /\ get_units b' "length" = Ok ul /\
      site_charge s = Some (q_of c' uc) /\
      site_position s = [q_of x' ul; q_of y' ul; q_of z' ul].
Proof.
  unfold Writer.site_row. intros H Hr.
  apply bind_Ok in H. destruct H as (m & Hm & H).
  apply bind_Ok in H. destruct H as (ti & Hti & H).
  apply bind_Ok in H. destruct H as (c & Hc & H).
  apply bind_Ok in H. destruct H as (charge & Hcharge & H).
  apply bind_Ok in H. destruct H as (p0 & Hp0 & H).
  apply bind_Ok in H. destruct H as (x & Hx & H).
  apply bind_Ok in H. destruct H as (p1 & Hp1 & H).
  apply bind_Ok in H. destruct H as (y & Hy & H).
  apply bind_Ok in H. destruct H as (p2 & Hp2 & H).
  apply bind_Ok in H. destruct H as (z & Hz & H). injection H as <-.
  destruct (site_molecule site) as [m0 |]; [| discriminate]. injection Hm as ->.
  unfold Reader.parse_atom_line in Hr. rewrite split_atom_line_full in Hr.
  unfold Reader.float_at in Hr.
  change 2%Z with (Z.of_nat 2) in Hr. change 3%Z with (Z.of_nat 3) in Hr.
  change 4%Z with (Z.of_nat 4) in Hr. change 5%Z with (Z.of_nat 5) in Hr.
  change 6%Z with (Z.of_nat 6) in Hr.
  change (getitem ?l 1) with (getitem l (Z.of_nat 1)) in Hr.
  repeat (erewrite getitem_of_nat in Hr by reflexivity).
  cbn [bind] in Hr.
  apply io_bind_Ok in Hr. destruct Hr as (tok & w1 & H1 & Hr). apply lift_Ok in H1.
  destruct H1 as [H1 ->]. injection H1 as <-.
  apply io_bind_Ok in Hr. destruct Hr as (c' & w1 & Hc' & Hr). apply lift_Ok in Hc'.
  destruct Hc' as [Hc' ->].
  apply io_bind_Ok in Hr. destruct Hr as (uc & w1 & Huc & Hr). apply lift_Ok in Huc.
  destruct Huc as [Huc ->].
  apply io_bind_Ok in Hr. destruct Hr as (x' & w1 & Hx' & Hr). apply lift_Ok in Hx'.
  destruct Hx' as [Hx' ->].
  apply io_bind_Ok in Hr. destruct Hr as (y' & w1 & Hy' & Hr). apply lift_Ok in Hy'.
  destruct Hy' as [Hy' ->].
  apply io_bind_Ok in Hr. destruct Hr as (z' & w1 & Hz' & Hr). apply lift_Ok in Hz'.
  destruct Hz' as [Hz' ->].
  apply io_bind_Ok in Hr. destruct Hr as (ul & w1 & Hul & Hr). apply lift_Ok in Hul.
  destruct Hul as [Hul ->].
  apply io_bind_Ok in Hr. destruct Hr as (ti' & w1 & Hti' & Hr). apply lift_Ok in Hti'.
  destruct Hti' as [Hti' ->].
  unfold py_int in Hti'. rewrite int_fmt_d in Hti'. injection Hti' as <-.
  apply io_bind_Ok in Hr. destruct Hr as (ty & w1 & Hty & Hr). apply lift_Ok in Hty.
  destruct Hty as [Hty ->].
  replace (ti + 1 - 1)%Z with ti in Hty by lia.
  apply io_bind_Ok in Hr. destruct Hr as (tid & w1 & _ & Hr).
  apply io_bind_Ok in Hr. destruct Hr as (mname & w2 & Hmn & Hr). apply lift_Ok in Hmn.
  destruct Hmn as [Hmn ->]. injection Hmn as <-.
  apply io_bind_Ok in Hr. destruct Hr as (mnum & w2 & Hmnum & Hr). apply lift_Ok in Hmnum.
  destruct Hmnum as [Hmnum ->].
  unfold py_int in Hmnum. rewrite int_fmt_d in Hmnum. injection Hmnum as <-.
  apply io_bind_Ok in Hr. destruct Hr as (sid & w2 & _ & Hr).
  unfold ret in Hr. injection Hr as <- _.
  eexists m, ti, ty, _, tid. repeat split; try eassumption; try reflexivity.
  exists charge, x, y, z, c', x', y', z', uc, ul.
  repeat split; try assumption; try reflexivity. apply split_atom_line_full.
Qed.

(** The row of the carbon of the scenario, read with the two types of
    the scenario in the list. *)
Lemma site_rows_read_back_sample :
  exists row t' s id,
    Writer.site_row "full" (Sample.unit_systems "real") None [Sample.carbon; Sample.hydrogen]
      0 Sample.site_c = Ok row /\
    fst (Reader.parse_atom_line Sample.env0 (Sample.unit_systems "real")
           [Sample.carbon; Sample.hydrogen] empty_topology row Sample.world0) = Ok t' /\
    sites t' = [s] /\
    site_atom_type s = Some (Reader.deepcopy_atom_type id Sample.carbon) /\
    site_molecule s = Some (mkMolecule "1" 1).
Proof.
  destruct (Writer.site_row "full" (Sample.unit_systems "real") None
              [Sample.carbon; Sample.hydrogen] 0 Sample.site_c) as [row | e] eqn:Erow;
    [| vm_compute in Erow; discriminate].
  destruct (Reader.parse_atom_line Sample.env0 (Sample.unit_systems "real")
              [Sample.carbon; Sample.hydrogen] empty_topology row Sample.world0)
    as [r w'] eqn:E.
  assert (Hr : exists t', r = Ok t').
  { vm_compute in Erow. injection Erow as <-. vm_compute in E. injection E as <- _. eauto. }
  destruct Hr as (t' & ->).
  destruct (site_rows_read_back (Sample.unit_systems "real") None [Sample.carbon; Sample.hydrogen]
              0 Sample.site_c row Sample.env0 (Sample.unit_systems "real")
              [Sample.carbon; Sample.hydrogen] empty_topology t' Sample.world0 w' Erow E)
    as (m & ti & ty & s & id & Hm & Hti & Hty & Hs & Hat & Hmol & _).
  injection Hm as <-. vm_compute in Hti. injection Hti as <-.
  vm_compute in Hty. injection Hty as <-.
  exists row, t', s, id. split; [reflexivity |]. split; [rewrite E; reflexivity |].
  split; [exact Hs |]. split; [exact Hat | exact Hmol].
Defined.

(** ** A title that the reader takes for a count *)

(** No character of [s] ends a line: neither a line feed nor a carriage
    return. *)
Definition no_newline (s : string) : bool :=
  forall_chars (fun c => negb (Ascii.eqb c "010" || Ascii.eqb c "013")) s.

Lemma lines_from_line (a cur s : string) :
  no_newline a = true ->
  lines_from cur (a ++ String "010" s)
  = (cur ++ a ++ String "010" EmptyString) :: lines_from EmptyString s.
Proof.
  revert cur. induction a as [| c a IH]; intros cur H.
  - reflexivity.
  - unfold no_newline in H. simpl in H. apply andb_true_iff in H. destruct H as [Hc Ha].
    apply negb_true_iff, orb_false_iff in Hc. destruct Hc as [Hc _].
    cbn [append lines_from]. rewrite Hc.
    rewrite IH by assumption. rewrite !append_assoc. reflexivity.
Qed.

Lemma universal_newlines_line (a s : string) :
  no_newline a = true ->
  universal_newlines (a ++ String "010" s) = a ++ String "010" (universal_newlines s).
Proof.
  induction a as [| c a IH]; intros H.
  - reflexivity.
  - unfold no_newline in H. simpl in H. apply andb_true_iff in H. destruct H as [Hc Ha].
    apply negb_true_iff, orb_false_iff in Hc. destruct Hc as [_ Hc].
    cbn [append universal_newlines]. rewrite Hc. rewrite IH by assumption. reflexivity.
Qed.

(** The first line of a text. *)
Lemma readlines_line (a s : string) :
  no_newline a = true ->
  readlines (a ++ String "010" s) = (a ++ String "010" EmptyString) :: readlines s.
Proof.
  intros H. unfold readlines. rewrite universal_newlines_line, lines_from_line by assumption.
  reflexivity.
Qed.

Lemma no_newline_app (a b : string) :
  no_newline a = true -> no_newline b = true -> no_newline (a ++ b) = true.
Proof.
  intros Ha Hb. unfold no_newline. rewrite forall_chars_app. apply andb_true_iff. auto.
Qed.

Lemma no_space_no_newline (s : string) : no_space s = true -> no_newline s = true.
Proof.
  apply forall_chars_weaken. intros c Hc. apply negb_true_iff in Hc. apply negb_true_iff.
  destruct (Ascii.eqb_spec c "010") as [-> | NE]; [discriminate |].
  destruct (Ascii.eqb_spec c "013") as [-> | NE']; [discriminate | reflexivity].
Qed.

Lemma prefix_app (x s b : string) : prefix x s = true -> prefix x (s ++ b) = true.
Proof.
  revert s. induction x as [| c x IH]; intros s H; [destruct (s ++ b); reflexivity |].
  destruct s as [| d s]; simpl in *; [discriminate |].
  destruct (ascii_dec c d); [apply IH; assumption | discriminate].
Qed.

Lemma contains_app_r (x s b : string) : Py.contains x s = true -> Py.contains x (s ++ b) = true.
Proof.
  induction s as [| d s IH]; cbn [Py.contains append]; intros H.
  - rewrite orb_false_r in H. pose proof (prefix_app x EmptyString b H) as Hp.
    change (EmptyString ++ b) with b in *. destruct b; cbn [Py.contains]; rewrite Hp; reflexivity.
  - apply orb_true_iff in H. destruct H as [H | H].
    + pose proof (prefix_app x (String d s) b H) as Hp. cbn [append] in Hp.
      rewrite Hp. reflexivity.
    + rewrite (IH H). apply orb_true_r.
Qed.

Lemma contains_app_l (x a s : string) : Py.contains x s = true -> Py.contains x (a ++ s) = true.
Proof.
  intros H. induction a as [| d a IH]; cbn [Py.contains append]; [assumption |].
  rewrite IH. apply orb_true_r.
Qed.

(** The title that the writer puts on the first line holds the name of
    the topology, and the reader takes for a count of atom types any
    line that holds the text [atom] before the section [Masses]: a file
    written for a topology whose name holds [atom], by a user whose name
    is not a number, is not read back. *)
Theorem topology_named_atom_is_not_read_back (env : Env) (top top' : Topology)
  (filename atom_style unit_style : string) (strict_potentials strict_units : bool)
  (lj_cfactorsDict : Writer.cfactors) (w w' : world)
  (env' : Env) (atom_style' unit_style' : string) :
  Writer.write_lammpsdata env top filename atom_style unit_style
    strict_potentials strict_units lj_cfactorsDict w = (Ok tt, w') ->
  potentials_step env top strict_potentials = Ok top' ->
  is_token (Writer.opt_str (env_USER env) "None") ->
  Py.int (Writer.opt_str (env_USER env) "None") = None ->
  no_newline (Writer.opt_str (top_name top') "") = true ->
  no_newline (env_now env) = true ->
  Py.contains "atom" (Writer.opt_str (top_name top') "") = true ->
  exists e, fst (Reader.read_lammpsdata env' filename atom_style' unit_style' w') = Raise e.
Proof.
  intros Hw Hp Huser Hint Hname Hnow Hatom.
  apply write_lammpsdata_text in Hw. destruct Hw as (top1 & mid & conns & Hp1 & Hfile & _).
  rewrite Hp in Hp1. injection Hp1 as <-.
  set (user := Writer.opt_str (env_USER env) "None") in *.
  set (name := Writer.opt_str (top_name top') "") in *.
  set (line := user ++ " written by " ++ name ++ " at " ++ env_now env
               ++ " using the GMSO LAMMPS Writer").
  assert (Hc : exists rest,
             Writer.header_text env top' atom_style ++ mid ++ conns
             = line ++ String "010" rest).
  { unfold Writer.header_text, Writer.title_line, Writer.NL, line. fold user. fold name.
    eexists. repeat (rewrite append_assoc; cbn [append]). reflexivity. }
  destruct Hc as (rest & Hc). rewrite Hc in Hfile. clear Hc.
  assert (Hline : no_newline line = true).
  { unfold line. destruct Huser as [_ Hu].
    repeat (apply no_newline_app; [first [assumption | reflexivity
                                          | apply no_space_no_newline; assumption] |]).
    reflexivity. }
  assert (Hlines : readlines (line ++ String "010" rest)
                   = app [] ((line ++ String "010" EmptyString) :: readlines rest)).
  { rewrite readlines_line by assumption. reflexivity. }
  unfold Reader.read_lammpsdata.
  destruct (negb (Py.mem atom_style' ["full"])); [eexists; reflexivity |].
  destruct (negb (Py.mem unit_style' Reader.valid_unit_styles)); [eexists; reflexivity |].
  unfold io_bind at 1.
  pose proof (keeps_get_box env' filename (LAMMPS_UnitSystems env' unit_style') empty_topology w')
    as Hkeep.
  destruct (Reader._get_box_coordinates env' filename (LAMMPS_UnitSystems env' unit_style')
              empty_topology w') as [[top1 | e] w1]; [| eexists; reflexivity].
  simpl in Hkeep. unfold io_bind at 1.
  pose proof (ff_information_raises env' filename (LAMMPS_UnitSystems env' unit_style') top1 w1
                (line ++ String "010" rest) [] (readlines rest)
                (line ++ String "010" EmptyString) user) as Hff.
  destruct (Reader._get_ff_information env' filename (LAMMPS_UnitSystems env' unit_style')
              top1 w1) as [r w2].
  simpl in Hff. rewrite Hff; [eexists; reflexivity | | | | | |].
  - rewrite Hkeep. assumption.
  - exact Hlines.
  - intros x [].
  - unfold line. apply contains_app_r. apply contains_app_l. apply contains_app_l.
    apply contains_app_r. assumption.
  - unfold line, Py.split. cbn [append]. rewrite !append_assoc. cbn [append].
    rewrite split_from_token_space by (assumption || reflexivity).
    apply getitem_head.
  - assumption.
Qed.

(** The scenario under a name that holds [atom]. *)
Definition atoms_in_a_box : Topology :=
  mkTop (Some "atoms in a box") (sites Sample.methylidyne) (bonds Sample.methylidyne) [] [] []
    (box Sample.methylidyne).

Lemma topology_named_atom_is_not_read_back_sample :
  exists w',
    Writer.write_lammpsdata Sample.env0 atoms_in_a_box Sample.out_name "full" "real"
      false false None Sample.world0 = (Ok tt, w') /\
    exists e, fst (Reader.read_lammpsdata Sample.env0 Sample.out_name "full" "real" w') = Raise e.
Proof.
  destruct (Writer.write_lammpsdata Sample.env0 atoms_in_a_box Sample.out_name "full" "real"
              false false None Sample.world0) as [r w'] eqn:E.
  assert (Hr : r = Ok tt) by (vm_compute in E; congruence). subst r.
  exists w'. split; [reflexivity |].
  apply (topology_named_atom_is_not_read_back Sample.env0 atoms_in_a_box atoms_in_a_box
           Sample.out_name "full" "real" false false None Sample.world0 w'
           Sample.env0 "full" "real" E).
  - vm_compute. reflexivity.
  - split; [discriminate | reflexivity].
  - reflexivity.
  - reflexivity.
  - reflexivity.
  - reflexivity.
Defined.

(** ** Rows that the reader refuses or misreads *)

Lemma getitem_beyond {A : Type} (l : list A) (n : nat) :
  (List.length l <= n)%nat -> getitem l (Z.of_nat n) = Raise IndexError.
Proof.
  intros H. unfold getitem.
  destruct (Z.ltb_spec (Z.of_nat n) 0); [lia |].
  destruct (Z.ltb_spec (Z.of_nat n) (Z.of_nat (List.length l))); [lia |].
  rewrite andb_false_r. reflexivity.
Qed.

(** The fields of the row of a site in the other atom styles. *)
Lemma split_atom_line_short (atom_style : string) (index moleculeid type_index : Z)
  (charge x y z : Q) :
  In atom_style ["atomic"; "charge"; "molecular"] ->
  (List.length (Py.split (Writer.atom_line atom_style index moleculeid type_index charge x y z))
   < 7)%nat.
Proof.
  intros [<- | [<- | [<- | []]]]; unfold Writer.atom_line;
    repeat match goal with
    | |- context [String.eqb ?a ?b] =>
        let v := eval vm_compute in (String.eqb a b) in change (String.eqb a b) with v
    end; cbv iota;
    unfold Py.split, Writer.TAB, Writer.NL, Writer.num8; cbn [append];
    repeat rewrite split_from_token_space
      by first [apply is_token_fmt_d | apply is_token_fmt_general | reflexivity];
    simpl; lia.
Qed.

Lemma short_atom_line (env : Env) (b : base_unyts) (type_list : list AtomType)
  (t : Topology) (line : string) (w : world) :
  (List.length (Py.split line) < 7)%nat ->
  exists e, fst (Reader.parse_atom_line env b type_list t line w) = Raise e.
Proof.
  intros H. unfold Reader.parse_atom_line, io_bind, lift.
  destruct (getitem (Py.split line) 2); [| eexists; reflexivity].
  destruct (Reader.float_at (Py.split line) 3); [| eexists; reflexivity].
  destruct (get_units b "charge"); [| eexists; reflexivity].
  destruct (Reader.float_at (Py.split line) 4); [| eexists; reflexivity].
  destruct (Reader.float_at (Py.split line) 5); [| eexists; reflexivity].
  unfold Reader.float_at. change 6%Z with (Z.of_nat 6).
  rewrite getitem_beyond by lia. eexists. reflexivity.
Qed.

(** The reader takes seven fields from the row of a site, the layout of
    the atom style [full]; the rows that the writer emits in the atom
    styles [atomic], [charge] and [molecular] hold five or six fields,
    and the reader refuses each of them. *)
Theorem other_atom_styles_are_not_read_back (atom_style : string) (b : base_unyts)
  (cf : Writer.cfactors) (types : list AtomType) (i : nat) (site : Site) (row : string)
  (env' : Env) (b' : base_unyts) (type_list : list AtomType) (t : Topology) (w : world) :
  In atom_style ["atomic"; "charge"; "molecular"] ->
  Writer.site_row atom_style b cf types i site = Ok row ->
  exists e, fst (Reader.parse_atom_line env' b' type_list t row w) = Raise e.
Proof.
  intros Hs H. apply short_atom_line. unfold Writer.site_row in H. inv_bind H.
  injection H as <-. apply split_atom_line_short. assumption.
Qed.

Lemma other_atom_styles_are_not_read_back_sample :
  exists row,
    Writer.site_row "atomic" (Sample.unit_systems "real") None [Sample.carbon; Sample.hydrogen]
      0 Sample.site_c = Ok row /\
    exists e, fst (Reader.parse_atom_line Sample.env0 (Sample.unit_systems "real")
                     [Sample.carbon; Sample.hydrogen] empty_topology row Sample.world0) = Raise e.
Proof.
  eexists. split; [vm_compute; reflexivity |].
  apply (other_atom_styles_are_not_read_back "atomic" (Sample.unit_systems "real") None
           [Sample.carbon; Sample.hydrogen] 0 Sample.site_c).
  - left. reflexivity.
  - vm_compute. reflexivity.
Defined.

Lemma getitem_last {A : Type} (l : list A) (a : A) : getitem (l ++ [a]) (-1) = Ok a.
Proof.
  unfold getitem. rewrite length_app. cbn [List.length].
  change (-1 <? 0)%Z with true. cbv iota.
  replace (Z.of_nat (List.length l + 1) + -1)%Z with (Z.of_nat (List.length l)) by lia.
  destruct (Z.leb_spec 0 (Z.of_nat (List.length l))); [| lia].
  destruct (Z.ltb_spec (Z.of_nat (List.length l)) (Z.of_nat (List.length l + 1))); [| lia].
  simpl. rewrite Nat2Z.id, nth_error_app2, Nat.sub_diag by lia. reflexivity.
Qed.

(** The reader does not check the type number of a site: the number
    zero is not refused, it selects the last atom type of the list, as a
    negative index does in Python. *)
Theorem type_number_zero_is_the_last_type (env : Env) (b : base_unyts)
  (type_list : list AtomType) (last : AtomType) (t t' : Topology) (line : string)
  (w w' : world) :
  getitem (Py.split line) 2 = Ok "0" ->
  Reader.parse_atom_line env b (type_list ++ [last]) t line w = (Ok t', w') ->
  exists s id,
    sites t' = (sites t ++ [s])%list /\
    site_atom_type s = Some (Reader.deepcopy_atom_type id last).
Proof.
  intros H0 Hr. unfold Reader.parse_atom_line in Hr. rewrite H0 in Hr.
  apply io_bind_Ok in Hr. destruct Hr as (tok & w1 & H1 & Hr). apply lift_Ok in H1.
  destruct H1 as [H1 ->]. injection H1 as <-.
  do 6 (apply io_bind_Ok in Hr; destruct Hr as (? & w1 & Hl & Hr); apply lift_Ok in Hl;
        destruct Hl as [_ ->]).
  apply io_bind_Ok in Hr. destruct Hr as (ti & w1 & Hti & Hr). apply lift_Ok in Hti.
  destruct Hti as [Hti ->]. vm_compute in Hti. injection Hti as <-.
  apply io_bind_Ok in Hr. destruct Hr as (ty & w1 & Hty & Hr). apply lift_Ok in Hty.
  destruct Hty as [Hty ->]. change (0 - 1)%Z with (-1)%Z in Hty.
  rewrite getitem_last in Hty. injection Hty as <-.
  apply io_bind_Ok in Hr. destruct Hr as (tid & w1 & _ & Hr).
  apply io_bind_Ok in Hr. destruct Hr as (mname & w2 & Hmn & Hr). apply lift_Ok in Hmn.
  destruct Hmn as [Hmn ->].
  apply io_bind_Ok in Hr. destruct Hr as (mnum & w2 & Hmnum & Hr). apply lift_Ok in Hmnum.
  destruct Hmnum as [Hmnum ->].
  apply io_bind_Ok in Hr. destruct Hr as (sid & w2 & _ & Hr).
  unfold ret in Hr. injection Hr as <- _.
  eexists _, tid. split; reflexivity.
Qed.

Lemma type_number_zero_is_the_last_type_sample :
  exists t' s id,
    fst (Reader.parse_atom_line Sample.env0 (Sample.unit_systems "real")
           ([Sample.carbon] ++ [Sample.hydrogen]) empty_topology
           "1 1 0 0.0 0.0 0.0 0.0" Sample.world0) = Ok t' /\
    sites t' = [s] /\ site_atom_type s = Some (Reader.deepcopy_atom_type id Sample.hydrogen).
Proof.
  destruct (Reader.parse_atom_line Sample.env0 (Sample.unit_systems "real")
              ([Sample.carbon] ++ [Sample.hydrogen]) empty_topology
              "1 1 0 0.0 0.0 0.0 0.0" Sample.world0) as [r w'] eqn:E.
  assert (Hr : exists t', r = Ok t') by (vm_compute in E; injection E as <- _; eauto).
  destruct Hr as (t' & ->).
  destruct (type_number_zero_is_the_last_type Sample.env0 (Sample.unit_systems "real")
              [Sample.carbon] Sample.hydrogen empty_topology t' "1 1 0 0.0 0.0 0.0 0.0"
              Sample.world0 w' eq_refl E) as (s & id & Hs & Hty).
  exists t', s, id. auto.
Defined.

(** ** Before the file is opened *)

(** On a topology whose connections carry no type,
    [_try_default_potential_conversions] converts nothing: it returns
    the topology as it is when there is no connection at all, and raises
    [AttributeError] for the first kind that has connections, in the
    order impropers, dihedrals, angles, bonds. *)
Theorem untyped_connections_are_refused (env : Env) (top : Topology) :
  (forall k, Writer.conn_types top k = []) ->
  Writer._try_default_potential_conversions env top Writer.default_parameterMaps
  = match find (fun k => Writer.nonempty (connections top k)) [Improper; Dihedral; Angle; Bond] with
    | Some k => Raise (AttributeError ("Missing parameters in " ++ Writer.conn_str k))
    | None => Ok top
    end.
Proof.
  intros H. unfold Writer.default_parameterMaps.
  cbn [Writer._try_default_potential_conversions find]. rewrite !H. cbn [Writer.nonempty].
  destruct (Writer.nonempty (connections top Improper)); [reflexivity |].
  destruct (Writer.nonempty (connections top Dihedral)); [reflexivity |].
  destruct (Writer.nonempty (connections top Angle)); [reflexivity |].
  destruct (Writer.nonempty (connections top Bond)); reflexivity.
Qed.

Definition untyped_bond : Topology :=
  mkTop (Some "Topology") [Sample.site_c; Sample.site_h] [mkConn Bond [0; 1]%nat None] [] [] []
    (Some (Sample.cube 10)).

Lemma untyped_connections_are_refused_sample :
  Writer._try_default_potential_conversions Sample.env0 untyped_bond Writer.default_parameterMaps
  = Raise (AttributeError "Missing parameters in bonds").
Proof.
  rewrite (untyped_connections_are_refused Sample.env0 untyped_bond); [reflexivity |].
  intros k. destruct k; reflexivity.
Defined.

(** Without an atom type the largest [sigma], [epsilon], mass or charge
    does not exist: [_default_lj_val] raises the [ValueError] of [max]
    on an empty list, and so does the resolution of the reference
    factors of the [lj] style unless the four of them are given. *)
Theorem lj_defaults_need_atom_types (top : Topology) (key : string) :
  Writer.atom_types top = [] ->
  In key Writer.defaultsList ->
  Writer._default_lj_val top key = Raise (ValueError "max() arg is an empty sequence") /\
  Writer.resolve_lj_cfactors top "lj" None
  = Raise (ValueError "max() arg is an empty sequence").
Proof.
  intros H Hk.
  assert (Hd : forall k, In k Writer.defaultsList ->
                 Writer._default_lj_val top k = Raise (ValueError "max() arg is an empty sequence")).
  { intros k Hin. unfold Writer._default_lj_val. rewrite H.
    simpl in Hin. decompose [or] Hin; subst; try contradiction; reflexivity. }
  split; [apply Hd; assumption |].
  unfold Writer.resolve_lj_cfactors. cbn [String.eqb Ascii.eqb Bool.eqb negb map app].
  unfold Writer.defaultsList at 1. cbn [app Writer.resolve_factors].
  change (Py.mem "length" Writer.defaultsList) with true. cbn [negb assoc].
  rewrite Hd by (left; reflexivity). reflexivity.
Qed.

Lemma lj_defaults_need_atom_types_sample :
  Writer._default_lj_val empty_topology "mass" = Raise (ValueError "max() arg is an empty sequence") /\
  Writer.resolve_lj_cfactors empty_topology "lj" None
  = Raise (ValueError "max() arg is an empty sequence").
Proof.
  apply (lj_defaults_need_atom_types empty_topology "mass").
  - reflexivity.
  - simpl. auto.
Defined.

Lemma resolve_factors_needs_default (top : Topology) (fs : list string)
  (d d' : list (string * quantity)) (key : string) (v : quantity) :
  Writer.resolve_factors top fs d = Ok d' -> In key fs ->
  assoc key d = Some v -> Writer.truthy v = false ->
  exists v0, Writer._default_lj_val top key = Ok v0.
Proof.
  revert d. induction fs as [| f fs IH]; intros d H Hin Hk Hv; [destruct Hin |].
  destruct (String.eqb_spec key f) as [-> | NE].
  - cbn [Writer.resolve_factors] in H.
    destruct (negb (Py.mem f Writer.defaultsList)); [discriminate |].
    rewrite Hk, Hv in H. apply bind_Ok in H. destruct H as (v0 & Hv0 & _). eauto.
  - destruct Hin as [E | Hin]; [congruence |].
    apply resolve_factors_step in H. destruct H as (_ & d1 & H1 & Hp & _).
    apply (IH d1); auto.
Qed.

(** A reference factor given by the caller is never replaced, not even
    a zero, which Python takes for a missing value: the resolved table
    holds the given value. For a zero the default is computed all the
    same, and the call fails when it cannot be. *)
Theorem explicit_factors_are_kept (top : Topology) (d : list (string * quantity))
  (r : Writer.cfactors) (key : string) (v : quantity) :
  Writer.resolve_lj_cfactors top "lj" (Some d) = Ok r ->
  assoc key d = Some v ->
  (exists d', r = Some d' /\ assoc key d' = Some v) /\
  (Writer.truthy v = false -> exists v0, Writer._default_lj_val top key = Ok v0).
Proof.
  unfold Writer.resolve_lj_cfactors. cbn [String.eqb Ascii.eqb Bool.eqb negb].
  intros H Hk. apply bind_Ok in H. destruct H as (d' & Hd & H). injection H as <-.
  split.
  - exists d'. split; [reflexivity |]. eapply resolve_factors_preserves; eassumption.
  - intros Hv. eapply resolve_factors_needs_default; try eassumption.
    apply in_or_app. right. clear Hd. induction d as [| [k0 v0] d IH]; [discriminate |].
    simpl in Hk |- *. destruct (String.eqb_spec key k0) as [-> | NE]; [left; reflexivity |].
    right. apply IH. assumption.
Qed.

Lemma explicit_factors_are_kept_sample :
  exists d',
    Writer.resolve_lj_cfactors Sample.methylidyne "lj" (Some [("charge", mkQ 0 Sample.e_charge)])
    = Ok (Some d') /\
    assoc "charge" d' = Some (mkQ 0 Sample.e_charge).
Proof.
  destruct (Writer.resolve_lj_cfactors Sample.methylidyne "lj"
              (Some [("charge", mkQ 0 Sample.e_charge)])) as [r | e] eqn:E;
    [| vm_compute in E; discriminate].
  destruct (explicit_factors_are_kept Sample.methylidyne [("charge", mkQ 0 Sample.e_charge)]
              r "charge" (mkQ 0 Sample.e_charge) E eq_refl) as [(d' & -> & Hd') _].
  exists d'. auto.
Defined.

(** * Connections and their members

    [gmso/abc/abstract_connection.py] and [gmso/core/dihedral.py]. The
    classes of sites are not in the sources: a site is an object with an
    identity, and two sites are the same member when they are the same
    object, as everywhere in this development. *)

Module AbstractConnection.

(** What may be passed as a member of a connection: a site, a [dict]
    that describes one, or something else. *)
Inductive member : Type :=
| MSite (s : Site)
| MDict (fields : list (string * string))
| MOther (description : string).

Definition is_dict (m : member) : bool :=
  match m with MDict _ => true | _ => false end.

Definition is_site (m : member) : bool :=
  match m with MSite _ => true | _ => false end.

(** The [values] handed to the validator: the entries
    [connection_members] and [name], each possibly missing. *)
Record values : Type := mkValues {
  v_connection_members : option (list member);
  v_name : option string
}.

(** [len(set(l))] for a list of sites. *)
Definition set_size (l : list member) : nat :=
  List.length (nodup Nat.eq_dec
                 (flat_map (fun m => match m with MSite s => [site_id s] | _ => [] end) l)).

(** Truth value of an optional string. *)
Definition truthy_name (n : option string) : bool :=
  match n with
  | Some (String _ _) => true
  | _ => false
  end.

Section WithClass.

(** [cls.__name__], [cls.__members_creator__] and the name of the class
    of a site. *)
Variable cls_name : string.
Variable members_creator : list (string * string) -> outcome Site.
Variable site_class_name : Site -> string.

Definition create (m : member) : outcome member :=
  match m with
  | MDict d => s <- members_creator d ;; Ok (MSite s)
  | _ => Ok m
  end.

Definition first_class (l : list member) : string :=
  match l with
  | MSite s :: _ => site_class_name s
  | _ => EmptyString
  end.

(** [Connection.validate_fields(cls, values)]. *)
Definition validate_fields (vals : values) : outcome values :=
  match v_connection_members vals with
  | None => Raise (TypeError "'NoneType' object is not iterable")
  | Some given =>
      connection_members <-
        (if forallb is_dict given then mapM create given else Ok given) ;;
      if negb (forallb is_site connection_members) then
        Raise (TypeError "A non-site object provided to be a connection member")
      else if negb (Nat.eqb (set_size connection_members) (List.length connection_members)) then
        Raise (GMSOError ("Trying to create a " ++ cls_name ++ " between same sites. A "
                          ++ cls_name ++ " between same " ++ first_class connection_members
                          ++ "s is not allowed"))
      else
        Ok (mkValues (v_connection_members vals)
              (if truthy_name (v_name vals) then v_name vals else Some cls_name))
  end.

End WithClass.

(** The private attributes [member_types_] and [member_classes_] of the
    type of a connection. *)
Record potential_members : Type := mkPotentialMembers {
  member_types_ : option (list string);
  member_classes_ : option (list string)
}.

(** [getattr(ctype, to_return)] for the two names that pass the
    assertion. *)
Definition getattr (c : potential_members) (to_return : string) : option (list string) :=
  if String.eqb to_return "member_types_" then member_types_ c else member_classes_ c.

(** Truth value of an optional tuple. *)
Definition truthy (l : option (list string)) : bool :=
  match l with
  | Some (_ :: _) => true
  | _ => false
  end.

(** [Connection._has_typed_members]; the members may be missing. *)
Definition _has_typed_members (members : option (list Site)) : outcome bool :=
  match members with
  | None => Raise (TypeError "'NoneType' object is not iterable")
  | Some l =>
      Ok (forallb (fun m => match site_atom_type m with Some _ => true | None => false end) l)
  end.

Definition type_or_class (to_return : string) (m : Site) : string :=
  match site_atom_type m with
  | Some a => if String.eqb to_return "member_types_" then at_name a else at_atomclass a
  | None => EmptyString
  end.

Definition nonempty_string (s : string) : bool :=
  match s with
  | EmptyString => false
  | _ => true
  end.

(** [Connection._get_members_types_or_classes(to_return)], for a
    connection with the given type and members. *)
Definition _get_members_types_or_classes (ctype : option potential_members)
  (members : option (list Site)) (to_return : string) : outcome (option (list string)) :=
  if negb (Py.mem to_return ["member_types_"; "member_classes_"]) then
    Raise (AssertionError EmptyString)
  else
    let ctype_attr := match ctype with Some c => getattr c to_return | None => None end in
    if truthy ctype_attr then Ok ctype_attr
    else
      typed <- _has_typed_members members ;;
      if typed : bool then
        let tc := map (type_or_class to_return) (match members with Some l => l | None => [] end) in
        Ok (if forallb nonempty_string tc then Some tc else None)
      else Ok None.

(** The properties [member_types] and [member_classes]. *)
Definition member_types (ctype : option potential_members) (members : option (list Site))
  : outcome (option (list string)) :=
  _get_members_types_or_classes ctype members "member_types_".

Definition member_classes (ctype : option potential_members) (members : option (list Site))
  : outcome (option (list string)) :=
  _get_members_types_or_classes ctype members "member_classes_".

End AbstractConnection.

Module DihedralMembers.

(** A [frozenset] of tuples of sites: a list without repetition, up to
    the order of its elements. *)
Definition frozenset (l : list (list nat)) : list (list nat) :=
  nodup (list_eq_dec Nat.eq_dec) l.

(** [Dihedral.equivalent_members()]. *)
Definition equivalent_members (d : Connection) : list (list nat) :=
  frozenset [connection_members d; rev (connection_members d)].

End DihedralMembers.

(** * Copies and validation of atom types

    [AtomType.clone], [validate_mass] and [validate_charge] of
    [gmso/core/atom_type.py]; [_validate_mass] and [_validate_charge]
    of [topology/core/atom_type.py]. *)

(** A mass or a charge as a caller may give it: a bare number or a
    quantity. *)
Inductive pynum : Type :=
| PyNumber (x : Q)
| PyQuantity (q : quantity).

Definition gram_per_mol : Unit := U_named "g/mol".
Definition elementary_charge : Unit := U_named "elementary_charge".

Module AtomTypeCopy.

Section WithEnv.

Variable env : Env.

(** The text of [UNIT_WARNING_STRING.format(what, unit)]; the constant
    is not in the sources. *)
Variable UNIT_WARNING_STRING : string -> string -> string.

(** [AtomType.validate_mass(mass)]. *)
Definition validate_mass (mass : pynum) : IO quantity :=
  match mass with
  | PyNumber x =>
      (warn (UNIT_WARNING_STRING "Masses" "g/mol") ;;; ret (mkQ x gram_per_mol))%io
  | PyQuantity q =>
      (lift (ensure_valid_dimensions env q (mkQ 1 gram_per_mol)) ;;; ret q)%io
  end.

(** [AtomType.validate_charge(charge)]. *)
Definition validate_charge (charge : pynum) : IO quantity :=
  match charge with
  | PyNumber x =>
      (warn (UNIT_WARNING_STRING "Charges" "elementary charge") ;;; ret (mkQ x elementary_charge))%io
  | PyQuantity q =>
      (lift (ensure_valid_dimensions env q (mkQ 1 elementary_charge)) ;;; ret q)%io
  end.

(** [self.clone()]: a new object built by the constructor from copies
    of the fields, each validated again. *)
Definition clone (self : AtomType) : IO AtomType :=
  (id <- fresh ;;
   mass <- validate_mass (PyQuantity (mkQ (value (at_mass self)) (units (at_mass self)))) ;;
   charge <- validate_charge (PyQuantity (mkQ (value (at_charge self)) (units (at_charge self)))) ;;
   let overrides := match at_overrides self with [] => [] | o => o end in
   ret (mkAtomType id (at_name self) mass charge (at_expression self) (at_parameters self)
          (at_independent_variables self) (at_atomclass self) (at_doi self) overrides
          (at_definition self) (at_description self)))%io.

End WithEnv.

(** The atom type with the same values of the parameters, in the same
    positions, under other keys. *)
Definition rekeyed (id : nat) (keys : list string) (a : AtomType) : AtomType :=
  mkAtomType id (at_name a) (at_mass a) (at_charge a) (at_expression a)
    (combine keys (map snd (at_parameters a))) (at_independent_variables a) (at_atomclass a)
    (at_doi a) (at_overrides a) (at_definition a) (at_description a).

End AtomTypeCopy.

Module TopologyValidators.

(** What the validators take from [unyt], which is not in the sources:
    the dimensions of a unit ([x.units.dimensions] and the comparison
    [!=] on them) and the constant [u.elementary_charge], a quantity
    (the charge of the proton in its own unit), so that a product with
    it scales the value. [u.gram / u.mol] is the unit [gram_per_mol]. *)
Section Unyt.

Variable dims : Type.
Variable dims_eqb : dims -> dims -> bool.
Variable dimensions : Unit -> dims.
Variable u_elementary_charge : quantity.

(** [x * u.elementary_charge] for a number [x]. *)
Definition times_elementary_charge (x : Q) : quantity :=
  mkQ (Qred (x * value u_elementary_charge)) (units u_elementary_charge).

Definition same_dimensions (a b : Unit) : bool :=
  dims_eqb (dimensions a) (dimensions b).

(** [_validate_charge(charge)]. *)
Definition _validate_charge (charge : pynum) : IO quantity :=
  match charge with
  | PyNumber x =>
      (warn "Charges are assumed to be elementary charge" ;;;
       ret (times_elementary_charge x))%io
  | PyQuantity q =>
      if negb (same_dimensions (units q) (units u_elementary_charge)) then
        (warn "Charges are assumed to be elementary charge" ;;;
         ret (times_elementary_charge (value q)))%io
      else ret q
  end.

(** [_validate_mass(mass)]. *)
Definition _validate_mass (mass : pynum) : IO quantity :=
  match mass with
  | PyNumber x =>
      (warn "Masses are assumed to be g/mol" ;;; ret (mkQ x gram_per_mol))%io
  | PyQuantity q =>
      if negb (same_dimensions (units q) gram_per_mol) then
        (warn "Masses are assumed to be g/mol" ;;; ret (mkQ (value q) gram_per_mol))%io
      else ret q
  end.

(** The value of what the caller gave. *)
Definition given_value (x : pynum) : Q :=
  match x with
  | PyNumber v => v
  | PyQuantity q => value q
  end.

(** The argument is a quantity of the dimensions of [u] already. *)
Definition has_dimension_of (x : pynum) (u : Unit) : bool :=
  match x with
  | PyNumber _ => false
  | PyQuantity q => same_dimensions (units q) u
  end.

End Unyt.

End TopologyValidators.

(** ** Members of a connection *)

Lemma nodup_length_le {A : Type} (dec : forall x y : A, {x = y} + {x <> y}) (l : list A) :
  (List.length (nodup dec l) <= List.length l)%nat.
Proof.
  induction l as [| x l IH]; simpl; [lia |]. destruct (in_dec dec x l); simpl; lia.
Qed.

Lemma nodup_length_NoDup {A : Type} (dec : forall x y : A, {x = y} + {x <> y}) (l : list A) :
  List.length (nodup dec l) = List.length l <-> NoDup l.
Proof.
  split.
  - induction l as [| x l IH]; simpl; intros H; [constructor |].
    destruct (in_dec dec x l) as [Hin | Hnin].
    + pose proof (nodup_length_le dec l). lia.
    + simpl in H. constructor; [assumption | apply IH; lia].
  - intros H. rewrite nodup_fixed_point by assumption. reflexivity.
Qed.

Lemma site_ids_of_sites (l : list Site) :
  flat_map (fun m => match m with AbstractConnection.MSite s => [site_id s] | _ => [] end)
           (map AbstractConnection.MSite l)
  = map site_id l.
Proof. induction l as [| s l IH]; simpl; [reflexivity | rewrite IH; reflexivity]. Qed.

Lemma nodup_ids_NoDup (l : list nat) : Reader.nodup_ids l = true <-> NoDup l.
Proof.
  induction l as [| x l IH]; simpl.
  - split; [constructor | reflexivity].
  - rewrite andb_true_iff, negb_true_iff, IH. split.
    + intros [Hx Hl]. constructor; [| assumption]. intros Hin.
      assert (E : existsb (Nat.eqb x) l = true)
        by (apply existsb_exists; exists x; split; [assumption | apply Nat.eqb_refl]).
      congruence.
    + intros H. inversion H as [| ? ? Hx Hl]; subst. split; [| assumption].
      destruct (existsb (Nat.eqb x) l) eqn:E; [| reflexivity].
      apply existsb_exists in E. destruct E as (y & Hy & Exy). apply Nat.eqb_eq in Exy.
      subst. contradiction.
Qed.

(** [Connection.validate_fields] on a list of sites: the values are
    accepted exactly when the sites are pairwise distinct objects; the
    members are then returned as given, under the given name or, when
    that is missing or empty, under the name of the class. Repeated
    sites raise [GMSOError], a member that is neither a site nor a
    [dict] raises [TypeError], and so do missing members. The check of
    the reader on the members of a connection agrees with it. *)
Theorem validate_fields_accepts_distinct_sites (cls_name : string)
  (members_creator : list (string * string) -> outcome Site)
  (site_class_name : Site -> string) (sites : list Site) (name : option string) :
  (NoDup (map site_id sites) ->
   AbstractConnection.validate_fields cls_name members_creator site_class_name
     (AbstractConnection.mkValues (Some (map AbstractConnection.MSite sites)) name)
   = Ok (AbstractConnection.mkValues (Some (map AbstractConnection.MSite sites))
           (if AbstractConnection.truthy_name name then name else Some cls_name))) /\
  (~ NoDup (map site_id sites) ->
   exists msg,
     AbstractConnection.validate_fields cls_name members_creator site_class_name
       (AbstractConnection.mkValues (Some (map AbstractConnection.MSite sites)) name)
     = Raise (GMSOError msg)) /\
  (forall k, Reader.validate_fields k sites = Ok tt <-> NoDup (map site_id sites)) /\
  (forall description rest,
     AbstractConnection.validate_fields cls_name members_creator site_class_name
       (AbstractConnection.mkValues
          (Some (AbstractConnection.MOther description :: rest)) name)
     = Raise (TypeError "A non-site object provided to be a connection member")) /\
  AbstractConnection.validate_fields cls_name members_creator site_class_name
    (AbstractConnection.mkValues None name)
  = Raise (TypeError "'NoneType' object is not iterable").
Proof.
  set (vals := AbstractConnection.mkValues (Some (map AbstractConnection.MSite sites)) name).
  assert (Hm : forall l, forallb AbstractConnection.is_site (map AbstractConnection.MSite l) = true).
  { intros l. induction l as [| s l IH]; simpl; auto. }
  assert (Hstep :
    AbstractConnection.validate_fields cls_name members_creator site_class_name vals
    = if negb (Nat.eqb (AbstractConnection.set_size (map AbstractConnection.MSite sites))
                       (List.length (map AbstractConnection.MSite sites)))
      then Raise (GMSOError ("Trying to create a " ++ cls_name ++ " between same sites. A "
                             ++ cls_name ++ " between same "
                             ++ AbstractConnection.first_class site_class_name
                                  (map AbstractConnection.MSite sites)
                             ++ "s is not allowed"))
      else Ok (AbstractConnection.mkValues (Some (map AbstractConnection.MSite sites))
                 (if AbstractConnection.truthy_name name then name else Some cls_name))).
  { unfold AbstractConnection.validate_fields, vals. cbn [AbstractConnection.v_connection_members
      AbstractConnection.v_name].
    destruct sites as [| s sites]; [reflexivity |].
    cbn [map forallb AbstractConnection.is_dict andb bind].
    change (AbstractConnection.MSite s :: map AbstractConnection.MSite sites)
      with (map AbstractConnection.MSite (s :: sites)).
    rewrite Hm. reflexivity. }
  assert (Hsize : Nat.eqb (AbstractConnection.set_size (map AbstractConnection.MSite sites))
                          (List.length (map AbstractConnection.MSite sites)) = true
                  <-> NoDup (map site_id sites)).
  { unfold AbstractConnection.set_size. rewrite site_ids_of_sites, Nat.eqb_eq, !length_map.
    rewrite <- (length_map site_id sites). apply nodup_length_NoDup. }
  repeat split.
  - intros Hnd. rewrite Hstep. apply Hsize in Hnd. rewrite Hnd. reflexivity.
  - intros Hnd. rewrite Hstep.
    assert (E : Nat.eqb (AbstractConnection.set_size (map AbstractConnection.MSite sites))
                        (List.length (map AbstractConnection.MSite sites)) = false).
    { apply not_true_is_false. intros E. apply Hnd, Hsize, E. }
    rewrite E. eexists. reflexivity.
  - unfold Reader.validate_fields. intros H. apply nodup_ids_NoDup.
    destruct (Reader.nodup_ids (map site_id sites)); [reflexivity | discriminate].
  - unfold Reader.validate_fields. intros H. apply nodup_ids_NoDup in H. rewrite H. reflexivity.
Qed.

(** The names stored on the type of a connection, if it has a type. *)
Definition stored_member_types (ctype : option AbstractConnection.potential_members)
  : option (list string) :=
  match ctype with
  | Some c => AbstractConnection.member_types_ c
  | None => None
  end.

(** The members of a connection, as names of atom types: the names
    stored on the type of the connection whenever there are any,
    whatever the members are; otherwise the names of the atom types of
    the members, in order, provided that every member has an atom type
    with a name that is not empty; otherwise nothing. *)
Theorem member_types_of_a_connection (ctype : option AbstractConnection.potential_members)
  (members : list Site) (l : list string) :
  (AbstractConnection.member_types ctype (Some members) = Ok (Some l) <->
   (stored_member_types ctype = Some l /\ l <> []) \/
   (AbstractConnection.truthy (stored_member_types ctype) = false /\
    Forall2 (fun m n => exists a, site_atom_type m = Some a /\ at_name a = n /\ n <> EmptyString)
            members l)) /\
  (exists r, AbstractConnection.member_types ctype (Some members) = Ok r).
Proof.
  set (stored := stored_member_types ctype).
  unfold AbstractConnection.member_types, AbstractConnection._get_members_types_or_classes.
  change (Py.mem "member_types_" ["member_types_"; "member_classes_"]) with true. cbn [negb].
  assert (Hst : match ctype with
                | Some c => AbstractConnection.getattr c "member_types_"
                | None => None
                end = stored) by (destruct ctype; reflexivity).
  rewrite Hst. clear Hst.
  assert (Hnames : forall ms names,
             forallb (fun m => match site_atom_type m with Some _ => true | None => false end) ms
             = true ->
             forallb AbstractConnection.nonempty_string
               (map (AbstractConnection.type_or_class "member_types_") ms) = true ->
             names = map (AbstractConnection.type_or_class "member_types_") ms ->
             Forall2 (fun m n => exists a, site_atom_type m = Some a /\ at_name a = n
                                           /\ n <> EmptyString) ms names).
  { intros ms. induction ms as [| m ms IH]; intros names Ht Hn ->; simpl; [constructor |].
    simpl in Ht, Hn. apply andb_true_iff in Ht, Hn. destruct Ht as [Hm Ht], Hn as [Hm' Hn].
    constructor; [| apply IH; auto].
    unfold AbstractConnection.type_or_class in *. destruct (site_atom_type m) as [a |];
      [| discriminate].
    change ("member_types_" =? "member_types_")%string with true in *. cbv iota in *.
    exists a. split; [reflexivity |]. split; [reflexivity |].
    intros E. rewrite E in Hm'. discriminate. }
  assert (Hconv : forall ms names,
             Forall2 (fun m n => exists a, site_atom_type m = Some a /\ at_name a = n
                                           /\ n <> EmptyString) ms names ->
             forallb (fun m => match site_atom_type m with Some _ => true | None => false end) ms
             = true /\
             forallb AbstractConnection.nonempty_string
               (map (AbstractConnection.type_or_class "member_types_") ms) = true /\
             names = map (AbstractConnection.type_or_class "member_types_") ms).
  { intros ms names HF. induction HF as [| m n ms names (a & Ha & Hn & Hne) HF IH];
      [repeat split |].
    destruct IH as (IH1 & IH2 & ->).
    assert (Em : AbstractConnection.type_or_class "member_types_" m = n).
    { unfold AbstractConnection.type_or_class. rewrite Ha. exact Hn. }
    cbn [map forallb]. rewrite Em, Ha, IH1, IH2.
    split; [reflexivity |]. split; [| reflexivity].
    destruct n; [contradiction | reflexivity]. }
  split.
  - destruct (AbstractConnection.truthy stored) eqn:Et.
    + split.
      * intros H. injection H as H. left. split; [assumption |].
        intros ->. rewrite H in Et. discriminate.
      * intros [[H _] | [H _]]; [rewrite H; reflexivity | discriminate].
    + cbn [AbstractConnection._has_typed_members bind]. split.
      * intros H. right. split; [reflexivity |].
        destruct (forallb _ members) eqn:Ety; [| discriminate].
        destruct (forallb AbstractConnection.nonempty_string _) eqn:Ene; [| discriminate].
        injection H as <-. apply Hnames; auto.
      * intros [[H Hne] | [_ HF]].
        -- rewrite H in Et. destruct l; [contradiction | discriminate].
        -- apply Hconv in HF. destruct HF as (H1 & H2 & ->). rewrite H1, H2. reflexivity.
  - destruct (AbstractConnection.truthy stored); [eauto |].
    cbn [AbstractConnection._has_typed_members bind].
    destruct (forallb _ members); eauto.
Qed.

(** ** Equivalent members of a dihedral *)

(** [Dihedral.equivalent_members] holds the members in their order and
    in the reverse order, and nothing else; a dihedral and the dihedral
    with the reverse members have the same equivalent members; and for
    four distinct members, which is what the validation of a dihedral
    lets through, the set has two elements. *)
Theorem dihedral_equivalent_members (d d' : Connection) :
  (forall t, In t (DihedralMembers.equivalent_members d) <->
             t = connection_members d \/ t = rev (connection_members d)) /\
  (connection_members d' = rev (connection_members d) ->
   forall t, In t (DihedralMembers.equivalent_members d')
             <-> In t (DihedralMembers.equivalent_members d)) /\
  NoDup (DihedralMembers.equivalent_members d) /\
  (NoDup (connection_members d) -> List.length (connection_members d) = 4%nat ->
   List.length (DihedralMembers.equivalent_members d) = 2%nat).
Proof.
  assert (Hin : forall c t, In t (DihedralMembers.equivalent_members c) <->
                            t = connection_members c \/ t = rev (connection_members c)).
  { intros c t. unfold DihedralMembers.equivalent_members, DihedralMembers.frozenset.
    rewrite nodup_In. simpl. intuition congruence. }
  split; [apply Hin |]. split; [| split].
  - intros Hrev t. rewrite !Hin, Hrev, rev_involutive. tauto.
  - apply NoDup_nodup.
  - intros Hnd Hlen. unfold DihedralMembers.equivalent_members, DihedralMembers.frozenset.
    destruct (connection_members d) as [| a [| b [| c [| e [| f l]]]]]; try discriminate.
    simpl rev. cbn [nodup].
    destruct (in_dec (list_eq_dec Nat.eq_dec) [a; b; c; e] [[e; c; b; a]]) as [Hi | Hn];
      [| reflexivity].
    exfalso. destruct Hi as [E | []]. injection E as -> _ _ _.
    inversion Hnd as [| ? ? Ha _]; subst. apply Ha. simpl. auto.
Qed.

(** The dihedral 0-1-2-3 and its reverse. *)
Lemma dihedral_equivalent_members_sample :
  DihedralMembers.equivalent_members (mkConn Dihedral [0; 1; 2; 3]%nat None)
  = [[0; 1; 2; 3]; [3; 2; 1; 0]]%nat /\
  List.length (DihedralMembers.equivalent_members (mkConn Dihedral [0; 1; 2; 3]%nat None)) = 2%nat /\
  (In [3; 2; 1; 0]%nat (DihedralMembers.equivalent_members (mkConn Dihedral [3; 2; 1; 0]%nat None))
   <-> In [3; 2; 1; 0]%nat (DihedralMembers.equivalent_members (mkConn Dihedral [0; 1; 2; 3]%nat None))).
Proof.
  destruct (dihedral_equivalent_members (mkConn Dihedral [0; 1; 2; 3]%nat None)
              (mkConn Dihedral [3; 2; 1; 0]%nat None)) as (_ & Hrev & _ & Hlen).
  split; [reflexivity |]. split.
  - apply Hlen; [| reflexivity]. repeat constructor; simpl; intuition lia.
  - apply Hrev. reflexivity.
Defined.

(** ** Equality, copies and validation of atom types *)

(** A clone is another object that compares equal to the original, in
    both directions, and holds the same fields; cloning fails only if
    the mass or the charge of the original does not pass the validator
    of its field again. *)
Theorem clone_compares_equal (env : Env) (UNIT_WARNING_STRING : string -> string -> string)
  (self : AtomType) (w : world) :
  (forall c w',
     AtomTypeCopy.clone env UNIT_WARNING_STRING self w = (Ok c, w') ->
     at_id c = w_next_id w /\
     GmsoAtomType.eq self (PyAtomType c) = true /\
     GmsoAtomType.eq c (PyAtomType self) = true /\
     AtomTypeCopy.rekeyed (at_id self) (map fst (at_parameters self)) c = self) /\
  (ensure_valid_dimensions env (at_mass self) (mkQ 1 gram_per_mol) = Ok tt ->
   ensure_valid_dimensions env (at_charge self) (mkQ 1 elementary_charge) = Ok tt ->
   exists c w', AtomTypeCopy.clone env UNIT_WARNING_STRING self w = (Ok c, w')).
Proof.
  assert (Hq : forall q : quantity, mkQ (value q) (units q) = q) by (intros [v u]; reflexivity).
  assert (Hov : match at_overrides self with [] => [] | o => o end = at_overrides self)
    by (destruct (at_overrides self); reflexivity).
  split.
  - intros c w' H. unfold AtomTypeCopy.clone in H.
    apply io_bind_Ok in H. destruct H as (id & w1 & Hid & H). apply fresh_Ok in Hid.
    apply io_bind_Ok in H. destruct H as (m & w2 & Hm & H).
    apply io_bind_Ok in H. destruct H as (ch & w3 & Hch & H).
    unfold ret in H. injection H as <- _.
    unfold AtomTypeCopy.validate_mass in Hm. rewrite Hq in Hm.
    apply io_bind_Ok in Hm. destruct Hm as (? & ? & _ & Hm). unfold ret in Hm.
    injection Hm as <- _.
    unfold AtomTypeCopy.validate_charge in Hch. rewrite Hq in Hch.
    apply io_bind_Ok in Hch. destruct Hch as (? & ? & _ & Hch). unfold ret in Hch.
    injection Hch as <- _.
    rewrite Hov. split; [exact Hid |]. split; [| split].
    + apply eq_same_fields; reflexivity || tauto.
    + apply eq_same_fields; reflexivity || tauto.
    + unfold AtomTypeCopy.rekeyed. cbn [at_parameters at_name at_mass at_charge at_expression
        at_independent_variables at_atomclass at_doi at_overrides at_definition at_description].
      assert (Hc : forall l : list (string * quantity), combine (map fst l) (map snd l) = l).
      { intros l. induction l as [| [k v] l IH]; simpl; [reflexivity | rewrite IH; reflexivity]. }
      rewrite Hc. destruct self. reflexivity.
  - intros Hm Hc. unfold AtomTypeCopy.clone, AtomTypeCopy.validate_mass,
      AtomTypeCopy.validate_charge, io_bind, fresh, lift, ret.
    rewrite !Hq, Hm, Hc. eauto.
Qed.

Lemma combine_fst {A B : Type} (ks : list A) (vs : list B) :
  List.length ks = List.length vs -> map fst (combine ks vs) = ks.
Proof.
  revert vs. induction ks as [| k ks IH]; intros [| v vs] Hl; simpl in *; try discriminate;
    [reflexivity |]. rewrite IH by lia. reflexivity.
Qed.

Lemma combine_snd {A B : Type} (ks : list A) (vs : list B) :
  List.length ks = List.length vs -> map snd (combine ks vs) = vs.
Proof.
  revert vs. induction ks as [| k ks IH]; intros [| v vs] Hl; simpl in *; try discriminate;
    [reflexivity |]. rewrite IH by lia. reflexivity.
Qed.

(** [AtomType.__eq__] compares the keys of the parameters as sets and
    the values in their order in the [dict]: an atom type compares equal
    to the type that holds the same values in the same positions under
    any rearrangement of the keys, so that it cannot tell which key
    holds which value. *)
Theorem eq_ignores_which_key_holds_a_value (a : AtomType) (id : nat) (keys : list string) :
  Permutation keys (map fst (at_parameters a)) ->
  GmsoAtomType.eq a (PyAtomType (AtomTypeCopy.rekeyed id keys a)) = true /\
  map snd (at_parameters (AtomTypeCopy.rekeyed id keys a)) = map snd (at_parameters a) /\
  map fst (at_parameters (AtomTypeCopy.rekeyed id keys a)) = keys.
Proof.
  intros HP.
  assert (Hlen : List.length keys = List.length (map snd (at_parameters a))).
  { rewrite (Permutation_length HP), !length_map. reflexivity. }
  pose proof (combine_fst keys _ Hlen) as Hfst.
  pose proof (combine_snd keys _ Hlen) as Hsnd.
  split; [| split; assumption].
  apply eq_same_fields; try reflexivity.
  - unfold AtomTypeCopy.rekeyed. cbn [at_parameters]. rewrite Hfst. intros x. split; intros Hx.
    + eapply Permutation_in; [apply Permutation_sym; eassumption | assumption].
    + eapply Permutation_in; eassumption.
  - unfold AtomTypeCopy.rekeyed. cbn [at_parameters]. symmetry. assumption.
Qed.

(** Carbon with [sigma] and [epsilon] exchanged: the two types compare
    equal although their [sigma] differ. *)
Lemma eq_ignores_which_key_holds_a_value_sample :
  GmsoAtomType.eq Sample.carbon
    (PyAtomType (AtomTypeCopy.rekeyed 7 ["epsilon"; "sigma"] Sample.carbon)) = true /\
  assoc "sigma" (at_parameters Sample.carbon) = Some (mkQ 3.5 Sample.angstrom) /\
  assoc "sigma" (at_parameters (AtomTypeCopy.rekeyed 7 ["epsilon"; "sigma"] Sample.carbon))
  = Some (mkQ 0.066 Sample.kcal_mol).
Proof.
  destruct (eq_ignores_which_key_holds_a_value Sample.carbon 7 ["epsilon"; "sigma"]) as (H & _ & _).
  - apply perm_swap.
  - split; [exact H |]. split; reflexivity.
Defined.

(** The validators of [topology/core/atom_type.py] never raise and
    touch no file. A quantity that has the dimensions of a charge (of a
    mass) already comes back as it is, without a warning. Anything else,
    a bare number or a quantity of other dimensions, comes back with one
    warning: a mass as the same value in grams per mole, a charge as
    the value multiplied by the constant [u.elementary_charge], in the
    unit of that constant; so the number given for a charge is not the
    value of the result. *)
Theorem topology_validators_results (dims : Type) (dims_eqb : dims -> dims -> bool)
  (dimensions : Unit -> dims) (e : quantity) (x : pynum) (w : world) :
  (exists q,
     TopologyValidators._validate_charge dims dims_eqb dimensions e x w
     = (Ok q,
        mkWorld (w_files w)
          (if TopologyValidators.has_dimension_of dims dims_eqb dimensions x (units e)
           then w_log w
           else (w_log w ++ [EvWarn "Charges are assumed to be elementary charge"])%list)
          (w_next_id w)) /\
     (TopologyValidators.has_dimension_of dims dims_eqb dimensions x (units e) = true ->
      x = PyQuantity q) /\
     (TopologyValidators.has_dimension_of dims dims_eqb dimensions x (units e) = false ->
      q = mkQ (Qred (TopologyValidators.given_value x * value e)) (units e))) /\
  (exists q,
     TopologyValidators._validate_mass dims dims_eqb dimensions x w
     = (Ok q,
        mkWorld (w_files w)
          (if TopologyValidators.has_dimension_of dims dims_eqb dimensions x gram_per_mol
           then w_log w
           else (w_log w ++ [EvWarn "Masses are assumed to be g/mol"])%list)
          (w_next_id w)) /\
     (TopologyValidators.has_dimension_of dims dims_eqb dimensions x gram_per_mol = true ->
      x = PyQuantity q) /\
     (TopologyValidators.has_dimension_of dims dims_eqb dimensions x gram_per_mol = false ->
      q = mkQ (TopologyValidators.given_value x) gram_per_mol)).
Proof.
  destruct w as [files log next]. split.
  - destruct x as [v | q]; cbn [TopologyValidators._validate_charge
                                 TopologyValidators.has_dimension_of].
    + eexists. split; [reflexivity |]. split; [discriminate | reflexivity].
    + destruct (TopologyValidators.same_dimensions dims dims_eqb dimensions (units q) (units e))
        eqn:E; cbn [negb].
      * exists q. split; [reflexivity |]. split; [reflexivity | discriminate].
      * eexists. split; [reflexivity |]. split; [discriminate | reflexivity].
  - destruct x as [v | q]; cbn [TopologyValidators._validate_mass
                                 TopologyValidators.has_dimension_of].
    + eexists. split; [reflexivity |]. split; [discriminate | reflexivity].
    + destruct (TopologyValidators.same_dimensions dims dims_eqb dimensions (units q) gram_per_mol)
        eqn:E; cbn [negb].
      * exists q. split; [reflexivity |]. split; [reflexivity | discriminate].
      * eexists. split; [reflexivity |]. split; [discriminate | reflexivity].
Qed.

(** The dimensions of a unit by the registry, and their comparison. *)
Definition registry_dimensions (u : Unit) : option dimvec := option_map snd (normalize u).

Definition registry_dims_eqb (a b : option dimvec) : bool :=
  match a, b with
  | Some x, Some y => dv_eqb x y
  | _, _ => false
  end.

(** The constant of [unyt]: [1.6021766208e-19] coulomb. *)
Definition unyt_elementary_charge : quantity :=
  mkQ (16021766208 # 100000000000000000000000000000) (U_named "C").

(** With that constant the bare charge [1] comes back as
    [1.6021766208e-19] coulomb, with a warning, and a mass of one atomic
    mass unit comes back as it is, without a warning. *)
Lemma topology_validators_results_sample :
  (exists q,
     TopologyValidators._validate_charge (option dimvec) registry_dims_eqb registry_dimensions
       unyt_elementary_charge (PyNumber 1) Sample.world0
     = (Ok q, mkWorld [] [EvWarn "Charges are assumed to be elementary charge"] 0) /\
     q = mkQ (Qred (16021766208 # 100000000000000000000000000000)) (U_named "C")) /\
  TopologyValidators._validate_mass (option dimvec) registry_dims_eqb registry_dimensions
    (PyQuantity (mkQ 1 (U_named "amu"))) Sample.world0
  = (Ok (mkQ 1 (U_named "amu")), Sample.world0).
Proof.
  split.
  - destruct (topology_validators_results (option dimvec) registry_dims_eqb registry_dimensions
                unyt_elementary_charge (PyNumber 1) Sample.world0) as [(q & Hq & _ & Hv) _].
    exists q. split; [exact Hq |]. rewrite (Hv eq_refl). vm_compute. reflexivity.
  - destruct (topology_validators_results (option dimvec) registry_dims_eqb registry_dimensions
                unyt_elementary_charge (PyQuantity (mkQ 1 (U_named "amu"))) Sample.world0)
      as [_ (q & Hq & Hsame & _)].
    rewrite Hq. specialize (Hsame eq_refl). injection Hsame as <-. reflexivity.
Defined.

(** ** Reading the box of an orthogonal cell *)

Section OrthogonalBox.

Import BoxR.

Local Open Scope R_scope.

(** The writer ends the box of an orthogonal cell with a line of three
    zero tilt factors, so the reader takes its triclinic branch on it.
    Over the real numbers that branch, on bounds with zero tilt factors
    and positive extents in [y] and [z] (the divisors of the three
    quotients under [arccos]), gives the extents of the three bound
    lines as lengths and three right angles, in radians. *)
Theorem zero_tilts_are_read_as_right_angles (xlo xhi ylo yhi zlo zhi : R) :
  ylo < yhi -> zlo < zhi ->
  read_box (mkBounds xlo xhi ylo yhi zlo zhi 0 0 0)
  = ((xhi - xlo, yhi - ylo, zhi - zlo), (PI / 2, PI / 2, PI / 2)).
Proof.
  intros Hy Hz. unfold read_box, box_of_bounds.
  cbn -[sqrt acos Rmax Rmin PI].
  assert (Hmax0 : Rmax 0 0 = 0) by (apply Rmax_left; lra).
  assert (Hmin0 : Rmin 0 0 = 0) by (apply Rmin_left; lra).
  replace (0 + 0) with 0 by ring. rewrite !Hmax0, !Hmin0.
  replace (0 * 0) with 0 by ring.
  assert (Eb : sqrt ((yhi - 0 - (ylo - 0)) * (yhi - 0 - (ylo - 0)) + 0) = yhi - ylo).
  { replace ((yhi - 0 - (ylo - 0)) * (yhi - 0 - (ylo - 0)) + 0)
      with ((yhi - ylo) * (yhi - ylo)) by ring.
    apply sqrt_square. lra. }
  assert (Ec : sqrt ((zhi - zlo) * (zhi - zlo) + 0 + 0) = zhi - zlo).
  { replace ((zhi - zlo) * (zhi - zlo) + 0 + 0) with ((zhi - zlo) * (zhi - zlo)) by ring.
    apply sqrt_square. lra. }
  rewrite Eb, Ec.
  replace ((0 * (yhi - 0 - (ylo - 0)) + 0) / ((yhi - ylo) * (zhi - zlo))) with 0
    by (field; lra).
  replace (0 / (zhi - zlo)) with 0 by (field; lra).
  replace (0 / (yhi - ylo)) with 0 by (field; lra).
  rewrite acos_0. replace (xhi - 0 - (xlo - 0)) with (xhi - xlo) by ring. reflexivity.
Qed.

(** The cell of edge 10. *)
Lemma zero_tilts_are_read_as_right_angles_sample :
  read_box (mkBounds 0 10 0 10 0 10 0 0 0) = ((10 - 0, 10 - 0, 10 - 0), (PI / 2, PI / 2, PI / 2)).
Proof.
  apply (zero_tilts_are_read_as_right_angles 0 10 0 10 0 10); lra.
Defined.

End OrthogonalBox.

(** ** The order of the table of masses *)

Section StableSort.

Context {A K : Type}.
Variable lt : K -> K -> bool.
Variable key : A -> K.

Hypothesis lt_irrefl : forall x, lt x x = false.
Hypothesis lt_trans : forall x y z, lt x y = true -> lt y z = true -> lt x z = true.

(** [a] may stand before [b]: the key of [b] is not smaller. *)
Definition not_after (a b : A) : Prop := lt (key b) (key a) = false.

Lemma insert_by_not_after (x : A) (l : list A) :
  StronglySorted not_after l -> StronglySorted not_after (Writer.insert_by lt key x l).
Proof.
  intros Hs. induction Hs as [| y l Hs IH Hy]; simpl.
  - constructor; constructor.
  - destruct (lt (key x) (key y)) eqn:E.
    + assert (Hxy : not_after x y).
      { unfold not_after. destruct (lt (key y) (key x)) eqn:E'; [| reflexivity].
        pose proof (lt_trans _ _ _ E E') as Hc. rewrite lt_irrefl in Hc. discriminate. }
      constructor; [constructor; assumption |].
      constructor; [exact Hxy |].
      rewrite Forall_forall in *. intros z Hz. specialize (Hy z Hz). unfold not_after in *.
      destruct (lt (key z) (key x)) eqn:E'; [| reflexivity].
      pose proof (lt_trans _ _ _ E' E) as Hc. congruence.
    + constructor; [exact IH |].
      rewrite Forall_forall in *. intros z Hz.
      apply (Permutation_in _ (insert_by_perm lt key x l)) in Hz.
      destruct Hz as [<- | Hz]; [exact E | apply Hy; assumption].
Qed.

Lemma sorted_by_not_after (l : list A) :
  StronglySorted not_after (Writer.sorted_by lt key l).
Proof.
  unfold Writer.sorted_by.
  assert (H : forall acc, StronglySorted not_after acc ->
                StronglySorted not_after
                  (fold_left (fun acc x => Writer.insert_by lt key x acc) l acc)).
  { induction l as [| x l IH]; intros acc Hacc; simpl; [assumption |].
    apply IH, insert_by_not_after, Hacc. }
  apply H. constructor.
Qed.

End StableSort.

(** The table that [_write_atomtypes], [_write_pairtypes] and
    [_write_site_data] number the atom types by holds every type of the
    filtered view once, in an order in which no name is followed by a
    smaller one. *)
Theorem masses_table_is_sorted (env : Env) (top : Topology) :
  Permutation (Writer.sorted_atom_types env top) (Writer.atom_types_view env top) /\
  StronglySorted (fun a b => String.ltb (at_name b) (at_name a) = false)
    (Writer.sorted_atom_types env top).
Proof.
  split.
  - apply sorted_by_perm.
  - apply (sorted_by_not_after String.ltb at_name string_ltb_irrefl string_ltb_trans).
Qed.
